(** * Azoth DAO: confidential governance contracts and session-key client

    A shallow embedding of the Solidity contracts documented in
    [apps/inco-lite-template/INCO_INTEGRATION.md] (CUSDCMarketplace,
    ConfidentialVault, ConfidentialGovernanceToken, AzothDAO), of the vault
    snippet of [PROJECT_SUMMARY.md], of the session-key client code
    ([utils/inco.ts], [hooks/use-session-key.ts]) and of the predicates of
    the proposals page ([components/dao/Proposals.tsx]).

    Conventions.
    - [uint256], [address] and [bytes32] values are numbers in [N]; checked
      Solidity arithmetic reverts with [Panic] when the result leaves
      [0, 2^256), encrypted arithmetic wraps around.
    - A Solidity [mapping] is a [gmap] read with the zero value as default.
    - A transaction is a function from the world state to a [Result]; a
      revert discards every write of the transaction ([commit]). *)

From Stdlib Require Import NArith ZArith Lia List Bool.
From stdpp Require Import base decidable option gmap sets.

Local Open Scope N_scope.

(** ** Numbers *)

Definition UINT256_MOD : N := 2 ^ 256.

Definition wrap256 (x : N) : N := x mod UINT256_MOD.

(** [bytes32(0)], the handle of an uninitialised encrypted slot. *)
Definition ZERO_HANDLE : N := 0.

(** ** Errors *)

(** The custom errors the contracts revert with. [NotMember] stands for the
    revert of the [onlyMember] modifier, [Panic] for a failed checked
    arithmetic operation. [AlreadyFinalized] is the error the
    specification names for a repeated finalisation; no contract function
    raises it. *)
Inductive Error : Type :=
  | MustSendETH
  | NotDAOMember
  | InsufficientETH
  | NoVotingPower
  | FeeTooLow
  | InvalidRecipient
  | ProposalNotActive
  | VotingNotStarted
  | VotingEnded
  | AlreadyVoted
  | VotingNotEnded
  | AlreadyExecutedOrCanceled
  | NotMember
  | Panic
  | AlreadyFinalized.

Global Instance Error_eq_dec : EqDecision Error.
Proof. solve_decision. Defined.

(** ** Data of AzothDAO.sol *)

Inductive ProposalState : Type :=
  | Pending
  | Active
  | Canceled
  | Defeated
  | Succeeded
  | Queued
  | Executed.

Inductive VotingMode : Type := Normal | Quadratic.

Inductive VoteType : Type := Against | For | Abstain.

Global Instance ProposalState_eq_dec : EqDecision ProposalState.
Proof. solve_decision. Defined.

Global Instance VotingMode_eq_dec : EqDecision VotingMode.
Proof. solve_decision. Defined.

Global Instance VoteType_eq_dec : EqDecision VoteType.
Proof. solve_decision. Defined.

(** [struct Proposal]; the [description] string plays no part in any
    transition and is kept as an opaque number. *)
Record Proposal : Type := mkProposal {
  id : N;
  proposer : N;
  description : N;
  requestedAmount : N;
  recipient : N;
  startBlock : N;
  endBlock : N;
  queuedTime : N;
  forVotes : N;
  againstVotes : N;
  abstainVotes : N;
  state : ProposalState;
  votingMode : VotingMode;
  executed : bool
}.

(** [struct Receipt]. *)
Record Receipt : Type := mkReceipt {
  hasVoted : bool;
  votes : N;
  support : VoteType
}.

(** The value of a storage slot never written. *)
Definition empty_proposal : Proposal :=
  mkProposal 0 0 0 ZERO_HANDLE 0 0 0 0 ZERO_HANDLE ZERO_HANDLE ZERO_HANDLE
             Pending Normal false.

Definition empty_receipt : Receipt := mkReceipt false ZERO_HANDLE Against.

(** ** The encryption engine *)

(** Modelled from the spec: the encryption engine collaborator of section 6
    ([encrypt], [add/sub/mul/div/gt], grants), which is the external
    [@inco/lightning] library. Every operation is total and produces a new
    handle; a handle that was never produced (in particular the zero
    handle) reads as plaintext 0; grants are additive. What the engine
    returns for a division by zero is not documented: the model returns 0. *)
Record Engine : Type := mkEngine {
  next_handle : N;
  plaintexts : gmap N N;
  acl : gset (N * N)
}.

Definition initial_engine : Engine := mkEngine 1 ∅ ∅.

Definition plaintext_of (e : Engine) (h : N) : N :=
  default 0 (plaintexts e !! h).

Definition isAllowed (e : Engine) (h who : N) : bool :=
  bool_decide ((h, who) ∈ acl e).

Definition engine_fresh (v : N) (e : Engine) : N * Engine :=
  (next_handle e,
   mkEngine (next_handle e + 1) (<[next_handle e := v]> (plaintexts e)) (acl e)).

Definition engine_allow (h who : N) (e : Engine) : Engine :=
  mkEngine (next_handle e) (plaintexts e) ({[ (h, who) ]} ∪ acl e).

(** ** Deployment parameters *)

(** Addresses of the four deployed contracts and the constants and
    governance parameters the snippets refer to without defining them. *)
Record Config : Type := mkConfig {
  marketplace_address : N;
  vault_address : N;
  cgov_address : N;
  dao_address : N;
  EXCHANGE_RATE : N;
  DECIMAL_OFFSET : N;
  VIRTUAL_SHARES : N;
  VIRTUAL_ASSETS : N;
  mintPrice : N;
  votingDelay : N;
  votingPeriod : N;
  fee : N
}.

(** The values the documentation gives: 1 ETH = 2000 cUSDC, decimal offset
    1000, virtual shares 1000 and virtual assets 1, mint price 0.001 ETH,
    voting delay 1 block, voting period 50400 blocks. *)
Definition default_config : Config :=
  mkConfig 101 102 103 104 2000 1000 1000 1 1000000000000000 1 50400 0.

(** ** World state: the engine and the storage of the four contracts *)

Record World : Type := mkWorld {
  engine : Engine;
  (* CUSDCMarketplace *)
  cusdc_balances : gmap N N;
  cusdc_totalMinted : N;
  (* ConfidentialVault *)
  vault_totalAssets : N;
  vault_totalShares : N;
  vault_shares : gmap N N;
  (* ConfidentialGovernanceToken *)
  cgov_balances : gmap N N;
  cgov_totalSupply : N;
  cgov_hasVotingPower : gmap N N;
  cgov_hasHeldToken : gmap N bool;
  (* AzothDAO *)
  dao_isMember : gmap N bool;
  dao_proposalCount : N;
  dao_proposals : gmap N Proposal;
  dao_receipts : gmap (N * N) Receipt
}.

Definition initial_world : World :=
  mkWorld initial_engine ∅ ZERO_HANDLE ZERO_HANDLE ZERO_HANDLE ∅
          ∅ ZERO_HANDLE ∅ ∅ ∅ 0 ∅ ∅.

Definition set_engine (e : Engine) (w : World) : World :=
  mkWorld e (cusdc_balances w) (cusdc_totalMinted w)
    (vault_totalAssets w) (vault_totalShares w) (vault_shares w)
    (cgov_balances w) (cgov_totalSupply w) (cgov_hasVotingPower w)
    (cgov_hasHeldToken w)
    (dao_isMember w) (dao_proposalCount w) (dao_proposals w) (dao_receipts w).

Definition set_cusdc_balances (m : gmap N N) (w : World) : World :=
  mkWorld (engine w) m (cusdc_totalMinted w)
    (vault_totalAssets w) (vault_totalShares w) (vault_shares w)
    (cgov_balances w) (cgov_totalSupply w) (cgov_hasVotingPower w)
    (cgov_hasHeldToken w)
    (dao_isMember w) (dao_proposalCount w) (dao_proposals w) (dao_receipts w).

Definition set_cusdc_totalMinted (h : N) (w : World) : World :=
  mkWorld (engine w) (cusdc_balances w) h
    (vault_totalAssets w) (vault_totalShares w) (vault_shares w)
    (cgov_balances w) (cgov_totalSupply w) (cgov_hasVotingPower w)
    (cgov_hasHeldToken w)
    (dao_isMember w) (dao_proposalCount w) (dao_proposals w) (dao_receipts w).

Definition set_vault_totals (assets shares : N) (w : World) : World :=
  mkWorld (engine w) (cusdc_balances w) (cusdc_totalMinted w)
    assets shares (vault_shares w)
    (cgov_balances w) (cgov_totalSupply w) (cgov_hasVotingPower w)
    (cgov_hasHeldToken w)
    (dao_isMember w) (dao_proposalCount w) (dao_proposals w) (dao_receipts w).

Definition set_vault_shares (m : gmap N N) (w : World) : World :=
  mkWorld (engine w) (cusdc_balances w) (cusdc_totalMinted w)
    (vault_totalAssets w) (vault_totalShares w) m
    (cgov_balances w) (cgov_totalSupply w) (cgov_hasVotingPower w)
    (cgov_hasHeldToken w)
    (dao_isMember w) (dao_proposalCount w) (dao_proposals w) (dao_receipts w).

Definition set_cgov_balances (m : gmap N N) (w : World) : World :=
  mkWorld (engine w) (cusdc_balances w) (cusdc_totalMinted w)
    (vault_totalAssets w) (vault_totalShares w) (vault_shares w)
    m (cgov_totalSupply w) (cgov_hasVotingPower w)
    (cgov_hasHeldToken w)
    (dao_isMember w) (dao_proposalCount w) (dao_proposals w) (dao_receipts w).

Definition set_cgov_totalSupply (h : N) (w : World) : World :=
  mkWorld (engine w) (cusdc_balances w) (cusdc_totalMinted w)
    (vault_totalAssets w) (vault_totalShares w) (vault_shares w)
    (cgov_balances w) h (cgov_hasVotingPower w)
    (cgov_hasHeldToken w)
    (dao_isMember w) (dao_proposalCount w) (dao_proposals w) (dao_receipts w).

Definition set_cgov_hasVotingPower (m : gmap N N) (w : World) : World :=
  mkWorld (engine w) (cusdc_balances w) (cusdc_totalMinted w)
    (vault_totalAssets w) (vault_totalShares w) (vault_shares w)
    (cgov_balances w) (cgov_totalSupply w) m
    (cgov_hasHeldToken w)
    (dao_isMember w) (dao_proposalCount w) (dao_proposals w) (dao_receipts w).

Definition set_cgov_hasHeldToken (m : gmap N bool) (w : World) : World :=
  mkWorld (engine w) (cusdc_balances w) (cusdc_totalMinted w)
    (vault_totalAssets w) (vault_totalShares w) (vault_shares w)
    (cgov_balances w) (cgov_totalSupply w) (cgov_hasVotingPower w)
    m
    (dao_isMember w) (dao_proposalCount w) (dao_proposals w) (dao_receipts w).

Definition set_dao_proposalCount (n : N) (w : World) : World :=
  mkWorld (engine w) (cusdc_balances w) (cusdc_totalMinted w)
    (vault_totalAssets w) (vault_totalShares w) (vault_shares w)
    (cgov_balances w) (cgov_totalSupply w) (cgov_hasVotingPower w)
    (cgov_hasHeldToken w)
    (dao_isMember w) n (dao_proposals w) (dao_receipts w).

Definition set_dao_proposals (m : gmap N Proposal) (w : World) : World :=
  mkWorld (engine w) (cusdc_balances w) (cusdc_totalMinted w)
    (vault_totalAssets w) (vault_totalShares w) (vault_shares w)
    (cgov_balances w) (cgov_totalSupply w) (cgov_hasVotingPower w)
    (cgov_hasHeldToken w)
    (dao_isMember w) (dao_proposalCount w) m (dao_receipts w).

Definition set_dao_receipts (m : gmap (N * N) Receipt) (w : World) : World :=
  mkWorld (engine w) (cusdc_balances w) (cusdc_totalMinted w)
    (vault_totalAssets w) (vault_totalShares w) (vault_shares w)
    (cgov_balances w) (cgov_totalSupply w) (cgov_hasVotingPower w)
    (cgov_hasHeldToken w)
    (dao_isMember w) (dao_proposalCount w) (dao_proposals w) m.

(** ** Transactions *)

Inductive Result (A : Type) : Type :=
  | Ok (a : A) (w : World)
  | Revert (e : Error).

Arguments Ok {A} a w.
Arguments Revert {A} e.

Definition Tx (A : Type) : Type := World → Result A.

Definition tx_ret {A} (a : A) : Tx A := λ w, Ok a w.

Definition tx_bind {A B} (f : A → Tx B) (m : Tx A) : Tx B :=
  λ w, match m w with
       | Ok a w' => f a w'
       | Revert e => Revert e
       end.

Global Instance Tx_ret : MRet Tx := @tx_ret.
Global Instance Tx_bind : MBind Tx := @tx_bind.

Definition revert {A} (e : Error) : Tx A := λ _, Revert e.

(** [if (c) revert E();] *)
Definition revert_if (c : bool) (e : Error) : Tx unit :=
  if c then revert e else mret tt.

Definition read {A} (f : World → A) : Tx A := λ w, Ok (f w) w.

Definition write (f : World → World) : Tx unit := λ w, Ok tt (f w).

(** A [view] function runs its body and keeps none of its writes. *)
Definition view {A} (m : Tx A) : Tx A :=
  λ w, match m w with
       | Ok a _ => Ok a w
       | Revert e => Revert e
       end.

(** State after a transaction: a revert rolls every write back. *)
Definition commit {A} (m : Tx A) (w : World) : World :=
  match m w with
  | Ok _ w' => w'
  | Revert _ => w
  end.

(** The error a transaction fails with, if it does. *)
Definition failure {A} (m : Tx A) (w : World) : option Error :=
  match m w with
  | Ok _ _ => None
  | Revert e => Some e
  end.

(** Checked [uint256] arithmetic of Solidity 0.8. *)
Definition checked_add (a b : N) : Tx N :=
  if a + b <? UINT256_MOD then mret (a + b) else revert Panic.

Definition checked_mul (a b : N) : Tx N :=
  if a * b <? UINT256_MOD then mret (a * b) else revert Panic.

(** *** Engine operations lifted to transactions (library [e]) *)

Definition fresh (v : N) : Tx N :=
  λ w, let '(h, e') := engine_fresh v (engine w) in Ok h (set_engine e' w).

Definition plain (h : N) : Tx N := read (λ w, plaintext_of (engine w) h).

Definition asEuint256 (v : N) : Tx N := fresh (wrap256 v).

Definition asEbool (b : bool) : Tx N := fresh (if b then 1 else 0).

Definition e_add (a b : N) : Tx N :=
  x ← plain a; y ← plain b; fresh (wrap256 (x + y)).

Definition e_sub (a b : N) : Tx N :=
  x ← plain a; y ← plain b; fresh (wrap256 (x + UINT256_MOD - y)).

Definition e_mul (a b : N) : Tx N :=
  x ← plain a; y ← plain b; fresh (wrap256 (x * y)).

Definition e_div (a b : N) : Tx N :=
  x ← plain a; y ← plain b; fresh (x / y).

Definition e_gt (a b : N) : Tx N :=
  x ← plain a; y ← plain b; asEbool (y <? x).

(** [.decrypt()], available to the contract only. *)
Definition decrypt_bool (h : N) : Tx bool := x ← plain h; mret (negb (x =? 0)).

Definition allow (h who : N) : Tx unit :=
  write (λ w, set_engine (engine_allow h who (engine w)) w).

(** [inco.reencryptFromBytes]: a client-side ciphertext, given by the
    plaintext it carries, becomes a handle. *)
Definition reencryptFromBytes (ciphertext : N) : Tx N := fresh (wrap256 ciphertext).

(** [isAuthorized(handle, principal)] of the capability registry. *)
Definition isAuthorized (w : World) (h who : N) : bool :=
  isAllowed (engine w) h who.

(** Reading a mapping slot. *)
Definition slot (m : gmap N N) (k : N) : N := default ZERO_HANDLE (m !! k).

(** ** CUSDCMarketplace.sol *)

Module CUSDCMarketplace.
Section Contract.
Variable cfg : Config.

Definition allowThis (h : N) : Tx unit := allow h (marketplace_address cfg).

Definition balanceOf (w : World) (user : N) : N := slot (cusdc_balances w) user.

Definition purchaseCUSDC (sender value : N) : Tx unit :=
  revert_if (value =? 0) MustSendETH;;
  scaled ← checked_mul value (EXCHANGE_RATE cfg);
  let cUSDCAmount := scaled / 10 ^ 18 in
  encryptedAmount ← asEuint256 cUSDCAmount;
  old ← read (λ w, balanceOf w sender);
  newBalance ← (if old =? ZERO_HANDLE
                then mret encryptedAmount
                else e_add old encryptedAmount);
  write (λ w, set_cusdc_balances (<[sender := newBalance]> (cusdc_balances w)) w);;
  total ← read cusdc_totalMinted;
  newTotalMinted ← e_add total encryptedAmount;
  write (set_cusdc_totalMinted newTotalMinted);;
  allowThis newBalance;;
  allow newBalance sender;;
  allowThis newTotalMinted.

(** [vaultTransfer]: the modifiers [onlyAuthorizedVault] and [nonReentrant]
    are not shown in the document; the only caller here is the vault, within
    one transaction, so both pass and are left out. *)
Definition vaultTransfer (from amount : N) : Tx N :=
  userBalance ← read (λ w, balanceOf w from);
  newBalance ← e_sub userBalance amount;
  write (λ w, set_cusdc_balances (<[from := newBalance]> (cusdc_balances w)) w);;
  allowThis newBalance;;
  allow newBalance from;;
  mret amount.
End Contract.
End CUSDCMarketplace.

(** ** ConfidentialVault.sol *)

Module ConfidentialVault.
Section Contract.
Variable cfg : Config.

Definition allowThis (h : N) : Tx unit := allow h (vault_address cfg).

Definition shares (w : World) (user : N) : N := slot (vault_shares w) user.

Definition deposit (sender : N) : Tx N :=
  dummyHandle ← asEuint256 0;
  actualAssets ← CUSDCMarketplace.vaultTransfer cfg sender dummyHandle;
  offset ← asEuint256 (DECIMAL_OFFSET cfg);
  assetsScaled ← e_mul actualAssets offset;
  totalShares ← read vault_totalShares;
  numerator ← e_mul assetsScaled totalShares;
  totalAssets ← read vault_totalAssets;
  sharesReceived ← e_div numerator totalAssets;
  newTotalAssets ← e_add totalAssets actualAssets;
  newTotalShares ← e_add totalShares sharesReceived;
  write (set_vault_totals newTotalAssets newTotalShares);;
  old ← read (λ w, shares w sender);
  newShares ← (if old =? ZERO_HANDLE
               then mret sharesReceived
               else e_add old sharesReceived);
  write (λ w, set_vault_shares (<[sender := newShares]> (vault_shares w)) w);;
  allowThis newTotalAssets;;
  allowThis newTotalShares;;
  allowThis newShares;;
  allow newShares sender;;
  mret sharesReceived.

Definition hasShares (user : N) : Tx bool :=
  view (userShares ← read (λ w, shares w user);
        zero ← asEuint256 0;
        hasSharesBool ← e_gt userShares zero;
        decrypt_bool hasSharesBool).
End Contract.
End ConfidentialVault.

(** ** The vault snippet of PROJECT_SUMMARY.md *)

(** [deposit(einput amount, bytes inputProof)] of the project summary: the
    caller supplies the encrypted amount, given here by its plaintext. The
    closing [cUSDC.transferFrom], whose code is not part of the repository,
    is left out. *)
Module SummaryVault.
Section Contract.
Variable cfg : Config.

Definition deposit (sender amount : N) : Tx N :=
  encryptedAmount ← fresh (wrap256 amount);
  totalShares ← read vault_totalShares;
  totalAssets ← read vault_totalAssets;
  virtualShares ← asEuint256 (VIRTUAL_SHARES cfg);
  sharesOffset ← e_add totalShares virtualShares;
  numerator ← e_mul encryptedAmount sharesOffset;
  virtualAssets ← asEuint256 (VIRTUAL_ASSETS cfg);
  assetsOffset ← e_add totalAssets virtualAssets;
  sharesIssued ← e_div numerator assetsOffset;
  old ← read (λ w, slot (vault_shares w) sender);
  newShares ← e_add old sharesIssued;
  write (λ w, set_vault_shares (<[sender := newShares]> (vault_shares w)) w);;
  newTotalShares ← e_add totalShares sharesIssued;
  newTotalAssets ← e_add totalAssets encryptedAmount;
  write (set_vault_totals newTotalAssets newTotalShares);;
  stored ← read (λ w, slot (vault_shares w) sender);
  allow stored sender;;
  allow stored (dao_address cfg);;
  mret sharesIssued.
End Contract.
End SummaryVault.

(** ** ConfidentialGovernanceToken.sol (cGOV) *)

Module ConfidentialGovernanceToken.
Section Contract.
Variable cfg : Config.

Definition allowThis (h : N) : Tx unit := allow h (cgov_address cfg).

Definition balanceOf (w : World) (account : N) : N := slot (cgov_balances w) account.

Definition hasHeldToken (w : World) (account : N) : bool :=
  default false (cgov_hasHeldToken w !! account).

(** [authorizedDAO.isMember(account)] *)
Definition isMember (w : World) (account : N) : bool :=
  default false (dao_isMember w !! account).

Definition mint (sender value amount : N) : Tx unit :=
  member ← read (λ w, isMember w sender);
  revert_if (negb member) NotDAOMember;;
  requiredETH ← checked_mul amount (mintPrice cfg);
  revert_if (value <? requiredETH) InsufficientETH;;
  encryptedAmount ← asEuint256 amount;
  old ← read (λ w, balanceOf w sender);
  newBalance ← (if old =? ZERO_HANDLE
                then mret encryptedAmount
                else e_add old encryptedAmount);
  write (λ w, set_cgov_balances (<[sender := newBalance]> (cgov_balances w)) w);;
  totalSupply ← read cgov_totalSupply;
  newTotalSupply ← e_add totalSupply encryptedAmount;
  write (set_cgov_totalSupply newTotalSupply);;
  flag ← asEbool true;
  write (λ w, set_cgov_hasVotingPower (<[sender := flag]> (cgov_hasVotingPower w)) w);;
  write (λ w, set_cgov_hasHeldToken (<[sender := true]> (cgov_hasHeldToken w)) w);;
  allowThis newBalance;;
  allow newBalance sender;;
  allow newBalance (dao_address cfg);;
  allowThis newTotalSupply;;
  storedFlag ← read (λ w, slot (cgov_hasVotingPower w) sender);
  allowThis storedFlag.

Definition hasVotingPower (account : N) : Tx bool :=
  view (held ← read (λ w, hasHeldToken w account);
        if negb held then mret false
        else
          balance ← read (λ w, balanceOf w account);
          zero ← asEuint256 0;
          hasPower ← e_gt balance zero;
          decrypt_bool hasPower).
End Contract.
End ConfidentialGovernanceToken.

(** ** AzothDAO.sol *)

Module AzothDAO.
Section Contract.
Variable cfg : Config.

Definition allowThis (h : N) : Tx unit := allow h (dao_address cfg).

Definition isMember (w : World) (account : N) : bool :=
  default false (dao_isMember w !! account).

Definition onlyMember (sender : N) : Tx unit :=
  member ← read (λ w, isMember w sender);
  revert_if (negb member) NotMember.

(** [proposals[proposalId]] *)
Definition proposals (w : World) (proposalId : N) : Proposal :=
  default empty_proposal (dao_proposals w !! proposalId).

(** [receipts[proposalId][voter]] *)
Definition receipts (w : World) (proposalId voter : N) : Receipt :=
  default empty_receipt (dao_receipts w !! (proposalId, voter)).

Definition store_proposal (proposalId : N) (p : Proposal) : Tx unit :=
  write (λ w, set_dao_proposals (<[proposalId := p]> (dao_proposals w)) w).

Definition set_forVotes (h : N) (p : Proposal) : Proposal :=
  mkProposal (id p) (proposer p) (description p) (requestedAmount p)
    (recipient p) (startBlock p) (endBlock p) (queuedTime p)
    h (againstVotes p) (abstainVotes p) (state p) (votingMode p) (executed p).

Definition set_againstVotes (h : N) (p : Proposal) : Proposal :=
  mkProposal (id p) (proposer p) (description p) (requestedAmount p)
    (recipient p) (startBlock p) (endBlock p) (queuedTime p)
    (forVotes p) h (abstainVotes p) (state p) (votingMode p) (executed p).

Definition set_abstainVotes (h : N) (p : Proposal) : Proposal :=
  mkProposal (id p) (proposer p) (description p) (requestedAmount p)
    (recipient p) (startBlock p) (endBlock p) (queuedTime p)
    (forVotes p) (againstVotes p) h (state p) (votingMode p) (executed p).

Definition set_state (st : ProposalState) (p : Proposal) : Proposal :=
  mkProposal (id p) (proposer p) (description p) (requestedAmount p)
    (recipient p) (startBlock p) (endBlock p) (queuedTime p)
    (forVotes p) (againstVotes p) (abstainVotes p) st (votingMode p) (executed p).

Definition set_votingMode (m : VotingMode) (p : Proposal) : Proposal :=
  mkProposal (id p) (proposer p) (description p) (requestedAmount p)
    (recipient p) (startBlock p) (endBlock p) (queuedTime p)
    (forVotes p) (againstVotes p) (abstainVotes p) (state p) m (executed p).

Definition propose (sender value blockNumber : N)
    (description encryptedAmount recipient : N) (votingMode : VotingMode) : Tx N :=
  onlyMember sender;;
  power ← ConfidentialGovernanceToken.hasVotingPower sender;
  revert_if (negb power) NoVotingPower;;
  revert_if (value <? fee cfg) FeeTooLow;;
  revert_if (recipient =? 0) InvalidRecipient;;
  count ← read dao_proposalCount;
  proposalId ← checked_add count 1;
  write (set_dao_proposalCount proposalId);;
  old ← read (λ w, proposals w proposalId);
  requested ← reencryptFromBytes encryptedAmount;
  start ← checked_add blockNumber (votingDelay cfg);
  finish ← checked_add start (votingPeriod cfg);
  zeroFor ← asEuint256 0;
  zeroAgainst ← asEuint256 0;
  zeroAbstain ← asEuint256 0;
  store_proposal proposalId
    (mkProposal proposalId sender description requested recipient
       start finish (queuedTime old) zeroFor zeroAgainst zeroAbstain
       Pending votingMode (executed old));;
  allowThis requested;;
  allowThis zeroFor;;
  allowThis zeroAgainst;;
  allowThis zeroAbstain;;
  mret proposalId.

Definition castVote (sender blockNumber proposalId : N) (support : VoteType) : Tx unit :=
  proposal ← read (λ w, proposals w proposalId);
  receipt ← read (λ w, receipts w proposalId sender);
  revert_if (negb (bool_decide (state proposal = Active))) ProposalNotActive;;
  revert_if (blockNumber <? startBlock proposal) VotingNotStarted;;
  revert_if (endBlock proposal <? blockNumber) VotingEnded;;
  revert_if (hasVoted receipt) AlreadyVoted;;
  power ← ConfidentialGovernanceToken.hasVotingPower sender;
  revert_if (negb power) NoVotingPower;;
  weight ← read (λ w, ConfidentialGovernanceToken.balanceOf w sender);
  write (λ w, set_dao_receipts
                (<[(proposalId, sender) := mkReceipt true weight support]> (dao_receipts w)) w);;
  match support with
  | For =>
      newForVotes ← e_add (forVotes proposal) weight;
      store_proposal proposalId (set_forVotes newForVotes proposal);;
      allowThis newForVotes
  | Against =>
      newAgainstVotes ← e_add (againstVotes proposal) weight;
      store_proposal proposalId (set_againstVotes newAgainstVotes proposal);;
      allowThis newAgainstVotes
  | Abstain =>
      newAbstainVotes ← e_add (abstainVotes proposal) weight;
      store_proposal proposalId (set_abstainVotes newAbstainVotes proposal);;
      allowThis newAbstainVotes
  end.

Definition revealVotes (sender blockNumber proposalId : N) : Tx unit :=
  onlyMember sender;;
  proposal ← read (λ w, proposals w proposalId);
  revert_if (blockNumber <=? endBlock proposal) VotingNotEnded;;
  revert_if (executed proposal || bool_decide (state proposal = Canceled))
            AlreadyExecutedOrCanceled;;
  allow (forVotes proposal) sender;;
  allow (againstVotes proposal) sender;;
  allow (abstainVotes proposal) sender.

Definition finalizeProposal (sender blockNumber proposalId : N)
    (forVotesPlain againstVotesPlain : N) : Tx unit :=
  onlyMember sender;;
  proposal ← read (λ w, proposals w proposalId);
  revert_if (blockNumber <=? endBlock proposal) VotingNotEnded;;
  revert_if (negb (bool_decide (state proposal = Active))
             && negb (bool_decide (state proposal = Pending)))
            ProposalNotActive;;
  if againstVotesPlain <? forVotesPlain
  then store_proposal proposalId (set_state Succeeded proposal)
  else store_proposal proposalId (set_state Defeated proposal).
End Contract.
End AzothDAO.

(** ** Session delegation: the vouchers of the Inco SDK and their client *)

Module Session.

(** Errors of the client wrappers and of the voucher checks. *)
Inductive ClientError : Type :=
  | UnsupportedChain
  | VoucherInvalid
  | VoucherExpired
  | VoucherRevoked.

(** The signed content of a voucher; [nonce] is the granter's revocation
    nonce at issuance. *)
Record VoucherBody : Type := mkVoucherBody {
  granter : N;
  grantee : N;
  expiresAt : N;
  verifier : N;
  nonce : N
}.

Global Instance VoucherBody_eq_dec : EqDecision VoucherBody.
Proof. solve_decision. Defined.

(** A signature, by who produced it and what was signed. *)
Record Signature : Type := mkSignature {
  signer : N;
  message : VoucherBody
}.

(** [interface SessionKeyVoucher { voucher; signature }] *)
Record SessionKeyVoucher : Type := mkSessionKeyVoucher {
  voucher : VoucherBody;
  signature : Signature
}.

(** Modelled from the spec: the identity/signature collaborator of
    section 6, which tells whether the claimed principal signed the
    structured message. *)
Definition signature_valid (v : SessionKeyVoucher) : bool :=
  bool_decide (signer (signature v) = granter (voucher v)
               ∧ message (signature v) = voucher v).

(** Per-granter revocation nonce, zero until the first revocation. *)
Definition nonce_of (nonces : gmap N N) (g : N) : N := default 0 (nonces !! g).

(** Modelled from the spec: [issueVoucher(granter, granteeIdentity,
    expiresAt)] of section 4.5, behind [grantSessionKeyAllowanceVoucher]
    of the SDK: the granter signs a voucher that embeds its current
    revocation nonce. *)
Definition issueVoucher (nonces : gmap N N) (granter grantee expiresAt verifier : N)
    : SessionKeyVoucher :=
  let body := mkVoucherBody granter grantee expiresAt verifier (nonce_of nonces granter) in
  mkSessionKeyVoucher body (mkSignature granter body).

(** Modelled from the spec: [decryptWithVoucher(voucher, granteeIdentity,
    handles)] of section 4.5, behind [attestedDecryptWithVoucher] of the
    SDK. The checks run in the order the specification lists them:
    (a) signature and grantee binding, (b) [now < expiresAt], (c) the
    revocation nonce, (d) the granter's authorisation on every handle;
    only then are all handles decrypted. *)
Definition attestedDecryptWithVoucher (now : N) (nonces : gmap N N) (w : World)
    (ephemeral : N) (v : SessionKeyVoucher) (handles : list N)
    : ClientError + list N :=
  if negb (signature_valid v && (grantee (voucher v) =? ephemeral)) then inl VoucherInvalid
  else if negb (now <? expiresAt (voucher v)) then inl VoucherExpired
  else if negb (nonce_of nonces (granter (voucher v)) =? nonce (voucher v)) then inl VoucherRevoked
  else if negb (forallb (λ h, isAuthorized w h (granter (voucher v))) handles)
       then inl VoucherInvalid
  else inr (map (plaintext_of (engine w)) handles).

(** Modelled from the spec: [revokeAll(granter)] of section 4.5, behind
    [updateActiveVouchersSessionNonce] of the SDK. *)
Definition updateActiveVouchersSessionNonce (g : N) (nonces : gmap N N) : gmap N N :=
  <[g := nonce_of nonces g + 1]> nonces.

(** *** utils/inco.ts *)

(** [getConfig]: the cached SDK instance if there is one, otherwise one
    for the local node (31337) or Base Sepolia (84532). *)
Definition getConfig (zap : bool) (chainId : N) : ClientError + unit :=
  if zap then inr tt
  else if chainId =? 31337 then inr tt
  else if chainId =? 84532 then inr tt
  else inl UnsupportedChain.

(** [decryptWithVoucher]: forwards to the SDK and rethrows its error. *)
Definition decryptWithVoucher (zap : bool) (chainId : N)
    (now : N) (nonces : gmap N N) (w : World)
    (ephemeralKeypair : N) (v : SessionKeyVoucher) (handles : list N)
    : ClientError + list N :=
  match getConfig zap chainId with
  | inl e => inl e
  | inr _ =>
      match attestedDecryptWithVoucher now nonces w ephemeralKeypair v handles with
      | inr results => inr results
      | inl error => inl error
      end
  end.

(** [revokeAllVouchers]: forwards to the SDK; the registry changes only
    when the call goes through. *)
Definition revokeAllVouchers (zap : bool) (chainId : N) (walletClient : N)
    (nonces : gmap N N) : ClientError + gmap N N :=
  match getConfig zap chainId with
  | inl e => inl e
  | inr _ => inr (updateActiveVouchersSessionNonce walletClient nonces)
  end.

(** *** hooks/use-session-key.ts *)

Record StoredSessionData : Type := mkStoredSessionData {
  privateKeyHex : N;
  stored_voucher : SessionKeyVoucher;
  stored_expiresAt : N
}.

Record SessionData : Type := mkSessionData {
  keypair : N;
  session_voucher : SessionKeyVoucher;
  session_expiresAt : N
}.

(** [loadSessionFromStorage]: [localStorage] is keyed by wallet address;
    an expired entry is removed and nothing is returned. *)
Definition loadSessionFromStorage (now walletAddress : N)
    (localStorage : gmap N StoredSessionData)
    : option SessionData * gmap N StoredSessionData :=
  match localStorage !! walletAddress with
  | None => (None, localStorage)
  | Some parsed =>
      if stored_expiresAt parsed <=? now
      then (None, delete walletAddress localStorage)
      else (Some (mkSessionData (privateKeyHex parsed) (stored_voucher parsed)
                                (stored_expiresAt parsed)),
            localStorage)
  end.

(** [isSessionValid] *)
Definition isSessionValid (now : N) (sessionData : option SessionData) : bool :=
  match sessionData with
  | None => false
  | Some s => now <? session_expiresAt s
  end.

End Session.

(** ** ConfidentialVault.sol: withdrawal *)

(** [withdraw()]. Its last step calls [cUSDC.vaultWithdraw], a function of
    the marketplace that the document does not show: it is a parameter
    here, and whatever it does, it does to the state [withdraw] has
    reached by then; if it reverts, so does the withdrawal. *)
Module VaultWithdraw.
Section Contract.
Variable cfg : Config.
Variable vaultWithdraw : N → N → Tx unit.

Definition withdraw (sender : N) : Tx N :=
  userShares ← read (λ w, ConfidentialVault.shares w sender);
  totalAssets ← read vault_totalAssets;
  numerator ← e_mul userShares totalAssets;
  totalShares ← read vault_totalShares;
  offset ← asEuint256 (DECIMAL_OFFSET cfg);
  denominator ← e_mul totalShares offset;
  assetsToReturn ← e_div numerator denominator;
  newTotalAssets ← e_sub totalAssets assetsToReturn;
  newTotalShares ← e_sub totalShares userShares;
  write (set_vault_totals newTotalAssets newTotalShares);;
  zero ← asEuint256 0;
  write (λ w, set_vault_shares (<[sender := zero]> (vault_shares w)) w);;
  stored ← read (λ w, ConfidentialVault.shares w sender);
  ConfidentialVault.allowThis cfg stored;;
  ConfidentialVault.allowThis cfg newTotalAssets;;
  ConfidentialVault.allowThis cfg newTotalShares;;
  assetsReturned ← plain assetsToReturn;
  vaultWithdraw sender assetsToReturn;;
  mret assetsReturned.
End Contract.
End VaultWithdraw.

(** ** components/dao/Proposals.tsx *)

(** The predicates the proposals page decides its badge and its buttons
    with. They read the page's copy of a proposal and four pieces of
    component state: the current block, the two eligibility flags and the
    decrypted vote results. *)
Module ProposalsPage.

(** [interface Proposal] of the page: what [fetchData] keeps of a proposal. *)
Record PageProposal : Type := mkPageProposal {
  id : N;
  proposer : N;
  description : N;
  recipient : N;
  startBlock : N;
  endBlock : N;
  state : ProposalState;
  votingMode : VotingMode;
  executed : bool
}.

(** The [text] of the badge [getStateLabel] returns; the colour classes that
    come with it are left out. *)
Inductive StateLabel : Type :=
  | Label_Executed
  | Label_Canceled
  | Label_Defeated
  | Label_Succeeded
  | Label_Queued
  | Label_Pending
  | Label_Active
  | Label_Voting_Ended.

Section Page.
(** The state of the component that the predicates read. *)
Variable currentBlock : N.
Variable isMember : bool.
Variable hasVotingPower : bool.
Variable voteResults : gmap N (N * N * N).

Definition canRevealVotes (proposal : PageProposal) : bool :=
  (endBlock proposal <? currentBlock) && negb (executed proposal) && isMember.

Definition getStateLabel (proposal : PageProposal) : StateLabel :=
  if executed proposal then Label_Executed
  else if bool_decide (state proposal = Canceled) then Label_Canceled
  else if bool_decide (state proposal = Defeated) then Label_Defeated
  else if bool_decide (state proposal = Succeeded) then Label_Succeeded
  else if bool_decide (state proposal = Queued) then Label_Queued
  else if currentBlock <? startBlock proposal then Label_Pending
  else if currentBlock <=? endBlock proposal then Label_Active
  else Label_Voting_Ended.

Definition canVote (proposal : PageProposal) : bool :=
  (startBlock proposal <=? currentBlock)
  && (currentBlock <=? endBlock proposal)
  && negb (bool_decide (state proposal = Canceled))
  && negb (executed proposal)
  && isMember
  && hasVotingPower.

Definition canFinalize (proposal : PageProposal) : bool :=
  let results := voteResults !! id proposal in
  (endBlock proposal <? currentBlock)
  && (bool_decide (state proposal = Active) || bool_decide (state proposal = Pending))
  && negb (executed proposal)
  && isMember
  && bool_decide (results ≠ None).

Definition canQueue (proposal : PageProposal) : bool :=
  bool_decide (state proposal = Succeeded) && negb (executed proposal) && isMember.

Definition canExecute (proposal : PageProposal) : bool :=
  bool_decide (state proposal = Queued) && negb (executed proposal) && isMember.
End Page.

End ProposalsPage.

(** One turn of the loop of [fetchData]: the record built from
    [getProposal(i)], whose eight results are the fields of the stored
    proposal that the page names. *)
Definition fetchProposal (w : World) (i : N) : ProposalsPage.PageProposal :=
  let proposal := AzothDAO.proposals w i in
  ProposalsPage.mkPageProposal i (proposer proposal) (description proposal)
    (recipient proposal) (startBlock proposal)
    (endBlock proposal) (state proposal)
    (votingMode proposal) (executed proposal).

(** ** hooks/use-session-key.ts: creating and keeping a session *)

(** As in [Session.loadSessionFromStorage], a key pair is given by its
    private key, a date by its time in milliseconds, and [localStorage]
    holds what [saveSessionToStorage] wrote. A write to [localStorage] can
    throw; whether it does is an input of the model. *)
Module SessionHook.

(** [SESSION_DURATION_MS]: one hour. *)
Definition SESSION_DURATION_MS : N := 3600000.

(** [DEFAULT_SESSION_VERIFIER] of [utils/inco.ts]. *)
Definition DEFAULT_SESSION_VERIFIER : N := 0xc34569efc25901bdd6b652164a2c8a7228b23005.

(** The state of the hook: [sessionData], [isCreatingSession], [error], and
    the [localStorage] of the browser, keyed by wallet address. *)
Record HookState : Type := mkHookState {
  sessionData : option Session.SessionData;
  isCreatingSession : bool;
  error : option Session.ClientError;
  localStorage : gmap N Session.StoredSessionData
}.

(** [localStorage.setItem(key, JSON.stringify(toStore))]. Serialising the
    entry or storing it can throw (a value that JSON cannot serialise, a full
    or disabled storage); [throws] tells whether it does, and then nothing is
    stored. *)
Definition setItem (throws : bool) (key : N) (value : Session.StoredSessionData)
    (storage : gmap N Session.StoredSessionData)
    : option (gmap N Session.StoredSessionData) :=
  if throws then None else Some (<[key := value]> storage).

(** [saveSessionToStorage]: the entry of the wallet address is replaced. An
    exception of the write is caught and logged: the storage stays as it was
    and the caller is not told. *)
Definition saveSessionToStorage (throws : bool) (session : Session.SessionData)
    (walletAddress : N) (storage : gmap N Session.StoredSessionData)
    : gmap N Session.StoredSessionData :=
  match setItem throws walletAddress
          (Session.mkStoredSessionData (Session.keypair session)
             (Session.session_voucher session) (Session.session_expiresAt session))
          storage with
  | Some written => written
  | None => storage
  end.

Section Hook.
(** [inco.grantSessionKeyAllowanceVoucher(walletClient, granteeAddress,
    expiresAt, sessionVerifier)] of the SDK: a voucher, or the error thrown. *)
Variable grantSessionKeyAllowanceVoucher :
  N → N → N → N → Session.ClientError + Session.SessionKeyVoucher.
(** [privateKeyToAccount(key).address] of viem. *)
Variable privateKeyToAccount : N → N.

(** [createSession], called at time [now]; [ephemeralKeypair] is the key
    [generateSecp256k1Keypair()] draws, [storageThrows] whether the write to
    [localStorage] throws. *)
Definition createSession (storageThrows : bool) (zap : bool) (chainId : N) (now : N)
    (walletClient address : option N) (ephemeralKeypair : N) (st : HookState)
    : option Session.SessionData * HookState :=
  match walletClient, address with
  | Some client, Some walletAddress =>
      let granteeAddress := privateKeyToAccount ephemeralKeypair in
      let expiresAt := now + SESSION_DURATION_MS in
      match Session.getConfig zap chainId with
      | inl err => (None, mkHookState (sessionData st) false (Some err) (localStorage st))
      | inr _ =>
          match grantSessionKeyAllowanceVoucher client granteeAddress expiresAt
                  DEFAULT_SESSION_VERIFIER with
          | inl err =>
              (None, mkHookState (sessionData st) false (Some err) (localStorage st))
          | inr voucher =>
              let newSession := Session.mkSessionData ephemeralKeypair voucher expiresAt in
              (Some newSession,
               mkHookState (Some newSession) false None
                 (saveSessionToStorage storageThrows newSession walletAddress
                    (localStorage st)))
          end
      end
  | _, _ => (None, st)
  end.

(** [ensureSession]; [isSessionValid] is the memoised flag, computed when
    [sessionData] last changed. *)
Definition ensureSession (isSessionValid : bool) (storageThrows : bool) (zap : bool)
    (chainId : N) (now : N)
    (walletClient address : option N) (ephemeralKeypair : N) (st : HookState)
    : option Session.SessionData * HookState :=
  match isSessionValid, sessionData st with
  | true, Some session => (Some session, st)
  | _, _ =>
      createSession storageThrows zap chainId now walletClient address ephemeralKeypair st
  end.
End Hook.

End SessionHook.

(** ** utils/inco.ts: batch decryption *)

(** [decryptMultiple]. The result is a [Map] from handles to values; a
    result of the SDK beyond the handles that were sent lands under the
    key [undefined], here [None]. *)
Module IncoClient.

(** [results.forEach((result, index) => decryptedMap.set(validHandles[index],
    result.plaintext.value))]; the key is [None] where [validHandles[index]]
    is [undefined]. *)
Fixpoint forEach_set (validHandles : list N) (index : nat) (results : list N)
    (decryptedMap : gmap (option N) N) : gmap (option N) N :=
  match results with
  | [] => decryptedMap
  | value :: rest =>
      forEach_set validHandles (S index) rest
        (<[validHandles !! index := value]> decryptedMap)
  end.

Section Client.
(** [zap.attestedDecrypt(walletClient, handles, config)] of the SDK: the
    plaintext values of the results, or the error thrown. *)
Variable attestedDecrypt : N → list N → Session.ClientError + list N.

Definition decryptMultiple (zap : bool) (chainId : N) (walletClient : N)
    (handles : list N) : Session.ClientError + gmap (option N) N :=
  let validHandles := filter (λ h, h ≠ ZERO_HANDLE) handles in
  if bool_decide (length validHandles = 0%nat) then inr ∅
  else
    match Session.getConfig zap chainId with
    | inl err => inl err
    | inr _ =>
        match attestedDecrypt walletClient validHandles with
        | inl err => inl err
        | inr results => inr (forEach_set validHandles 0 results ∅)
        end
    end.
End Client.

End IncoClient.

(** ** Scenario fixtures *)

Definition alice : N := 1.
Definition bob : N := 2.
Definition carol : N := 3.

Definition set_dao_isMember (m : gmap N bool) (w : World) : World :=
  mkWorld (engine w) (cusdc_balances w) (cusdc_totalMinted w)
    (vault_totalAssets w) (vault_totalShares w) (vault_shares w)
    (cgov_balances w) (cgov_totalSupply w) (cgov_hasVotingPower w)
    (cgov_hasHeldToken w)
    m (dao_proposalCount w) (dao_proposals w) (dao_receipts w).

(** The proposal [proposalId] with its stored lifecycle state replaced. *)
Definition with_state (proposalId : N) (st : ProposalState) (w : World) : World :=
  set_dao_proposals
    (<[proposalId := AzothDAO.set_state st (AzothDAO.proposals w proposalId)]>
       (dao_proposals w)) w.

(** Alice and Bob are members of the DAO. *)
Definition members_world : World :=
  set_dao_isMember (<[alice := true]> (<[bob := true]> ∅)) initial_world.

(** Alice mints 5 cGOV, Bob mints 3. *)
Definition funded_world : World :=
  commit (ConfidentialGovernanceToken.mint default_config bob (3 * mintPrice default_config) 3)
    (commit (ConfidentialGovernanceToken.mint default_config alice
               (5 * mintPrice default_config) 5) members_world).

(** At block 100 Alice proposes to pay 1000 to Carol: proposal 1, voting
    from block 101 to block 50501. *)
Definition proposed_world : World :=
  commit (AzothDAO.propose default_config alice 0 100 0 1000 carol Normal) funded_world.

Definition active_world : World := with_state 1 Active proposed_world.

(** Alice votes for, Bob against. *)
Definition voted_world : World :=
  commit (AzothDAO.castVote default_config bob 102 1 Against)
    (commit (AzothDAO.castVote default_config alice 101 1 For) active_world).

(** All votes of a list [(voter, block, proposal, choice)], each one its own
    transaction. *)
Definition run_votes (cfg : Config) (vs : list (N * N * N * VoteType)) (w : World) : World :=
  fold_left (λ w '(voter, blockNumber, proposalId, support),
               commit (AzothDAO.castVote cfg voter blockNumber proposalId support) w)
            vs w.

(** The world with every proposal's voting mode forgotten. *)
Definition erase_modes (w : World) : World :=
  set_dao_proposals (AzothDAO.set_votingMode Normal <$> dao_proposals w) w.

(** Two worlds that differ at most in the voting modes of their proposals. *)
Definition same_but_votingMode (w1 w2 : World) : Prop :=
  erase_modes w1 = erase_modes w2.

Definition tallies (w : World) (proposalId : N) : N * N * N :=
  let p := AzothDAO.proposals w proposalId in
  (forVotes p, againstVotes p, abstainVotes p).

Definition plain_tallies (w : World) (proposalId : N) : N * N * N :=
  let p := AzothDAO.proposals w proposalId in
  (plaintext_of (engine w) (forVotes p),
   plaintext_of (engine w) (againstVotes p),
   plaintext_of (engine w) (abstainVotes p)).

(** ** Notions used in the statements *)

(** What a finalisation that passes its guards writes: the lifecycle state
    of the one proposal, decided by [forVotes > againstVotes]. *)
Definition finalized (proposalId forVotesPlain againstVotesPlain : N) (w : World) : World :=
  with_state proposalId
    (if againstVotesPlain <? forVotesPlain then Succeeded else Defeated) w.

(** The plaintext answer of [hasVotingPower]. *)
Definition voting_power (w : World) (account : N) : bool :=
  match ConfidentialGovernanceToken.hasVotingPower account w with
  | Ok b _ => b
  | Revert _ => false
  end.

(** The error of the first guard of [castVote] that fires, in source order. *)
Definition castVote_guard (w : World) (sender blockNumber proposalId : N) : option Error :=
  let proposal := AzothDAO.proposals w proposalId in
  if negb (bool_decide (state proposal = Active)) then Some ProposalNotActive
  else if blockNumber <? startBlock proposal then Some VotingNotStarted
  else if endBlock proposal <? blockNumber then Some VotingEnded
  else if hasVoted (AzothDAO.receipts w proposalId sender) then Some AlreadyVoted
  else if negb (voting_power w sender) then Some NoVotingPower
  else None.

Definition tally_of (support : VoteType) (p : Proposal) : N :=
  match support with
  | For => forVotes p
  | Against => againstVotes p
  | Abstain => abstainVotes p
  end.

Definition set_tally (support : VoteType) (h : N) (p : Proposal) : Proposal :=
  match support with
  | For => AzothDAO.set_forVotes h p
  | Against => AzothDAO.set_againstVotes h p
  | Abstain => AzothDAO.set_abstainVotes h p
  end.

(** What a vote that passes the guards writes: the receipt, a new handle for
    the chosen tally holding old tally plus weight, and one grant, to the
    DAO contract, on that handle. *)
Definition castVote_effect (cfg : Config) (sender proposalId : N) (support : VoteType)
    (w : World) : World :=
  let proposal := AzothDAO.proposals w proposalId in
  let weight := ConfidentialGovernanceToken.balanceOf w sender in
  let h := next_handle (engine w) in
  let v := wrap256 (plaintext_of (engine w) (tally_of support proposal)
                    + plaintext_of (engine w) weight) in
  set_engine
    (mkEngine (h + 1) (<[h := v]> (plaintexts (engine w)))
              ({[ (h, dao_address cfg) ]} ∪ acl (engine w)))
    (set_dao_proposals (<[proposalId := set_tally support h proposal]> (dao_proposals w))
       (set_dao_receipts
          (<[(proposalId, sender) := mkReceipt true weight support]> (dao_receipts w)) w)).

(** The external calls of the four contracts. *)
Inductive Call : Type :=
  | PurchaseCUSDC (sender value : N)
  | Deposit (sender : N)
  | Mint (sender value amount : N)
  | Propose (sender value description encryptedAmount recipient : N) (mode : VotingMode)
  | CastVote (sender proposalId : N) (support : VoteType)
  | RevealVotes (sender proposalId : N)
  | FinalizeProposal (sender proposalId forVotesPlain againstVotesPlain : N).

(** The world after the transaction [c] mined in block [blockNumber]. *)
Definition perform (cfg : Config) (blockNumber : N) (c : Call) (w : World) : World :=
  match c with
  | PurchaseCUSDC sender value =>
      commit (CUSDCMarketplace.purchaseCUSDC cfg sender value) w
  | Deposit sender =>
      commit (ConfidentialVault.deposit cfg sender) w
  | Mint sender value amount =>
      commit (ConfidentialGovernanceToken.mint cfg sender value amount) w
  | Propose sender value description encryptedAmount recipient mode =>
      commit (AzothDAO.propose cfg sender value blockNumber
                description encryptedAmount recipient mode) w
  | CastVote sender proposalId support =>
      commit (AzothDAO.castVote cfg sender blockNumber proposalId support) w
  | RevealVotes sender proposalId =>
      commit (AzothDAO.revealVotes sender blockNumber proposalId) w
  | FinalizeProposal sender proposalId f a =>
      commit (AzothDAO.finalizeProposal sender blockNumber proposalId f a) w
  end.

(** A history: transactions with the block each one was mined in. *)
Definition run (cfg : Config) (history : list (N * Call)) (w : World) : World :=
  fold_left (λ w '(blockNumber, c), perform cfg blockNumber c w) history w.

(** No proposal has [Active] as its stored state. *)
Definition no_active (w : World) : Prop :=
  ∀ proposalId, state (AzothDAO.proposals w proposalId) ≠ Active.

(** The world [w] with the voting mode of one proposal replaced. *)
Definition with_mode (proposalId : N) (mode : VotingMode) (w : World) : World :=
  set_dao_proposals
    (<[proposalId := AzothDAO.set_votingMode mode (AzothDAO.proposals w proposalId)]>
       (dao_proposals w)) w.

Definition tally_handles (p : Proposal) : list N :=
  [forVotes p; againstVotes p; abstainVotes p].

(** Every handle a proposal or a grant refers to has been produced. *)
Definition handles_allocated (w : World) : Prop :=
  (∀ proposalId h,
     h ∈ tally_handles (AzothDAO.proposals w proposalId) → h < next_handle (engine w))
  ∧ (∀ h who, (h, who) ∈ acl (engine w) → h < next_handle (engine w)).

(** Only the DAO contract is authorised on the tally handles of the proposal. *)
Definition tallies_private (cfg : Config) (w : World) (proposalId : N) : Prop :=
  ∀ h who,
    h ∈ tally_handles (AzothDAO.proposals w proposalId) →
    isAuthorized w h who = true → who = dao_address cfg.

(** The invariant of a proposal whose tallies are still secret: its tally
    handles are produced handles of its own, granted to the DAO contract
    only, and its slot is below the proposal counter. *)
Definition tallies_sealed (cfg : Config) (proposalId : N) (w : World) : Prop :=
  handles_allocated w
  ∧ proposalId <= dao_proposalCount w
  ∧ (∀ h, h ∈ tally_handles (AzothDAO.proposals w proposalId) →
          0 < h ∧ ∀ who, (h, who) ∈ acl (engine w) → who = dao_address cfg)
  ∧ (∀ other h, other ≠ proposalId →
                h ∈ tally_handles (AzothDAO.proposals w other) →
                h ∉ tally_handles (AzothDAO.proposals w proposalId)).

(** The engine [e'] comes from [e] by producing handles and granting on
    handles produced since. *)
Definition engine_extends (e e' : Engine) : Prop :=
  next_handle e <= next_handle e'
  ∧ ∀ h who, (h, who) ∈ acl e' → (h, who) ∈ acl e ∨ next_handle e <= h < next_handle e'.

(** The share formula in the words of the specification. *)
Definition spec_sharesIssued (cfg : Config) (amount totalShares totalAssets : N) : N :=
  (amount * (totalShares + VIRTUAL_SHARES cfg)) / (totalAssets + VIRTUAL_ASSETS cfg).

(** Alice has bought cUSDC for 1 ETH; the vault is empty. *)
Definition buyer_world : World :=
  commit (CUSDCMarketplace.purchaseCUSDC default_config alice (10 ^ 18)) initial_world.

(** The same, with a vault that holds 10 assets for 10000 shares. *)
Definition seeded_vault_world : World :=
  commit (totalAssets ← asEuint256 10;
          totalShares ← asEuint256 10000;
          write (set_vault_totals totalAssets totalShares)) buyer_world.

(** The plaintext behind the handle a transaction returns. *)
Definition returned_plaintext (m : Tx N) (w : World) : option N :=
  match m w with
  | Ok h w' => Some (plaintext_of (engine w') h)
  | Revert _ => None
  end.

Definition cusdc_plaintext (w : World) (user : N) : N :=
  plaintext_of (engine w) (CUSDCMarketplace.balanceOf w user).

(** The registry after a list of principals have each revoked. *)
Definition revocations (granters : list N) (nonces : gmap N N) : gmap N N :=
  fold_left (λ n g, Session.updateActiveVouchersSessionNonce g n) granters nonces.

(** Alice's voucher for the session key 77, valid until time 3600. *)
Definition alice_voucher : Session.SessionKeyVoucher :=
  Session.issueVoucher ∅ alice 77 3600 0.

(** A handle that an operation leading from [w] to [w'] has produced: it
    was not allocated in [w] and is allocated in [w']. *)
Definition produced_between (w w' : World) (h : N) : Prop :=
  next_handle (engine w) <= h < next_handle (engine w').

(** ** Notions used in the further properties *)

(** The plaintext behind an account's cGOV balance and vault shares. *)
Definition cgov_plaintext (w : World) (account : N) : N :=
  plaintext_of (engine w) (ConfidentialGovernanceToken.balanceOf w account).

Definition shares_plaintext (w : World) (user : N) : N :=
  plaintext_of (engine w) (ConfidentialVault.shares w user).

(** The parameters a proposal is created with. *)
Definition same_parameters (p p' : Proposal) : Prop :=
  id p' = id p ∧ proposer p' = proposer p ∧ description p' = description p
  ∧ requestedAmount p' = requestedAmount p ∧ recipient p' = recipient p
  ∧ startBlock p' = startBlock p ∧ endBlock p' = endBlock p
  ∧ votingMode p' = votingMode p.

(** The plaintext tallies with the weight [x] added to the chosen one. *)
Definition add_vote (support : VoteType) (x : N) (t : N * N * N) : N * N * N :=
  let '(f, a, ab) := t in
  match support with
  | For => (wrap256 (f + x), a, ab)
  | Against => (f, wrap256 (a + x), ab)
  | Abstain => (f, a, wrap256 (ab + x))
  end.

(** Alice holds 2000 cUSDC; handle 3 carries the amount 3000. *)
Definition large_amount_world : World := commit (asEuint256 3000) buyer_world.

(** The world of the open vote with every membership withdrawn. *)
Definition no_members_world : World := set_dao_isMember ∅ active_world.

(** A vault that holds 4000000 assets for 4000 shares, half of them
    Alice's, before any grant has been made. *)
Definition vault_world : World :=
  commit (totalAssets ← asEuint256 4000000;
          totalShares ← asEuint256 4000;
          aliceShares ← asEuint256 2000;
          write (set_vault_totals totalAssets totalShares);;
          write (λ w, set_vault_shares (<[alice := aliceShares]> (vault_shares w)) w))
         initial_world.

(** An SDK that signs whatever it is asked, and a key whose address is the
    key itself. *)
Definition signing_sdk (walletClient granteeAddress expiresAt sessionVerifier : N)
    : Session.ClientError + Session.SessionKeyVoucher :=
  inr (Session.issueVoucher ∅ walletClient granteeAddress expiresAt sessionVerifier).

Definition empty_hook : SessionHook.HookState := SessionHook.mkHookState None false None ∅.

(** An SDK that answers every handle with ten times its number. *)
Definition tenfold_sdk (walletClient : N) (handles : list N)
    : Session.ClientError + list N :=
  inr (map (λ h, h * 10) handles).


(** * Properties *)

(** ** Proof support *)

Ltac tx_unfold :=
  unfold commit, failure, AzothDAO.onlyMember, AzothDAO.store_proposal,
    AzothDAO.allowThis, ConfidentialGovernanceToken.allowThis,
    ConfidentialVault.allowThis, CUSDCMarketplace.allowThis,
    e_add, e_sub, e_mul, e_div, e_gt, asEuint256, asEbool, decrypt_bool,
    reencryptFromBytes, allow, plain, fresh, checked_add, checked_mul,
    revert_if, revert, read, write, view in *;
  unfold mbind, mret, Tx_bind, Tx_ret, tx_bind, tx_ret in *.

Lemma N_leb_true (a b : N) : a <= b → (a <=? b) = true.
Proof. apply N.leb_le. Qed.

Lemma N_leb_false (a b : N) : b < a → (a <=? b) = false.
Proof. apply N.leb_gt. Qed.

Lemma N_ltb_true (a b : N) : a < b → (a <? b) = true.
Proof. apply N.ltb_lt. Qed.

Lemma N_ltb_false (a b : N) : b <= a → (a <? b) = false.
Proof. apply N.ltb_ge. Qed.

(** ** Finalisation *)

Lemma finalizeProposal_early w sender blockNumber proposalId f a :
  blockNumber <= endBlock (AzothDAO.proposals w proposalId) →
  ∃ e, AzothDAO.finalizeProposal sender blockNumber proposalId f a w = Revert e
       ∧ (AzothDAO.isMember w sender = true → e = VotingNotEnded).
Proof.
  intros Hb. unfold AzothDAO.finalizeProposal. tx_unfold.
  destruct (AzothDAO.isMember w sender); simpl.
  - rewrite (N_leb_true _ _ Hb). simpl. eauto.
  - eexists; split; [reflexivity | discriminate].
Qed.

Lemma finalizeProposal_ok w sender blockNumber proposalId f a :
  AzothDAO.isMember w sender = true →
  endBlock (AzothDAO.proposals w proposalId) < blockNumber →
  state (AzothDAO.proposals w proposalId) = Active
  ∨ state (AzothDAO.proposals w proposalId) = Pending →
  AzothDAO.finalizeProposal sender blockNumber proposalId f a w
  = Ok tt (finalized proposalId f a w).
Proof.
  intros Hm Hb Hs. unfold AzothDAO.finalizeProposal, finalized, with_state. tx_unfold.
  rewrite Hm. simpl. rewrite (N_leb_false _ _ Hb). simpl.
  destruct Hs as [-> | ->]; simpl; destruct (a <? f); reflexivity.
Qed.

Lemma finalizeProposal_done w sender blockNumber proposalId f a :
  state (AzothDAO.proposals w proposalId) ≠ Active →
  state (AzothDAO.proposals w proposalId) ≠ Pending →
  ∃ e, AzothDAO.finalizeProposal sender blockNumber proposalId f a w = Revert e
       ∧ (AzothDAO.isMember w sender = true →
          endBlock (AzothDAO.proposals w proposalId) < blockNumber →
          e = ProposalNotActive).
Proof.
  intros Ha Hp. unfold AzothDAO.finalizeProposal. tx_unfold.
  destruct (AzothDAO.isMember w sender); simpl;
    [| eexists; split; [reflexivity | discriminate]].
  destruct (N.leb_spec blockNumber (endBlock (AzothDAO.proposals w proposalId))); simpl.
  - eexists; split; [reflexivity | intros; lia].
  - rewrite !bool_decide_eq_false_2 by assumption. simpl. eauto.
Qed.

Lemma finalizeProposal_inv w w' sender blockNumber proposalId f a :
  AzothDAO.finalizeProposal sender blockNumber proposalId f a w = Ok tt w' →
  AzothDAO.isMember w sender = true
  ∧ endBlock (AzothDAO.proposals w proposalId) < blockNumber
  ∧ (state (AzothDAO.proposals w proposalId) = Active
     ∨ state (AzothDAO.proposals w proposalId) = Pending)
  ∧ w' = finalized proposalId f a w.
Proof.
  intros H.
  destruct (AzothDAO.isMember w sender) eqn:Hm.
  2:{ unfold AzothDAO.finalizeProposal in H. tx_unfold. rewrite Hm in H. discriminate. }
  destruct (N.leb_spec blockNumber (endBlock (AzothDAO.proposals w proposalId))) as [Hb|Hb].
  { destruct (finalizeProposal_early w sender _ proposalId f a Hb) as (e & He & _).
    congruence. }
  destruct (decide (state (AzothDAO.proposals w proposalId) = Active)) as [Ha|Ha];
    [| destruct (decide (state (AzothDAO.proposals w proposalId) = Pending)) as [Hp|Hp]].
  - rewrite finalizeProposal_ok in H by auto. split_and!; auto. congruence.
  - rewrite finalizeProposal_ok in H by auto. split_and!; auto. congruence.
  - destruct (finalizeProposal_done w sender blockNumber proposalId f a Ha Hp) as (e & He & _).
    congruence.
Qed.

Lemma proposals_with_state w proposalId st :
  AzothDAO.proposals (with_state proposalId st w) proposalId
  = AzothDAO.set_state st (AzothDAO.proposals w proposalId).
Proof.
  unfold with_state, AzothDAO.proposals. simpl. by rewrite lookup_insert_eq.
Qed.

Lemma isMember_with_state w proposalId st a :
  AzothDAO.isMember (with_state proposalId st w) a = AzothDAO.isMember w a.
Proof. reflexivity. Qed.

Lemma proposals_with_state_ne w proposalId st other :
  other ≠ proposalId →
  AzothDAO.proposals (with_state proposalId st w) other = AzothDAO.proposals w other.
Proof.
  intros Hne. unfold with_state, AzothDAO.proposals at 1. simpl.
  by rewrite lookup_insert_ne.
Qed.

Lemma finalizeProposal_errors w sender blockNumber proposalId f a e :
  AzothDAO.finalizeProposal sender blockNumber proposalId f a w = Revert e →
  e = NotMember ∨ e = VotingNotEnded ∨ e = ProposalNotActive.
Proof.
  unfold AzothDAO.finalizeProposal. tx_unfold.
  destruct (AzothDAO.isMember w sender); simpl; [| intros [= <-]; auto].
  destruct (blockNumber <=? _); simpl; [intros [= <-]; auto |].
  destruct (negb _ && negb _); simpl; [intros [= <-]; auto |].
  destruct (a <? f); discriminate.
Qed.

(** C4: [finalizeProposal] is refused until the block number has passed
    [endBlock]; after that, for a proposal still [Active] or [Pending], it
    sets the state to [Succeeded] when the supplied [forVotes] exceeds the
    supplied [againstVotes] and to [Defeated] otherwise (so to [Succeeded]
    for 5 against 3), writes nothing else, leaves the engine untouched and
    does not depend on any plaintext the engine holds. *)
Theorem finalize_compares_supplied_tallies w sender blockNumber proposalId f a :
  AzothDAO.isMember w sender = true →
  state (AzothDAO.proposals w proposalId) = Active
  ∨ state (AzothDAO.proposals w proposalId) = Pending →
  let tx := AzothDAO.finalizeProposal sender blockNumber proposalId in
  (blockNumber <= endBlock (AzothDAO.proposals w proposalId) →
     tx f a w = Revert VotingNotEnded)
  ∧ (endBlock (AzothDAO.proposals w proposalId) < blockNumber →
     tx f a w = Ok tt (finalized proposalId f a w)
     ∧ engine (commit (tx f a) w) = engine w
     ∧ state (AzothDAO.proposals (commit (tx f a) w) proposalId)
       = (if a <? f then Succeeded else Defeated)
     ∧ state (AzothDAO.proposals (commit (tx 5 3) w) proposalId) = Succeeded
     ∧ ∀ e', state (AzothDAO.proposals (commit (tx f a) (set_engine e' w)) proposalId)
             = state (AzothDAO.proposals (commit (tx f a) w) proposalId)).
Proof.
  intros Hm Hs tx. split.
  - intros Hb. destruct (finalizeProposal_early w sender _ proposalId f a Hb) as (e & He & Hv).
    subst tx. rewrite He. f_equal. auto.
  - intros Hb. subst tx. unfold commit.
    rewrite !finalizeProposal_ok by auto.
    split_and!; try reflexivity.
    + unfold finalized. by rewrite proposals_with_state.
    + unfold finalized. by rewrite proposals_with_state.
    + intros e'. rewrite finalizeProposal_ok by auto.
      unfold finalized. by rewrite !proposals_with_state.
Qed.

Lemma finalize_compares_supplied_tallies_witness :
  AzothDAO.finalizeProposal alice 50502 1 5 3 proposed_world
  = Ok tt (finalized 1 5 3 proposed_world)
  ∧ state (AzothDAO.proposals
             (commit (AzothDAO.finalizeProposal alice 50502 1 5 3) proposed_world) 1)
    = Succeeded.
Proof.
  destruct (finalize_compares_supplied_tallies proposed_world alice 50502 1 5 3)
    as [_ H].
  - vm_compute. reflexivity.
  - right. vm_compute. reflexivity.
  - destruct H as (H1 & _ & _ & H4 & _).
    + vm_compute. reflexivity.
    + split; assumption.
Defined.

(** ** Voting *)

Lemma hasVotingPower_view w account :
  ConfidentialGovernanceToken.hasVotingPower account w = Ok (voting_power w account) w.
Proof.
  unfold voting_power, ConfidentialGovernanceToken.hasVotingPower. tx_unfold.
  destruct (ConfidentialGovernanceToken.hasHeldToken w account); reflexivity.
Qed.

Lemma castVote_spec cfg w sender blockNumber proposalId support :
  AzothDAO.castVote cfg sender blockNumber proposalId support w
  = match castVote_guard w sender blockNumber proposalId with
    | Some e => Revert e
    | None => Ok tt (castVote_effect cfg sender proposalId support w)
    end.
Proof.
  unfold AzothDAO.castVote, castVote_guard. tx_unfold.
  destruct (negb (bool_decide _)); simpl; [reflexivity |].
  destruct (blockNumber <? _); simpl; [reflexivity |].
  destruct (_ <? blockNumber); simpl; [reflexivity |].
  destruct (hasVoted _); simpl; [reflexivity |].
  rewrite hasVotingPower_view.
  destruct (voting_power w sender); simpl; [| reflexivity].
  destruct support; reflexivity.
Qed.

Lemma castVote_inv cfg w w' sender blockNumber proposalId support :
  AzothDAO.castVote cfg sender blockNumber proposalId support w = Ok tt w' →
  state (AzothDAO.proposals w proposalId) = Active
  ∧ startBlock (AzothDAO.proposals w proposalId) <= blockNumber
  ∧ blockNumber <= endBlock (AzothDAO.proposals w proposalId)
  ∧ hasVoted (AzothDAO.receipts w proposalId sender) = false
  ∧ voting_power w sender = true
  ∧ w' = castVote_effect cfg sender proposalId support w.
Proof.
  rewrite castVote_spec. unfold castVote_guard.
  destruct (bool_decide_reflect (state (AzothDAO.proposals w proposalId) = Active));
    simpl; [| discriminate].
  destruct (N.ltb_spec blockNumber (startBlock (AzothDAO.proposals w proposalId)));
    [discriminate |].
  destruct (N.ltb_spec (endBlock (AzothDAO.proposals w proposalId)) blockNumber);
    [discriminate |].
  destruct (hasVoted _); [discriminate |].
  destruct (voting_power w sender); simpl; [| discriminate].
  intros [= <-]. auto 10.
Qed.

Lemma proposals_castVote_effect cfg w sender proposalId support :
  AzothDAO.proposals (castVote_effect cfg sender proposalId support w) proposalId
  = set_tally support (next_handle (engine w)) (AzothDAO.proposals w proposalId).
Proof.
  unfold castVote_effect, AzothDAO.proposals at 1. simpl. by rewrite lookup_insert_eq.
Qed.

Lemma receipts_castVote_effect cfg w sender proposalId support :
  AzothDAO.receipts (castVote_effect cfg sender proposalId support w) proposalId sender
  = mkReceipt true (ConfidentialGovernanceToken.balanceOf w sender) support.
Proof.
  unfold castVote_effect, AzothDAO.receipts at 1. simpl. by rewrite lookup_insert_eq.
Qed.

Lemma proposals_castVote_effect_ne cfg w sender proposalId support other :
  other ≠ proposalId →
  AzothDAO.proposals (castVote_effect cfg sender proposalId support w) other
  = AzothDAO.proposals w other.
Proof.
  intros Hne. unfold castVote_effect, AzothDAO.proposals at 1. simpl.
  by rewrite lookup_insert_ne.
Qed.

Lemma set_tally_keeps support h p :
  state (set_tally support h p) = state p
  ∧ startBlock (set_tally support h p) = startBlock p
  ∧ endBlock (set_tally support h p) = endBlock p
  ∧ votingMode (set_tally support h p) = votingMode p
  ∧ executed (set_tally support h p) = executed p.
Proof. destruct support; auto. Qed.

(** ** Symbolic execution of transactions *)

Ltac tx_cbn :=
  cbn [engine cusdc_balances cusdc_totalMinted vault_totalAssets vault_totalShares
       vault_shares cgov_balances cgov_totalSupply cgov_hasVotingPower
       cgov_hasHeldToken dao_isMember dao_proposalCount dao_proposals dao_receipts
       set_engine set_cusdc_balances set_cusdc_totalMinted set_vault_totals
       set_vault_shares set_cgov_balances set_cgov_totalSupply
       set_cgov_hasVotingPower set_cgov_hasHeldToken set_dao_isMember
       set_dao_proposalCount set_dao_proposals set_dao_receipts];
  cbn -[wrap256 UINT256_MOD N.div N.pow N.add N.mul N.modulo N.ltb N.leb N.eqb
        plaintext_of slot lookup insert union singleton engine_fresh engine_allow].

(** One step of symbolic execution: name the result of an engine
    allocation, or split on a guard. *)
Ltac tx_step :=
  tx_cbn;
  match goal with
  | |- context [engine_fresh ?v ?e] =>
      let h := fresh "h" in
      let e' := fresh "e" in
      destruct (engine_fresh v e) as [h e'] eqn:?
  | |- context [if ?c then _ else _] => destruct c eqn:?
  end.

Ltac tx_run := tx_unfold; repeat tx_step; tx_cbn.

(** Two worlds with the same fields are the same. *)
Lemma World_eq (w1 w2 : World) :
  engine w1 = engine w2 →
  cusdc_balances w1 = cusdc_balances w2 →
  cusdc_totalMinted w1 = cusdc_totalMinted w2 →
  vault_totalAssets w1 = vault_totalAssets w2 →
  vault_totalShares w1 = vault_totalShares w2 →
  vault_shares w1 = vault_shares w2 →
  cgov_balances w1 = cgov_balances w2 →
  cgov_totalSupply w1 = cgov_totalSupply w2 →
  cgov_hasVotingPower w1 = cgov_hasVotingPower w2 →
  cgov_hasHeldToken w1 = cgov_hasHeldToken w2 →
  dao_isMember w1 = dao_isMember w2 →
  dao_proposalCount w1 = dao_proposalCount w2 →
  dao_proposals w1 = dao_proposals w2 →
  dao_receipts w1 = dao_receipts w2 →
  w1 = w2.
Proof. destruct w1, w2. simpl. intros. by subst. Qed.

Lemma engine_fresh_inv v e h e' :
  engine_fresh v e = (h, e') →
  h = next_handle e
  ∧ next_handle e' = next_handle e + 1
  ∧ plaintexts e' = <[next_handle e := v]> (plaintexts e)
  ∧ acl e' = acl e.
Proof. unfold engine_fresh. intros [= <- <-]. auto. Qed.

Lemma isAllowed_engine_allow_same h who e :
  isAllowed (engine_allow h who e) h who = true.
Proof.
  unfold isAllowed, engine_allow. simpl. apply bool_decide_eq_true. set_solver.
Qed.

Lemma isAllowed_engine_allow_mono h who h' who' e :
  isAllowed e h who = true → isAllowed (engine_allow h' who' e) h who = true.
Proof.
  unfold isAllowed, engine_allow. simpl. rewrite !bool_decide_eq_true. set_solver.
Qed.

(** The facts an allocation leaves behind, for every allocation in the context. *)
Ltac fresh_facts :=
  repeat match goal with
         | H : engine_fresh _ _ = (_, _) |- _ =>
             apply engine_fresh_inv in H;
             let Hh := fresh "Hh" in
             let Hn := fresh "Hn" in
             let Hp := fresh "Hp" in
             let Ha := fresh "Ha" in
             destruct H as (Hh & Hn & Hp & Ha);
             cbn [next_handle acl engine_allow] in Hh, Hn, Ha
         end.

Lemma slot_insert_eq (m : gmap N N) k v : slot (<[k := v]> m) k = v.
Proof. unfold slot. by rewrite lookup_insert_eq. Qed.

Lemma purchaseCUSDC_frame cfg sender value w :
  let w' := commit (CUSDCMarketplace.purchaseCUSDC cfg sender value) w in
  dao_proposals w' = dao_proposals w ∧ dao_receipts w' = dao_receipts w
  ∧ dao_isMember w' = dao_isMember w ∧ dao_proposalCount w' = dao_proposalCount w.
Proof. unfold CUSDCMarketplace.purchaseCUSDC. tx_run; auto. Qed.

Lemma deposit_frame cfg sender w :
  let w' := commit (ConfidentialVault.deposit cfg sender) w in
  dao_proposals w' = dao_proposals w ∧ dao_receipts w' = dao_receipts w
  ∧ dao_isMember w' = dao_isMember w ∧ dao_proposalCount w' = dao_proposalCount w.
Proof.
  unfold ConfidentialVault.deposit, CUSDCMarketplace.vaultTransfer. tx_run; auto.
Qed.

Lemma mint_frame cfg sender value amount w :
  let w' := commit (ConfidentialGovernanceToken.mint cfg sender value amount) w in
  dao_proposals w' = dao_proposals w ∧ dao_receipts w' = dao_receipts w
  ∧ dao_isMember w' = dao_isMember w ∧ dao_proposalCount w' = dao_proposalCount w.
Proof. unfold ConfidentialGovernanceToken.mint. tx_run; auto. Qed.

Lemma revealVotes_frame sender blockNumber proposalId w :
  let w' := commit (AzothDAO.revealVotes sender blockNumber proposalId) w in
  dao_proposals w' = dao_proposals w ∧ dao_receipts w' = dao_receipts w
  ∧ dao_isMember w' = dao_isMember w ∧ dao_proposalCount w' = dao_proposalCount w.
Proof. unfold AzothDAO.revealVotes. tx_run; auto. Qed.

(** ** Creating a proposal *)

(** A proposal just created is stored as [Pending], with the voting window
    computed from the block of creation; no other proposal is touched. *)
Lemma propose_stores_pending cfg w w' sender value blockNumber d amount rcpt mode pid :
  AzothDAO.propose cfg sender value blockNumber d amount rcpt mode w = Ok pid w' →
  pid = dao_proposalCount w + 1
  ∧ dao_proposalCount w' = pid
  ∧ dao_receipts w' = dao_receipts w
  ∧ dao_isMember w' = dao_isMember w
  ∧ ∃ p, dao_proposals w' = <[pid := p]> (dao_proposals w)
         ∧ state p = Pending
         ∧ votingMode p = mode
         ∧ startBlock p = blockNumber + votingDelay cfg
         ∧ endBlock p = blockNumber + votingDelay cfg + votingPeriod cfg.
Proof.
  unfold AzothDAO.propose. tx_unfold. tx_cbn.
  destruct (AzothDAO.isMember w sender); tx_cbn; [| discriminate].
  rewrite hasVotingPower_view.
  repeat tx_step; try discriminate.
  intros [= <- <-]. split_and!; try reflexivity.
  eexists. split; [reflexivity |]. tx_cbn. auto.
Qed.

Lemma proposals_insert_eq (m : gmap N Proposal) w k p :
  dao_proposals w = <[k := p]> m → AzothDAO.proposals w k = p.
Proof. unfold AzothDAO.proposals. intros ->. by rewrite lookup_insert_eq. Qed.

Lemma proposals_insert_ne w0 w k k' p :
  dao_proposals w = <[k := p]> (dao_proposals w0) → k ≠ k' →
  AzothDAO.proposals w k' = AzothDAO.proposals w0 k'.
Proof. unfold AzothDAO.proposals. intros -> Hne. by rewrite lookup_insert_ne. Qed.

Lemma proposals_same w0 w k :
  dao_proposals w = dao_proposals w0 → AzothDAO.proposals w k = AzothDAO.proposals w0 k.
Proof. unfold AzothDAO.proposals. by intros ->. Qed.

(** A vote on a proposal that [propose] has just created is refused with
    [ProposalNotActive], in every block and for every voter. *)
Lemma castVote_after_propose cfg w w' sender value blockNumber d amount rcpt mode pid
    voter blockNumber' support :
  AzothDAO.propose cfg sender value blockNumber d amount rcpt mode w = Ok pid w' →
  AzothDAO.castVote cfg voter blockNumber' pid support w' = Revert ProposalNotActive.
Proof.
  intros H. apply propose_stores_pending in H as (_ & _ & _ & _ & p & Hp & Hs & _).
  rewrite castVote_spec. unfold castVote_guard.
  rewrite (proposals_insert_eq _ _ _ _ Hp), Hs. reflexivity.
Qed.

Lemma castVote_no_active cfg w voter blockNumber proposalId support :
  no_active w →
  AzothDAO.castVote cfg voter blockNumber proposalId support w = Revert ProposalNotActive.
Proof.
  intros Hn. rewrite castVote_spec. unfold castVote_guard.
  by rewrite bool_decide_eq_false_2 by apply Hn.
Qed.

Lemma no_active_same w w' :
  dao_proposals w' = dao_proposals w → no_active w → no_active w'.
Proof. intros He Hn k. rewrite (proposals_same _ _ _ He). apply Hn. Qed.

(** No transaction of the four contracts stores [Active] in a proposal. *)
Lemma perform_no_active cfg blockNumber c w :
  no_active w → no_active (perform cfg blockNumber c w).
Proof.
  intros Hn. destruct c; cbn [perform].
  - eapply no_active_same; [apply purchaseCUSDC_frame | done].
  - eapply no_active_same; [apply deposit_frame | done].
  - eapply no_active_same; [apply mint_frame | done].
  - unfold commit.
    destruct (AzothDAO.propose _ _ _ _ _ _ _ _ w) as [pid w'|e] eqn:H; [| done].
    apply propose_stores_pending in H as (_ & _ & _ & _ & p & Hp & Hs & _).
    intros k. destruct (decide (pid = k)) as [<- | Hne].
    + rewrite (proposals_insert_eq _ _ _ _ Hp), Hs. discriminate.
    + rewrite (proposals_insert_ne _ _ _ _ _ Hp Hne). apply Hn.
  - unfold commit. by rewrite castVote_no_active.
  - eapply no_active_same; [apply revealVotes_frame | done].
  - unfold commit.
    destruct (AzothDAO.finalizeProposal _ _ _ _ _ w) as [[] w'|e] eqn:H; [| done].
    apply finalizeProposal_inv in H as (_ & _ & _ & ->).
    intros k. unfold finalized. destruct (decide (proposalId = k)) as [<- | Hne].
    + rewrite proposals_with_state. simpl. destruct (_ <? _); discriminate.
    + unfold with_state, AzothDAO.proposals at 1. simpl.
      rewrite lookup_insert_ne by done. apply Hn.
Qed.

Lemma run_no_active cfg history w :
  no_active w → no_active (run cfg history w).
Proof.
  revert w. induction history as [| [blockNumber c] history IH]; intros w Hn; [done |].
  simpl. apply IH. by apply perform_no_active.
Qed.

(** Starting without an [Active] proposal, no history of transactions of
    the four contracts ever lets a vote through. *)
Lemma castVote_never_passes cfg history w voter blockNumber proposalId support :
  no_active w →
  AzothDAO.castVote cfg voter blockNumber proposalId support (run cfg history w)
  = Revert ProposalNotActive.
Proof. intros Hn. apply castVote_no_active. by apply run_no_active. Qed.

(** Outside the voting window a vote always fails with one of the three
    not-active errors. *)
Lemma castVote_outside_window cfg w voter blockNumber proposalId support :
  blockNumber < startBlock (AzothDAO.proposals w proposalId)
  ∨ endBlock (AzothDAO.proposals w proposalId) < blockNumber →
  ∃ e, AzothDAO.castVote cfg voter blockNumber proposalId support w = Revert e
       ∧ (e = ProposalNotActive ∨ e = VotingNotStarted ∨ e = VotingEnded).
Proof.
  intros Hout. rewrite castVote_spec. unfold castVote_guard.
  destruct (negb (bool_decide _)); simpl; [eauto |].
  destruct (N.ltb_spec blockNumber (startBlock (AzothDAO.proposals w proposalId)));
    [eauto |].
  rewrite N_ltb_true by lia. eauto.
Qed.

(** Inside the voting window an eligible first-time voter on a proposal whose
    stored state is [Active] gets the vote through. *)
Lemma castVote_in_window_active cfg w voter blockNumber proposalId support :
  state (AzothDAO.proposals w proposalId) = Active →
  startBlock (AzothDAO.proposals w proposalId) <= blockNumber →
  blockNumber <= endBlock (AzothDAO.proposals w proposalId) →
  hasVoted (AzothDAO.receipts w proposalId voter) = false →
  voting_power w voter = true →
  AzothDAO.castVote cfg voter blockNumber proposalId support w
  = Ok tt (castVote_effect cfg voter proposalId support w).
Proof.
  intros Hs Hlo Hhi Hv Hp. rewrite castVote_spec. unfold castVote_guard.
  rewrite Hs, Hv, Hp. simpl.
  rewrite (N_ltb_false blockNumber) by lia.
  by rewrite N_ltb_false by lia.
Qed.

(** C2 (the code departs from the claim): proposal 1, created by [propose]
    at block 100, has its voting window from block 101 to block 50501 and is
    stored as [Pending]; Alice holds voting power and has not voted; her
    vote at block 101, inside the window, is refused with
    [ProposalNotActive]. *)
Theorem castVote_in_window_refused :
  AzothDAO.propose default_config alice 0 100 0 1000 carol Normal funded_world
  = Ok 1 proposed_world
  ∧ startBlock (AzothDAO.proposals proposed_world 1) = 101
  ∧ endBlock (AzothDAO.proposals proposed_world 1) = 50501
  ∧ state (AzothDAO.proposals proposed_world 1) = Pending
  ∧ voting_power proposed_world alice = true
  ∧ hasVoted (AzothDAO.receipts proposed_world 1 alice) = false
  ∧ AzothDAO.castVote default_config alice 101 1 For proposed_world
    = Revert ProposalNotActive.
Proof. vm_compute. auto 10. Qed.

(** ** Finalising twice *)

(** A finalised proposal that has been created keeps its state and its
    [endBlock] through every transaction of the four contracts. *)
Lemma perform_keeps_finalized cfg blockNumber c w proposalId :
  proposalId <= dao_proposalCount w →
  state (AzothDAO.proposals w proposalId) = Succeeded
  ∨ state (AzothDAO.proposals w proposalId) = Defeated →
  proposalId <= dao_proposalCount (perform cfg blockNumber c w)
  ∧ state (AzothDAO.proposals (perform cfg blockNumber c w) proposalId)
    = state (AzothDAO.proposals w proposalId)
  ∧ endBlock (AzothDAO.proposals (perform cfg blockNumber c w) proposalId)
    = endBlock (AzothDAO.proposals w proposalId).
Proof.
  intros Hc Hs. destruct c; cbn [perform].
  - destruct (purchaseCUSDC_frame cfg sender value w) as (Hp & _ & _ & Hn).
    rewrite Hn, !(proposals_same _ _ _ Hp). auto.
  - destruct (deposit_frame cfg sender w) as (Hp & _ & _ & Hn).
    rewrite Hn, !(proposals_same _ _ _ Hp). auto.
  - destruct (mint_frame cfg sender value amount w) as (Hp & _ & _ & Hn).
    rewrite Hn, !(proposals_same _ _ _ Hp). auto.
  - unfold commit.
    destruct (AzothDAO.propose _ _ _ _ _ _ _ _ w) as [pid w'|e] eqn:H; [| done].
    apply propose_stores_pending in H as (-> & Hn & _ & _ & p & Hp & _).
    rewrite Hn, (proposals_insert_ne _ _ _ _ _ Hp) by lia. split_and!; [lia | done ..].
  - unfold commit. rewrite castVote_spec. unfold castVote_guard.
    destruct (decide (proposalId0 = proposalId)) as [-> | Hne].
    + rewrite bool_decide_eq_false_2 by (destruct Hs as [-> | ->]; discriminate).
      done.
    + destruct (if negb _ then _ else _); [done |].
      by rewrite proposals_castVote_effect_ne.
  - destruct (revealVotes_frame sender blockNumber proposalId0 w) as (Hp & _ & _ & Hn).
    rewrite Hn, !(proposals_same _ _ _ Hp). auto.
  - unfold commit.
    destruct (AzothDAO.finalizeProposal _ _ _ _ _ w) as [[] w'|e] eqn:H; [| done].
    apply finalizeProposal_inv in H as (_ & _ & Hst & ->). unfold finalized.
    destruct (decide (proposalId0 = proposalId)) as [-> | Hne].
    + destruct Hs as [Hs | Hs], Hst as [Hst | Hst]; congruence.
    + by rewrite proposals_with_state_ne.
Qed.

Lemma run_keeps_finalized cfg history w proposalId :
  proposalId <= dao_proposalCount w →
  state (AzothDAO.proposals w proposalId) = Succeeded
  ∨ state (AzothDAO.proposals w proposalId) = Defeated →
  state (AzothDAO.proposals (run cfg history w) proposalId)
  = state (AzothDAO.proposals w proposalId)
  ∧ endBlock (AzothDAO.proposals (run cfg history w) proposalId)
    = endBlock (AzothDAO.proposals w proposalId).
Proof.
  revert w. induction history as [| [blockNumber c] history IH]; intros w Hc Hs; [done |].
  destruct (perform_keeps_finalized cfg blockNumber c w proposalId Hc Hs)
    as (Hc' & Hs' & He').
  simpl. destruct (IH (perform cfg blockNumber c w)) as [Hs'' He'']; [done | | ].
  - by rewrite Hs'.
  - split; congruence.
Qed.

(** C3 (as amended): once a finalisation of a created proposal has
    succeeded, the outcome it wrote stays through every later transaction
    of the four contracts, and every later [finalizeProposal] on the same
    proposal reverts and leaves the whole state as it was. For a member
    calling at the same or a later block the error is [ProposalNotActive],
    the error of the lifecycle guard: the contract has no separate error for
    a repeated finalisation. *)
Theorem finalize_second_call_fails
    cfg w w1 sender blockNumber proposalId f a history sender2 blockNumber2 f2 a2 :
  AzothDAO.finalizeProposal sender blockNumber proposalId f a w = Ok tt w1 →
  proposalId <= dao_proposalCount w →
  let w' := run cfg history w1 in
  let second := AzothDAO.finalizeProposal sender2 blockNumber2 proposalId f2 a2 in
  state (AzothDAO.proposals w' proposalId) = (if a <? f then Succeeded else Defeated)
  ∧ (∃ e, second w' = Revert e
          ∧ (e = NotMember ∨ e = VotingNotEnded ∨ e = ProposalNotActive))
  ∧ commit second w' = w'
  ∧ (AzothDAO.isMember w' sender2 = true → blockNumber <= blockNumber2 →
     second w' = Revert ProposalNotActive).
Proof.
  intros H Hc w' second.
  apply finalizeProposal_inv in H as (Hm & Hb & Hs & ->).
  assert (Hst : state (AzothDAO.proposals (finalized proposalId f a w) proposalId)
                = (if a <? f then Succeeded else Defeated)).
  { unfold finalized. by rewrite proposals_with_state. }
  assert (Hend : endBlock (AzothDAO.proposals (finalized proposalId f a w) proposalId)
                 = endBlock (AzothDAO.proposals w proposalId)).
  { unfold finalized. by rewrite proposals_with_state. }
  destruct (run_keeps_finalized cfg history (finalized proposalId f a w) proposalId)
    as [Hst' Hend']; [done | rewrite Hst; destruct (a <? f); auto |].
  fold w' in Hst', Hend'. rewrite Hst in Hst'. rewrite Hend in Hend'.
  assert (Ha : state (AzothDAO.proposals w' proposalId) ≠ Active)
    by (rewrite Hst'; destruct (a <? f); discriminate).
  assert (Hp : state (AzothDAO.proposals w' proposalId) ≠ Pending)
    by (rewrite Hst'; destruct (a <? f); discriminate).
  destruct (finalizeProposal_done w' sender2 blockNumber2 proposalId f2 a2 Ha Hp)
    as (e & He & Hk).
  fold second in He. split_and!.
  - exact Hst'.
  - exists e. split; [done |]. by apply (finalizeProposal_errors _ _ _ _ _ _ _ He).
  - unfold commit. by rewrite He.
  - intros Hm2 Hle. rewrite He. f_equal. apply Hk; [done |]. lia.
Qed.

Lemma finalize_second_call_fails_witness :
  AzothDAO.finalizeProposal bob 50503 1 0 9
    (run default_config [(50502, Mint bob 1000000000000000 1)]
       (commit (AzothDAO.finalizeProposal alice 50502 1 5 3) proposed_world))
  = Revert ProposalNotActive.
Proof.
  apply (finalize_second_call_fails default_config proposed_world _ alice 50502 1 5 3
           [(50502, Mint bob 1000000000000000 1)] bob 50503 0 9).
  - vm_compute. reflexivity.
  - vm_compute. discriminate.
  - vm_compute. reflexivity.
  - vm_compute. discriminate.
Defined.

(** C3 as stated fails: the second finalisation of proposal 1 is refused
    with [ProposalNotActive], not with [AlreadyFinalized]. *)
Lemma finalize_second_call_not_AlreadyFinalized :
  AzothDAO.finalizeProposal alice 50502 1 5 3 proposed_world
  = Ok tt (finalized 1 5 3 proposed_world)
  ∧ AzothDAO.finalizeProposal bob 50503 1 5 3 (finalized 1 5 3 proposed_world)
    = Revert ProposalNotActive
  ∧ AzothDAO.finalizeProposal bob 50503 1 5 3 (finalized 1 5 3 proposed_world)
    ≠ Revert AlreadyFinalized.
Proof.
  split_and!.
  - vm_compute. reflexivity.
  - vm_compute. reflexivity.
  - vm_compute. discriminate.
Qed.

(** ** Voting twice *)

Lemma receipts_castVote_effect_ne cfg w sender proposalId support k voter :
  (k, voter) ≠ (proposalId, sender) →
  AzothDAO.receipts (castVote_effect cfg sender proposalId support w) k voter
  = AzothDAO.receipts w k voter.
Proof.
  intros Hne. unfold castVote_effect, AzothDAO.receipts at 1. simpl.
  by rewrite lookup_insert_ne.
Qed.

Lemma receipts_same w0 w k voter :
  dao_receipts w = dao_receipts w0 → AzothDAO.receipts w k voter = AzothDAO.receipts w0 k voter.
Proof. unfold AzothDAO.receipts. by intros ->. Qed.

(** With a receipt on file, [castVote] reverts at the first guard that
    fires, the receipt guard at the latest. *)
Lemma castVote_with_receipt cfg w voter blockNumber proposalId support :
  hasVoted (AzothDAO.receipts w proposalId voter) = true →
  AzothDAO.castVote cfg voter blockNumber proposalId support w
  = Revert (if negb (bool_decide (state (AzothDAO.proposals w proposalId) = Active))
            then ProposalNotActive
            else if blockNumber <? startBlock (AzothDAO.proposals w proposalId)
                 then VotingNotStarted
                 else if endBlock (AzothDAO.proposals w proposalId) <? blockNumber
                      then VotingEnded
                      else AlreadyVoted).
Proof.
  intros Hv. rewrite castVote_spec. unfold castVote_guard. rewrite Hv.
  destruct (negb (bool_decide _)); [reflexivity |].
  destruct (blockNumber <? _); [reflexivity |].
  destruct (_ <? blockNumber); reflexivity.
Qed.

(** A receipt, once written, is never written again. *)
Lemma perform_keeps_receipt cfg blockNumber c w proposalId voter :
  hasVoted (AzothDAO.receipts w proposalId voter) = true →
  AzothDAO.receipts (perform cfg blockNumber c w) proposalId voter
  = AzothDAO.receipts w proposalId voter.
Proof.
  intros Hv. destruct c; cbn [perform].
  - apply receipts_same, purchaseCUSDC_frame.
  - apply receipts_same, deposit_frame.
  - apply receipts_same, mint_frame.
  - unfold commit.
    destruct (AzothDAO.propose _ _ _ _ _ _ _ _ w) as [pid w'|e] eqn:H; [| done].
    apply propose_stores_pending in H as (_ & _ & Hr & _). by apply receipts_same.
  - unfold commit.
    destruct (AzothDAO.castVote _ _ _ _ _ w) as [[] w'|e] eqn:H; [| done].
    apply castVote_inv in H as (_ & _ & _ & Hfirst & _ & ->).
    apply receipts_castVote_effect_ne. intros [= -> ->]. congruence.
  - apply receipts_same, revealVotes_frame.
  - unfold commit.
    destruct (AzothDAO.finalizeProposal _ _ _ _ _ w) as [[] w'|e] eqn:H; [| done].
    by apply finalizeProposal_inv in H as (_ & _ & _ & ->).
Qed.

Lemma run_keeps_receipt cfg history w proposalId voter :
  hasVoted (AzothDAO.receipts w proposalId voter) = true →
  AzothDAO.receipts (run cfg history w) proposalId voter
  = AzothDAO.receipts w proposalId voter.
Proof.
  revert w. induction history as [| [blockNumber c] history IH]; intros w Hv; [done |].
  simpl. pose proof (perform_keeps_receipt cfg blockNumber c w proposalId voter Hv) as Hk.
  rewrite IH; [done |]. by rewrite Hk.
Qed.

(** C5 (as amended): once a vote of [voter] on a proposal has gone through,
    its receipt stays as written through every later transaction of the four
    contracts, and every further [castVote] of the same voter on the same
    proposal reverts, whatever the block and the choice, leaving tallies,
    receipts and all other state as they were. The error is [AlreadyVoted]
    while the proposal is still [Active] and the block inside the voting
    window; otherwise an earlier guard answers first: [ProposalNotActive],
    [VotingNotStarted] or [VotingEnded]. *)
Theorem castVote_second_fails cfg w0 w voter blockNumber0 proposalId support0
    history blockNumber support :
  AzothDAO.castVote cfg voter blockNumber0 proposalId support0 w0 = Ok tt w →
  let w' := run cfg history w in
  let second := AzothDAO.castVote cfg voter blockNumber proposalId support in
  AzothDAO.receipts w' proposalId voter
  = mkReceipt true (ConfidentialGovernanceToken.balanceOf w0 voter) support0
  ∧ second w'
    = Revert (if negb (bool_decide (state (AzothDAO.proposals w' proposalId) = Active))
              then ProposalNotActive
              else if blockNumber <? startBlock (AzothDAO.proposals w' proposalId)
                   then VotingNotStarted
                   else if endBlock (AzothDAO.proposals w' proposalId) <? blockNumber
                        then VotingEnded
                        else AlreadyVoted)
  ∧ commit second w' = w'
  ∧ tallies (commit second w') proposalId = tallies w' proposalId
  ∧ dao_receipts (commit second w') = dao_receipts w'
  ∧ (state (AzothDAO.proposals w' proposalId) = Active →
     startBlock (AzothDAO.proposals w' proposalId) <= blockNumber →
     blockNumber <= endBlock (AzothDAO.proposals w' proposalId) →
     second w' = Revert AlreadyVoted).
Proof.
  intros H w' second.
  apply castVote_inv in H as (_ & _ & _ & _ & _ & ->).
  assert (Hr : AzothDAO.receipts w' proposalId voter
               = mkReceipt true (ConfidentialGovernanceToken.balanceOf w0 voter) support0).
  { subst w'. rewrite run_keeps_receipt; by rewrite receipts_castVote_effect. }
  assert (Hv : hasVoted (AzothDAO.receipts w' proposalId voter) = true) by by rewrite Hr.
  pose proof (castVote_with_receipt cfg w' voter blockNumber proposalId support Hv)
    as Hsecond.
  fold second in Hsecond.
  split_and!.
  - exact Hr.
  - exact Hsecond.
  - unfold commit. by rewrite Hsecond.
  - unfold commit. by rewrite Hsecond.
  - unfold commit. by rewrite Hsecond.
  - intros Hs Hlo Hhi. rewrite Hsecond, Hs. simpl.
    rewrite (N_ltb_false blockNumber) by lia.
    by rewrite N_ltb_false by lia.
Qed.

Lemma castVote_second_fails_witness :
  AzothDAO.castVote default_config alice 200 1 Against
    (run default_config [(102, CastVote bob 1 Against)]
       (commit (AzothDAO.castVote default_config alice 101 1 For) active_world))
  = Revert AlreadyVoted.
Proof.
  apply (castVote_second_fails default_config active_world _ alice 101 1 For
           [(102, CastVote bob 1 Against)] 200 Against).
  - vm_compute. reflexivity.
  - vm_compute. reflexivity.
  - vm_compute. discriminate.
  - vm_compute. discriminate.
Defined.

(** C5 as stated fails: Alice has voted on proposal 1, and her second vote,
    sent after the voting window, is refused with [VotingEnded], not with
    [AlreadyVoted]. *)
Lemma castVote_second_after_window_VotingEnded :
  hasVoted (AzothDAO.receipts voted_world 1 alice) = true
  ∧ AzothDAO.castVote default_config alice 50502 1 For voted_world = Revert VotingEnded
  ∧ AzothDAO.castVote default_config alice 50502 1 For voted_world ≠ Revert AlreadyVoted.
Proof.
  split_and!.
  - vm_compute. reflexivity.
  - vm_compute. reflexivity.
  - vm_compute. discriminate.
Qed.

(** ** The voting mode *)

Lemma proposals_erase_modes w proposalId :
  AzothDAO.proposals (erase_modes w) proposalId
  = AzothDAO.set_votingMode Normal (AzothDAO.proposals w proposalId).
Proof.
  unfold erase_modes, AzothDAO.proposals. simpl. rewrite lookup_fmap.
  destruct (dao_proposals w !! proposalId); reflexivity.
Qed.

Lemma voting_power_erase_modes w account :
  voting_power (erase_modes w) account = voting_power w account.
Proof.
  unfold voting_power, ConfidentialGovernanceToken.hasVotingPower. tx_unfold.
  change (ConfidentialGovernanceToken.hasHeldToken (erase_modes w) account)
    with (ConfidentialGovernanceToken.hasHeldToken w account).
  destruct (ConfidentialGovernanceToken.hasHeldToken w account); reflexivity.
Qed.

Lemma castVote_guard_erase_modes w sender blockNumber proposalId :
  castVote_guard (erase_modes w) sender blockNumber proposalId
  = castVote_guard w sender blockNumber proposalId.
Proof.
  unfold castVote_guard. rewrite proposals_erase_modes, voting_power_erase_modes.
  reflexivity.
Qed.

Lemma set_votingMode_set_tally mode support h p :
  AzothDAO.set_votingMode mode (set_tally support h p)
  = set_tally support h (AzothDAO.set_votingMode mode p).
Proof. destruct support; reflexivity. Qed.

Lemma tally_of_set_votingMode mode support p :
  tally_of support (AzothDAO.set_votingMode mode p) = tally_of support p.
Proof. destruct support; reflexivity. Qed.

Lemma castVote_effect_erase_modes cfg w sender proposalId support :
  castVote_effect cfg sender proposalId support (erase_modes w)
  = erase_modes (castVote_effect cfg sender proposalId support w).
Proof.
  unfold castVote_effect. rewrite proposals_erase_modes, tally_of_set_votingMode.
  unfold erase_modes, set_engine, set_dao_proposals, set_dao_receipts. simpl.
  rewrite fmap_insert, set_votingMode_set_tally. reflexivity.
Qed.

(** Voting commutes with forgetting the voting modes. *)
Lemma castVote_erase_modes cfg w sender blockNumber proposalId support :
  commit (AzothDAO.castVote cfg sender blockNumber proposalId support) (erase_modes w)
  = erase_modes (commit (AzothDAO.castVote cfg sender blockNumber proposalId support) w)
  ∧ failure (AzothDAO.castVote cfg sender blockNumber proposalId support) (erase_modes w)
    = failure (AzothDAO.castVote cfg sender blockNumber proposalId support) w.
Proof.
  unfold commit, failure. rewrite !castVote_spec, castVote_guard_erase_modes.
  destruct (castVote_guard w sender blockNumber proposalId); [done |].
  by rewrite castVote_effect_erase_modes.
Qed.

Lemma run_votes_erase_modes cfg vs w :
  run_votes cfg vs (erase_modes w) = erase_modes (run_votes cfg vs w).
Proof.
  revert w. induction vs as [| [[[voter blockNumber] proposalId] support] vs IH];
    intros w; [done |].
  simpl. rewrite (proj1 (castVote_erase_modes _ _ _ _ _ _)). apply IH.
Qed.

Lemma tallies_erase_modes w proposalId :
  tallies (erase_modes w) proposalId = tallies w proposalId.
Proof. unfold tallies. by rewrite proposals_erase_modes. Qed.

Lemma plain_tallies_erase_modes w proposalId :
  plain_tallies (erase_modes w) proposalId = plain_tallies w proposalId.
Proof. unfold plain_tallies. by rewrite proposals_erase_modes. Qed.

Lemma with_mode_same_but_votingMode w proposalId m1 m2 :
  same_but_votingMode (with_mode proposalId m1 w) (with_mode proposalId m2 w).
Proof.
  unfold same_but_votingMode, erase_modes, with_mode, set_dao_proposals. simpl.
  by rewrite !fmap_insert.
Qed.

(** [propose] with one mode or the other gives worlds that differ in that
    mode only. *)
Lemma propose_same_but_votingMode cfg w sender value blockNumber d amount rcpt m1 m2 :
  same_but_votingMode
    (commit (AzothDAO.propose cfg sender value blockNumber d amount rcpt m1) w)
    (commit (AzothDAO.propose cfg sender value blockNumber d amount rcpt m2) w).
Proof.
  unfold same_but_votingMode, AzothDAO.propose. tx_unfold. tx_cbn.
  destruct (AzothDAO.isMember w sender); tx_cbn; [| done].
  rewrite hasVotingPower_view.
  repeat tx_step; try done.
  apply World_eq; tx_cbn; try reflexivity.
  by rewrite !fmap_insert.
Qed.

(** The new tally of a vote is the old one plus the voter's whole balance,
    whatever the voting mode of the proposal. *)
Lemma castVote_adds_whole_balance cfg w w' voter blockNumber proposalId support :
  AzothDAO.castVote cfg voter blockNumber proposalId support w = Ok tt w' →
  plaintext_of (engine w') (tally_of support (AzothDAO.proposals w' proposalId))
  = wrap256 (plaintext_of (engine w) (tally_of support (AzothDAO.proposals w proposalId))
             + plaintext_of (engine w) (ConfidentialGovernanceToken.balanceOf w voter)).
Proof.
  intros H. apply castVote_inv in H as (_ & _ & _ & _ & _ & ->).
  rewrite proposals_castVote_effect.
  assert (tally_of support (set_tally support (next_handle (engine w))
                              (AzothDAO.proposals w proposalId))
          = next_handle (engine w)) as -> by (destruct support; reflexivity).
  unfold castVote_effect, plaintext_of at 1. simpl. by rewrite lookup_insert_eq.
Qed.

(** C10: a vote that passes the guards of [castVote] goes through and adds
    the voter's whole balance to the chosen tally, whatever the voting mode
    of the proposal: the new tally decrypts to the old tally plus the
    balance, with no other weighting, the two other tallies and the voting
    mode stay, and the receipt records the handle of the balance. And two
    worlds that differ only in the voting modes of their proposals stay so
    under the same sequence of votes: the same votes pass, and tally handles,
    tally plaintexts, receipts and the engine are the same in both. *)
Theorem votingMode_not_observed_by_castVote cfg vs w1 w2 :
  same_but_votingMode w1 w2 →
  same_but_votingMode (run_votes cfg vs w1) (run_votes cfg vs w2)
  ∧ (∀ proposalId,
       tallies (run_votes cfg vs w1) proposalId = tallies (run_votes cfg vs w2) proposalId
       ∧ plain_tallies (run_votes cfg vs w1) proposalId
         = plain_tallies (run_votes cfg vs w2) proposalId)
  ∧ dao_receipts (run_votes cfg vs w1) = dao_receipts (run_votes cfg vs w2)
  ∧ engine (run_votes cfg vs w1) = engine (run_votes cfg vs w2)
  ∧ (∀ voter blockNumber proposalId support,
       failure (AzothDAO.castVote cfg voter blockNumber proposalId support)
               (run_votes cfg vs w1)
       = failure (AzothDAO.castVote cfg voter blockNumber proposalId support)
                 (run_votes cfg vs w2))
  ∧ (∀ w mode voter blockNumber proposalId choice,
       let proposal := AzothDAO.proposals w proposalId in
       votingMode proposal = mode →
       state proposal = Active →
       startBlock proposal <= blockNumber →
       blockNumber <= endBlock proposal →
       hasVoted (AzothDAO.receipts w proposalId voter) = false →
       voting_power w voter = true →
       ∃ w', AzothDAO.castVote cfg voter blockNumber proposalId choice w = Ok tt w'
             ∧ plaintext_of (engine w') (tally_of choice (AzothDAO.proposals w' proposalId))
               = wrap256 (plaintext_of (engine w) (tally_of choice proposal)
                          + plaintext_of (engine w)
                              (ConfidentialGovernanceToken.balanceOf w voter))
             ∧ (∀ other, other ≠ choice →
                         tally_of other (AzothDAO.proposals w' proposalId)
                         = tally_of other proposal)
             ∧ AzothDAO.receipts w' proposalId voter
               = mkReceipt true (ConfidentialGovernanceToken.balanceOf w voter) choice
             ∧ votingMode (AzothDAO.proposals w' proposalId) = mode).
Proof.
  intros H.
  assert (Hr : same_but_votingMode (run_votes cfg vs w1) (run_votes cfg vs w2)).
  { unfold same_but_votingMode in *. by rewrite <- !run_votes_erase_modes, H. }
  unfold same_but_votingMode in Hr. split_and!.
  - exact Hr.
  - intros k. rewrite <- (tallies_erase_modes (run_votes cfg vs w1)),
      <- (plain_tallies_erase_modes (run_votes cfg vs w1)), Hr.
    by rewrite tallies_erase_modes, plain_tallies_erase_modes.
  - exact (f_equal dao_receipts Hr).
  - exact (f_equal engine Hr).
  - intros voter blockNumber k support.
    rewrite <- (proj2 (castVote_erase_modes cfg (run_votes cfg vs w1) _ _ _ _)), Hr.
    apply castVote_erase_modes.
  - intros w mode voter blockNumber k choice proposal Hmode Hs Hlo Hhi Hv Hp.
    pose proof (castVote_in_window_active cfg w voter blockNumber k choice Hs Hlo Hhi Hv Hp)
      as Hok.
    eexists. split; [exact Hok |]. split_and!.
    + exact (castVote_adds_whole_balance cfg w _ voter blockNumber k choice Hok).
    + intros other Ho. rewrite proposals_castVote_effect. fold proposal.
      destruct other, choice; done.
    + apply receipts_castVote_effect.
    + rewrite proposals_castVote_effect. fold proposal. rewrite <- Hmode.
      by destruct choice.
Qed.

Lemma votingMode_not_observed_by_castVote_witness :
  let votes := [(alice, 101, 1, For); (bob, 102, 1, Against)] in
  plain_tallies (run_votes default_config votes (with_mode 1 Normal active_world)) 1
  = plain_tallies (run_votes default_config votes (with_mode 1 Quadratic active_world)) 1
  ∧ ∃ w', AzothDAO.castVote default_config alice 101 1 For
            (with_mode 1 Quadratic active_world) = Ok tt w'
          ∧ plaintext_of (engine w') (forVotes (AzothDAO.proposals w' 1)) = 5
          ∧ votingMode (AzothDAO.proposals w' 1) = Quadratic.
Proof.
  intros votes.
  destruct (votingMode_not_observed_by_castVote default_config votes
              (with_mode 1 Normal active_world) (with_mode 1 Quadratic active_world))
    as (_ & Ht & _ & _ & _ & Hadd).
  - apply with_mode_same_but_votingMode.
  - split; [apply Ht |].
    destruct (Hadd (with_mode 1 Quadratic active_world) Quadratic alice 101 1 For)
      as (w' & Hok & Hsum & _ & _ & Hmode).
    + vm_compute. reflexivity.
    + vm_compute. reflexivity.
    + vm_compute. discriminate.
    + vm_compute. discriminate.
    + vm_compute. reflexivity.
    + vm_compute. reflexivity.
    + exists w'. split; [exact Hok |]. split; [| exact Hmode].
      change (forVotes (AzothDAO.proposals w' 1))
        with (tally_of For (AzothDAO.proposals w' 1)).
      rewrite Hsum. vm_compute. reflexivity.
Defined.

(** ** Grants issued with a write *)

Lemma isAllowed_engine_fresh v e h e' x who :
  engine_fresh v e = (h, e') → isAllowed e' x who = isAllowed e x who.
Proof. unfold engine_fresh. by intros [= <- <-]. Qed.

Ltac auth_solve :=
  unfold isAuthorized, CUSDCMarketplace.balanceOf, ConfidentialGovernanceToken.balanceOf,
    ConfidentialVault.shares;
  tx_cbn; rewrite ?slot_insert_eq;
  repeat first [ apply isAllowed_engine_allow_same
               | apply isAllowed_engine_allow_mono
               | erewrite isAllowed_engine_fresh by eassumption ].

Ltac produced_solve :=
  unfold produced_between, CUSDCMarketplace.balanceOf,
    ConfidentialGovernanceToken.balanceOf, ConfidentialVault.shares;
  tx_cbn; rewrite ?slot_insert_eq; fresh_facts;
  cbn [next_handle acl engine_allow]; lia.



Lemma mint_grants cfg sender value amount w :
  ConfidentialGovernanceToken.isMember w sender = true →
  amount * mintPrice cfg < UINT256_MOD →
  amount * mintPrice cfg <= value →
  ∃ w', ConfidentialGovernanceToken.mint cfg sender value amount w = Ok tt w'
        ∧ isAuthorized w' (ConfidentialGovernanceToken.balanceOf w' sender) sender = true
        ∧ produced_between w w' (ConfidentialGovernanceToken.balanceOf w' sender).
Proof.
  intros Hmem Hm Hv. unfold ConfidentialGovernanceToken.mint. tx_unfold. tx_cbn.
  rewrite Hmem. tx_cbn. rewrite (N_ltb_true _ _ Hm). tx_cbn.
  rewrite (N_ltb_false _ _ Hv).
  repeat tx_step; (eexists; split; [reflexivity |]);
    (split; [auth_solve | produced_solve]).
Qed.





(** ** Secrecy of the tallies during the voting window *)

Lemma engine_extends_refl e : engine_extends e e.
Proof. split; [lia | auto]. Qed.

Ltac extends_solve :=
  fresh_facts; unfold engine_extends; rewrite ?slot_insert_eq;
  cbn [next_handle acl engine_allow];
  split; [lia |];
  intros ? ?; rewrite ?elem_of_union, ?elem_of_singleton;
  repeat match goal with H : acl _ = _ |- _ => rewrite H; clear H end;
  cbn [next_handle acl engine_allow];
  rewrite ?elem_of_union, ?elem_of_singleton;
  intros; destruct_or?; simplify_eq; auto; right; lia.

Lemma purchaseCUSDC_extends cfg sender value w :
  engine_extends (engine w)
    (engine (commit (CUSDCMarketplace.purchaseCUSDC cfg sender value) w)).
Proof.
  unfold CUSDCMarketplace.purchaseCUSDC. tx_run; try apply engine_extends_refl.
  all: extends_solve.
Qed.

Lemma deposit_extends cfg sender w :
  engine_extends (engine w) (engine (commit (ConfidentialVault.deposit cfg sender) w)).
Proof.
  unfold ConfidentialVault.deposit, CUSDCMarketplace.vaultTransfer.
  tx_run; try apply engine_extends_refl.
  all: extends_solve.
Qed.

Lemma mint_extends cfg sender value amount w :
  engine_extends (engine w)
    (engine (commit (ConfidentialGovernanceToken.mint cfg sender value amount) w)).
Proof.
  unfold ConfidentialGovernanceToken.mint. tx_run; try apply engine_extends_refl.
  all: extends_solve.
Qed.

(** What [propose] does to the engine and to the proposals: the new proposal
    takes the next slot, its tally handles are new, and on them only the DAO
    contract is granted. *)
Lemma propose_effect cfg w w' sender value blockNumber d amount rcpt mode pid :
  AzothDAO.propose cfg sender value blockNumber d amount rcpt mode w = Ok pid w' →
  pid = dao_proposalCount w + 1
  ∧ dao_proposalCount w' = pid
  ∧ engine_extends (engine w) (engine w')
  ∧ ∃ p, dao_proposals w' = <[pid := p]> (dao_proposals w)
         ∧ (∀ h, h ∈ tally_handles p →
                 next_handle (engine w) <= h < next_handle (engine w')
                 ∧ ∀ who, (h, who) ∈ acl (engine w') →
                          who = dao_address cfg ∨ (h, who) ∈ acl (engine w)).
Proof.
  unfold AzothDAO.propose. tx_unfold. tx_cbn.
  destruct (AzothDAO.isMember w sender); tx_cbn; [| discriminate].
  rewrite hasVotingPower_view.
  repeat tx_step; try discriminate.
  intros [= <- <-]. tx_cbn. split_and!; try reflexivity.
  - extends_solve.
  - eexists. split; [reflexivity |].
    unfold tally_handles. cbn [forVotes againstVotes abstainVotes].
    intros x Hx. fresh_facts. cbn [next_handle acl engine_allow].
    split.
    + set_unfold. lia.
    + intros who. rewrite ?elem_of_union, ?elem_of_singleton.
      repeat match goal with H : acl _ = _ |- _ => rewrite H; clear H end.
      intros; destruct_or?; simplify_eq; auto.
Qed.

Lemma revealVotes_early w sender blockNumber proposalId :
  blockNumber <= endBlock (AzothDAO.proposals w proposalId) →
  ∃ e, AzothDAO.revealVotes sender blockNumber proposalId w = Revert e
       ∧ (AzothDAO.isMember w sender = true → e = VotingNotEnded).
Proof.
  intros Hb. unfold AzothDAO.revealVotes. tx_unfold. tx_cbn.
  destruct (AzothDAO.isMember w sender); tx_cbn.
  - rewrite (N_leb_true _ _ Hb). tx_cbn. eauto.
  - eexists; split; [reflexivity | discriminate].
Qed.

Lemma revealVotes_inv w w' sender blockNumber proposalId :
  AzothDAO.revealVotes sender blockNumber proposalId w = Ok tt w' →
  endBlock (AzothDAO.proposals w proposalId) < blockNumber
  ∧ dao_proposals w' = dao_proposals w
  ∧ dao_proposalCount w' = dao_proposalCount w
  ∧ next_handle (engine w') = next_handle (engine w)
  ∧ ∀ h who, (h, who) ∈ acl (engine w') →
             (h, who) ∈ acl (engine w)
             ∨ (who = sender ∧ h ∈ tally_handles (AzothDAO.proposals w proposalId)).
Proof.
  destruct (N.leb_spec blockNumber (endBlock (AzothDAO.proposals w proposalId))) as [Hb|Hb].
  { destruct (revealVotes_early w sender _ proposalId Hb) as (e & -> & _). discriminate. }
  unfold AzothDAO.revealVotes. tx_run; try discriminate.
  intros [= <-]. tx_cbn. split_and!; try done.
  intros h who. unfold tally_handles. cbn [acl engine_allow].
  rewrite !elem_of_union, !elem_of_singleton, !elem_of_cons.
  intros Hin. destruct_or?; simplify_eq; tauto.
Qed.

Lemma tally_handles_set_tally support x p h :
  h ∈ tally_handles (set_tally support x p) → h = x ∨ h ∈ tally_handles p.
Proof.
  destruct support; unfold tally_handles; simpl; rewrite !elem_of_cons; tauto.
Qed.

Lemma tally_handles_set_tally_new support x p :
  x ∈ tally_handles (set_tally support x p).
Proof.
  destruct support; unfold tally_handles; simpl; rewrite !elem_of_cons; tauto.
Qed.

Lemma tally_handles_set_state st p :
  tally_handles (AzothDAO.set_state st p) = tally_handles p.
Proof. reflexivity. Qed.

Lemma handles_allocated_pos w : handles_allocated w → 0 < next_handle (engine w).
Proof.
  intros [Hi _]. specialize (Hi 0 (forVotes (AzothDAO.proposals w 0))).
  unfold tally_handles in Hi. set_unfold. lia.
Qed.

(** Transactions that leave the DAO's storage alone and only produce and
    grant new handles keep the seal. *)
Lemma sealed_extends cfg proposalId w w' :
  tallies_sealed cfg proposalId w →
  dao_proposals w' = dao_proposals w →
  dao_proposalCount w' = dao_proposalCount w →
  engine_extends (engine w) (engine w') →
  tallies_sealed cfg proposalId w'.
Proof.
  intros ((Hi & Hvi) & Hc & Hii & Hiii) Hp Hn (Hle & Hacl).
  assert (Hsame : ∀ k, AzothDAO.proposals w' k = AzothDAO.proposals w k)
    by (intros k; by apply proposals_same).
  split_and!.
  - split.
    + intros k h. rewrite Hsame. intros Hh. specialize (Hi k h Hh). lia.
    + intros h who Hin. destruct (Hacl h who Hin) as [Hold | Hnew]; [| lia].
      specialize (Hvi h who Hold). lia.
  - lia.
  - intros h. rewrite Hsame. intros Hh. destruct (Hii h Hh) as [Hpos Hdao].
    split; [done |]. intros who Hin.
    destruct (Hacl h who Hin) as [Hold | Hnew]; [by apply Hdao |].
    specialize (Hi proposalId h Hh). lia.
  - intros other h Hne. rewrite !Hsame. by apply Hiii.
Qed.

Lemma sealed_propose cfg proposalId w w' sender value blockNumber d amount rcpt mode pid :
  tallies_sealed cfg proposalId w →
  AzothDAO.propose cfg sender value blockNumber d amount rcpt mode w = Ok pid w' →
  tallies_sealed cfg proposalId w'
  ∧ AzothDAO.proposals w' proposalId = AzothDAO.proposals w proposalId.
Proof.
  intros ((Hi & Hvi) & Hc & Hii & Hiii) H.
  apply propose_effect in H as (-> & Hc' & (Hle & Hacl) & p & Hp & Hnew).
  assert (Hne : dao_proposalCount w + 1 ≠ proposalId) by lia.
  assert (Hkeep : AzothDAO.proposals w' proposalId = AzothDAO.proposals w proposalId)
    by (by apply (proposals_insert_ne _ _ _ _ _ Hp)).
  split; [| done]. split_and!.
  - split.
    + intros k h. destruct (decide (dao_proposalCount w + 1 = k)) as [<- | Hk].
      * rewrite (proposals_insert_eq _ _ _ _ Hp). intros Hh.
        destruct (Hnew h Hh). lia.
      * rewrite (proposals_insert_ne _ _ _ _ _ Hp Hk). intros Hh.
        specialize (Hi k h Hh). lia.
    + intros h who Hin. destruct (Hacl h who Hin) as [Hold | Hfresh]; [| lia].
      specialize (Hvi h who Hold). lia.
  - lia.
  - intros h. rewrite Hkeep. intros Hh. destruct (Hii h Hh) as [Hpos Hdao].
    split; [done |]. intros who Hin.
    destruct (Hacl h who Hin) as [Hold | Hfresh]; [by apply Hdao |].
    specialize (Hi proposalId h Hh). lia.
  - intros other h Hother. rewrite Hkeep.
    destruct (decide (dao_proposalCount w + 1 = other)) as [<- | Hk].
    + rewrite (proposals_insert_eq _ _ _ _ Hp). intros Hh Hin.
      destruct (Hnew h Hh) as [Hrange _].
      specialize (Hi proposalId h Hin). lia.
    + rewrite (proposals_insert_ne _ _ _ _ _ Hp Hk). by apply Hiii.
Qed.

Lemma sealed_castVote cfg proposalId w voter blockNumber voted support w' :
  tallies_sealed cfg proposalId w →
  AzothDAO.castVote cfg voter blockNumber voted support w = Ok tt w' →
  tallies_sealed cfg proposalId w'
  ∧ endBlock (AzothDAO.proposals w' proposalId) = endBlock (AzothDAO.proposals w proposalId).
Proof.
  intros (Halloc & Hc & Hii & Hiii) H.
  pose proof (handles_allocated_pos _ Halloc) as Hpos.
  destruct Halloc as [Hi Hvi].
  apply castVote_inv in H as (_ & _ & _ & _ & _ & ->).
  assert (Hnext : next_handle (engine (castVote_effect cfg voter voted support w))
                  = next_handle (engine w) + 1) by reflexivity.
  assert (Hacl : ∀ h who,
             (h, who) ∈ acl (engine (castVote_effect cfg voter voted support w)) →
             (h = next_handle (engine w) ∧ who = dao_address cfg)
             ∨ (h, who) ∈ acl (engine w)).
  { intros h who. unfold castVote_effect. simpl.
    rewrite elem_of_union, elem_of_singleton. intros [[= -> ->] | Hold]; auto. }
  assert (Hth : ∀ k h,
             h ∈ tally_handles (AzothDAO.proposals
                                  (castVote_effect cfg voter voted support w) k) →
             (k = voted ∧ h = next_handle (engine w))
             ∨ h ∈ tally_handles (AzothDAO.proposals w k)).
  { intros k h. destruct (decide (k = voted)) as [-> | Hk].
    - rewrite proposals_castVote_effect. intros Hh.
      apply tally_handles_set_tally in Hh as [-> | Hh]; auto.
    - rewrite proposals_castVote_effect_ne by done. auto. }
  split.
  - split_and!.
    + split.
      * intros k h Hh. rewrite Hnext.
        destruct (Hth k h Hh) as [[_ ->] | Hold]; [lia |].
        specialize (Hi k h Hold). lia.
      * intros h who Hin. rewrite Hnext.
        destruct (Hacl h who Hin) as [[-> _] | Hold]; [lia |].
        specialize (Hvi h who Hold). lia.
    + done.
    + intros h Hh. destruct (Hth _ h Hh) as [[_ ->] | Hold].
      * split; [done |]. intros who Hin.
        destruct (Hacl _ who Hin) as [[_ ->] | Hin']; [done |].
        specialize (Hvi _ who Hin'). lia.
      * destruct (Hii h Hold) as [Hp Hdao]. split; [done |]. intros who Hin.
        destruct (Hacl h who Hin) as [[_ ->] | Hin']; [done | by apply Hdao].
    + intros other h Hother Hh Hin.
      destruct (Hth _ h Hin) as [[E0 E1] | Hin'];
        destruct (Hth _ h Hh) as [[E2 E3] | Hh'].
      * congruence.
      * specialize (Hi other _ Hh'). lia.
      * specialize (Hi proposalId _ Hin'). lia.
      * by apply (Hiii other h).
  - destruct (decide (proposalId = voted)) as [-> | Hk].
    + rewrite proposals_castVote_effect. apply set_tally_keeps.
    + by rewrite proposals_castVote_effect_ne.
Qed.

Lemma sealed_revealVotes cfg proposalId w sender blockNumber revealed w' :
  tallies_sealed cfg proposalId w →
  blockNumber <= endBlock (AzothDAO.proposals w proposalId) →
  AzothDAO.revealVotes sender blockNumber revealed w = Ok tt w' →
  tallies_sealed cfg proposalId w'
  ∧ AzothDAO.proposals w' proposalId = AzothDAO.proposals w proposalId.
Proof.
  intros ((Hi & Hvi) & Hc & Hii & Hiii) Hb H.
  apply revealVotes_inv in H as (Hend & Hp & Hcount & Hnext & Hacl).
  assert (Hne : revealed ≠ proposalId) by (intros ->; lia).
  assert (Hsame : ∀ k, AzothDAO.proposals w' k = AzothDAO.proposals w k)
    by (intros k; by apply proposals_same).
  split; [| apply Hsame]. split_and!.
  - split.
    + intros k h. rewrite Hsame, Hnext. apply Hi.
    + intros h who Hin. rewrite Hnext.
      destruct (Hacl h who Hin) as [Hold | [_ Hh]]; [by apply (Hvi h who) |].
      by apply (Hi revealed).
  - lia.
  - intros h. rewrite Hsame. intros Hh. destruct (Hii h Hh) as [Hpos Hdao].
    split; [done |]. intros who Hin.
    destruct (Hacl h who Hin) as [Hold | [_ Hr]]; [by apply Hdao |].
    by destruct (Hiii revealed h Hne Hr).
  - intros other h Hother. rewrite !Hsame. by apply Hiii.
Qed.

Lemma sealed_finalizeProposal cfg proposalId w sender blockNumber finalised f a w' :
  tallies_sealed cfg proposalId w →
  AzothDAO.finalizeProposal sender blockNumber finalised f a w = Ok tt w' →
  tallies_sealed cfg proposalId w'
  ∧ endBlock (AzothDAO.proposals w' proposalId) = endBlock (AzothDAO.proposals w proposalId).
Proof.
  intros ((Hi & Hvi) & Hc & Hii & Hiii) H.
  apply finalizeProposal_inv in H as (_ & _ & _ & ->). unfold finalized.
  set (st := if a <? f then Succeeded else Defeated).
  assert (Hth : ∀ k, tally_handles (AzothDAO.proposals (with_state finalised st w) k)
                     = tally_handles (AzothDAO.proposals w k)).
  { intros k. destruct (decide (k = finalised)) as [-> | Hk].
    - by rewrite proposals_with_state.
    - by rewrite proposals_with_state_ne. }
  split.
  - split_and!.
    + split; [intros k h; rewrite Hth; apply Hi | apply Hvi].
    + done.
    + intros h. rewrite Hth. apply Hii.
    + intros other h Hother. rewrite !Hth. by apply Hiii.
  - destruct (decide (proposalId = finalised)) as [-> | Hk].
    + by rewrite proposals_with_state.
    + by rewrite proposals_with_state_ne.
Qed.

Lemma allocated_extends w w' :
  handles_allocated w →
  dao_proposals w' = dao_proposals w →
  engine_extends (engine w) (engine w') →
  handles_allocated w'.
Proof.
  intros (Hi & Hvi) Hp (Hle & Hacl). split.
  - intros k h. rewrite (proposals_same _ _ _ Hp). intros Hh.
    specialize (Hi k h Hh). lia.
  - intros h who Hin. destruct (Hacl h who Hin) as [Hold | Hnew]; [| lia].
    specialize (Hvi h who Hold). lia.
Qed.

Lemma initial_world_allocated m : handles_allocated (set_dao_isMember m initial_world).
Proof.
  split.
  - intros k h. unfold AzothDAO.proposals. simpl. rewrite lookup_empty. simpl.
    unfold tally_handles. simpl. rewrite !elem_of_cons, elem_of_nil.
    unfold ZERO_HANDLE. lia.
  - intros h who. simpl. set_solver.
Qed.

(** In a world whose handles are all produced ones, a proposal starts its
    life sealed. *)
Lemma propose_seals cfg w w' sender value blockNumber d amount rcpt mode pid :
  handles_allocated w →
  AzothDAO.propose cfg sender value blockNumber d amount rcpt mode w = Ok pid w' →
  tallies_sealed cfg pid w'.
Proof.
  intros Halloc H.
  pose proof (handles_allocated_pos _ Halloc) as Hpos.
  destruct Halloc as [Hi Hvi].
  apply propose_effect in H as (-> & Hc' & (Hle & Hacl) & p & Hp & Hnew).
  split_and!.
  - split.
    + intros k h. destruct (decide (dao_proposalCount w + 1 = k)) as [<- | Hk].
      * rewrite (proposals_insert_eq _ _ _ _ Hp). intros Hh.
        destruct (Hnew h Hh). lia.
      * rewrite (proposals_insert_ne _ _ _ _ _ Hp Hk). intros Hh.
        specialize (Hi k h Hh). lia.
    + intros h who Hin. destruct (Hacl h who Hin) as [Hold | Hfresh]; [| lia].
      specialize (Hvi h who Hold). lia.
  - lia.
  - intros h. rewrite (proposals_insert_eq _ _ _ _ Hp). intros Hh.
    destruct (Hnew h Hh) as [Hrange Hgrant]. split; [lia |].
    intros who Hin. destruct (Hgrant who Hin) as [-> | Hold]; [done |].
    specialize (Hvi h who Hold). lia.
  - intros other h Hother.
    rewrite (proposals_insert_eq _ _ _ _ Hp).
    rewrite (proposals_insert_ne _ _ _ _ _ Hp) by done.
    intros Hh Hin. destruct (Hnew h Hin) as [Hrange _].
    specialize (Hi other h Hh). lia.
Qed.

Lemma sealed_with_state cfg proposalId w k st :
  tallies_sealed cfg proposalId w → tallies_sealed cfg proposalId (with_state k st w).
Proof.
  intros ((Hi & Hvi) & Hc & Hii & Hiii).
  assert (Hth : ∀ j, tally_handles (AzothDAO.proposals (with_state k st w) j)
                     = tally_handles (AzothDAO.proposals w j)).
  { intros j. destruct (decide (j = k)) as [-> | Hk].
    - by rewrite proposals_with_state.
    - by rewrite proposals_with_state_ne. }
  split_and!.
  - split; [intros j h; rewrite Hth; apply Hi | apply Hvi].
  - done.
  - intros h. rewrite Hth. apply Hii.
  - intros other h Hother. rewrite !Hth. by apply Hiii.
Qed.

Lemma sealed_private cfg proposalId w :
  tallies_sealed cfg proposalId w → tallies_private cfg w proposalId.
Proof.
  intros (_ & _ & Hii & _) h who Hh Hauth.
  apply (Hii h Hh). unfold isAuthorized, isAllowed in Hauth.
  by apply bool_decide_eq_true in Hauth.
Qed.

(** A transaction mined no later than the proposal's [endBlock] keeps the
    seal and the [endBlock]. *)
Lemma sealed_perform cfg proposalId blockNumber c w :
  tallies_sealed cfg proposalId w →
  blockNumber <= endBlock (AzothDAO.proposals w proposalId) →
  tallies_sealed cfg proposalId (perform cfg blockNumber c w)
  ∧ endBlock (AzothDAO.proposals (perform cfg blockNumber c w) proposalId)
    = endBlock (AzothDAO.proposals w proposalId).
Proof.
  intros Hs Hb. destruct c; cbn [perform].
  - destruct (purchaseCUSDC_frame cfg sender value w) as (Hp & _).
    split; [| by rewrite (proposals_same _ _ _ Hp)].
    apply (sealed_extends cfg proposalId w); auto using purchaseCUSDC_extends.
    apply purchaseCUSDC_frame.
  - destruct (deposit_frame cfg sender w) as (Hp & _).
    split; [| by rewrite (proposals_same _ _ _ Hp)].
    apply (sealed_extends cfg proposalId w); auto using deposit_extends.
    apply deposit_frame.
  - destruct (mint_frame cfg sender value amount w) as (Hp & _).
    split; [| by rewrite (proposals_same _ _ _ Hp)].
    apply (sealed_extends cfg proposalId w); auto using mint_extends.
    apply mint_frame.
  - unfold commit.
    destruct (AzothDAO.propose _ _ _ _ _ _ _ _ w) as [pid w'|e] eqn:H; [| done].
    destruct (sealed_propose _ _ _ _ _ _ _ _ _ _ _ _ Hs H) as [Hs' Hk].
    split; [done | by rewrite Hk].
  - unfold commit.
    destruct (AzothDAO.castVote _ _ _ _ _ w) as [[] w'|e] eqn:H; [| done].
    by apply (sealed_castVote _ _ _ _ _ _ _ _ Hs H).
  - unfold commit.
    destruct (AzothDAO.revealVotes _ _ _ w) as [[] w'|e] eqn:H; [| done].
    destruct (sealed_revealVotes _ _ _ _ _ _ _ Hs Hb H) as [Hs' Hk].
    split; [done | by rewrite Hk].
  - unfold commit.
    destruct (AzothDAO.finalizeProposal _ _ _ _ _ w) as [[] w'|e] eqn:H; [| done].
    by apply (sealed_finalizeProposal _ _ _ _ _ _ _ _ _ Hs H).
Qed.

Lemma sealed_run cfg proposalId history w :
  tallies_sealed cfg proposalId w →
  Forall (λ tx, tx.1 <= endBlock (AzothDAO.proposals w proposalId)) history →
  tallies_sealed cfg proposalId (run cfg history w)
  ∧ endBlock (AzothDAO.proposals (run cfg history w) proposalId)
    = endBlock (AzothDAO.proposals w proposalId).
Proof.
  revert w. induction history as [| [blockNumber c] history IH]; intros w Hs Hall.
  - done.
  - apply Forall_cons in Hall as [Hb Hall]. simpl in Hb.
    destruct (sealed_perform cfg proposalId blockNumber c w Hs Hb) as [Hs' He].
    simpl. destruct (IH (perform cfg blockNumber c w) Hs') as [Hs'' He''].
    + by rewrite He.
    + split; [done | congruence].
Qed.

(** The only grant of a vote that goes through is to the DAO contract, on
    the handle that is now the chosen tally. *)
Lemma castVote_grants_contract_only cfg w w' voter blockNumber proposalId support h who :
  AzothDAO.castVote cfg voter blockNumber proposalId support w = Ok tt w' →
  isAuthorized w' h who = true →
  isAuthorized w h who = true
  ∨ (who = dao_address cfg ∧ h = tally_of support (AzothDAO.proposals w' proposalId)).
Proof.
  intros H. apply castVote_inv in H as (_ & _ & _ & _ & _ & ->).
  rewrite proposals_castVote_effect.
  unfold isAuthorized, isAllowed, castVote_effect. simpl.
  rewrite !bool_decide_eq_true, elem_of_union, elem_of_singleton.
  intros [[= -> ->] | Hold]; [right | by left].
  split; [done |]. destruct support; reflexivity.
Qed.

(** C9: take a proposal whose tally handles are its own and granted to the
    DAO contract only, as [propose] creates it. After any history of
    transactions of the four contracts, each mined no later than the
    proposal's [endBlock], the three tally handles are still authorised for
    the DAO contract alone. Along the way a vote grants on the new tally
    handle to the contract and to nobody else, and [revealVotes] on the
    proposal reverts for every caller, with [VotingNotEnded] for a member,
    and changes nothing. *)
Theorem tallies_sealed_during_voting cfg proposalId w history :
  tallies_sealed cfg proposalId w →
  Forall (λ tx, tx.1 <= endBlock (AzothDAO.proposals w proposalId)) history →
  let w' := run cfg history w in
  tallies_private cfg w' proposalId
  ∧ tallies_sealed cfg proposalId w'
  ∧ (∀ voter blockNumber support w'' h who,
       AzothDAO.castVote cfg voter blockNumber proposalId support w' = Ok tt w'' →
       isAuthorized w'' h who = true →
       isAuthorized w' h who = true
       ∨ (who = dao_address cfg
          ∧ h = tally_of support (AzothDAO.proposals w'' proposalId)))
  ∧ (∀ sender blockNumber,
       blockNumber <= endBlock (AzothDAO.proposals w proposalId) →
       (∃ e, AzothDAO.revealVotes sender blockNumber proposalId w' = Revert e
             ∧ (AzothDAO.isMember w' sender = true → e = VotingNotEnded))
       ∧ commit (AzothDAO.revealVotes sender blockNumber proposalId) w' = w').
Proof.
  intros Hs Hall w'. destruct (sealed_run cfg proposalId history w Hs Hall) as [Hs' He].
  fold w' in Hs', He. split_and!.
  - by apply sealed_private.
  - done.
  - intros voter blockNumber support w'' h who. apply castVote_grants_contract_only.
  - intros sender blockNumber Hb. rewrite <- He in Hb.
    destruct (revealVotes_early w' sender blockNumber proposalId Hb) as (e & Hr & Hm).
    split; [eauto |]. unfold commit. by rewrite Hr.
Qed.

Lemma funded_world_allocated : handles_allocated funded_world.
Proof.
  unfold funded_world.
  eapply allocated_extends; [| apply mint_frame | apply mint_extends].
  eapply allocated_extends; [| apply mint_frame | apply mint_extends].
  apply initial_world_allocated.
Qed.

Lemma active_world_sealed : tallies_sealed default_config 1 active_world.
Proof.
  apply sealed_with_state.
  apply (propose_seals default_config funded_world proposed_world
           alice 0 100 0 1000 carol Normal 1).
  - apply funded_world_allocated.
  - vm_compute. reflexivity.
Qed.

Lemma tallies_sealed_during_voting_witness :
  tallies_private default_config
    (run default_config
       [(101, CastVote alice 1 For); (102, CastVote bob 1 Against);
        (103, RevealVotes alice 1); (104, Mint bob 1000000000000000 1)]
       active_world) 1.
Proof.
  apply (tallies_sealed_during_voting default_config 1 active_world).
  - apply active_world_sealed.
  - repeat apply Forall_cons_2; try apply Forall_nil_2; vm_compute; discriminate.
Defined.

(** Every transaction keeps the handles produced ones. *)
Lemma allocated_perform cfg blockNumber c w :
  handles_allocated w → handles_allocated (perform cfg blockNumber c w).
Proof.
  intros Halloc. destruct c; cbn [perform].
  - eapply allocated_extends;
      [done | apply purchaseCUSDC_frame | apply purchaseCUSDC_extends].
  - eapply allocated_extends; [done | apply deposit_frame | apply deposit_extends].
  - eapply allocated_extends; [done | apply mint_frame | apply mint_extends].
  - unfold commit.
    destruct (AzothDAO.propose _ _ _ _ _ _ _ _ w) as [pid w'|e] eqn:H; [| done].
    by destruct (propose_seals _ _ _ _ _ _ _ _ _ _ _ Halloc H).
  - unfold commit.
    destruct (AzothDAO.castVote _ _ _ _ _ w) as [[] w'|e] eqn:H; [| done].
    pose proof (handles_allocated_pos _ Halloc) as Hpos.
    destruct Halloc as [Hi Hvi].
    apply castVote_inv in H as (_ & _ & _ & _ & _ & ->). split.
    + intros k h. destruct (decide (k = proposalId)) as [-> | Hk].
      * rewrite proposals_castVote_effect. intros Hh.
        apply tally_handles_set_tally in Hh as [-> | Hh]; simpl; [lia |].
        specialize (Hi _ _ Hh). lia.
      * rewrite proposals_castVote_effect_ne by done. intros Hh.
        specialize (Hi _ _ Hh). simpl. lia.
    + intros h who. unfold castVote_effect. simpl.
      rewrite elem_of_union, elem_of_singleton. intros [[= -> ->] | Hold]; [lia |].
      specialize (Hvi _ _ Hold). lia.
  - unfold commit.
    destruct (AzothDAO.revealVotes _ _ _ w) as [[] w'|e] eqn:H; [| done].
    destruct Halloc as [Hi Hvi].
    apply revealVotes_inv in H as (_ & Hp & _ & Hnext & Hacl). split.
    + intros k h. rewrite (proposals_same _ _ _ Hp), Hnext. apply Hi.
    + intros h who Hin. rewrite Hnext.
      destruct (Hacl h who Hin) as [Hold | [_ Hh]]; [by apply (Hvi h who) |].
      by apply (Hi proposalId).
  - unfold commit.
    destruct (AzothDAO.finalizeProposal _ _ _ _ _ w) as [[] w'|e] eqn:H; [| done].
    destruct Halloc as [Hi Hvi].
    apply finalizeProposal_inv in H as (_ & _ & _ & ->). unfold finalized. split.
    + intros k h. destruct (decide (k = proposalId)) as [-> | Hk].
      * rewrite proposals_with_state, tally_handles_set_state. apply Hi.
      * rewrite proposals_with_state_ne by done. apply Hi.
    + apply Hvi.
Qed.

Lemma allocated_run cfg history w :
  handles_allocated w → handles_allocated (run cfg history w).
Proof.
  revert w. induction history as [| [blockNumber c] history IH]; intros w Hw; [done |].
  simpl. apply IH. by apply allocated_perform.
Qed.

(** From deployment on: whatever happened before a proposal was created, as
    long as every later transaction is mined no later than its [endBlock],
    nobody but the DAO contract is authorised on its tally handles. *)
Lemma tallies_private_from_creation cfg members before after
    sender value blockNumber d amount rcpt mode pid w :
  AzothDAO.propose cfg sender value blockNumber d amount rcpt mode
    (run cfg before (set_dao_isMember members initial_world)) = Ok pid w →
  Forall (λ tx, tx.1 <= endBlock (AzothDAO.proposals w pid)) after →
  tallies_private cfg (run cfg after w) pid.
Proof.
  intros H Hall. apply sealed_private.
  apply sealed_run; [| done].
  eapply propose_seals; [| exact H].
  apply allocated_run, initial_world_allocated.
Qed.

(** ** Vault deposits *)

Lemma engine_fresh_plain v e h e' :
  engine_fresh v e = (h, e') →
  h = next_handle e
  ∧ next_handle e' = next_handle e + 1
  ∧ ∀ x, plaintext_of e' x = if decide (x = h) then v else plaintext_of e x.
Proof.
  unfold engine_fresh. intros [= <- <-]. split_and!; try done.
  intros x. unfold plaintext_of. simpl. rewrite lookup_insert.
  destruct (decide (next_handle e = x)), (decide (x = next_handle e));
    simpl; congruence.
Qed.

Lemma plaintext_of_engine_allow h who e x :
  plaintext_of (engine_allow h who e) x = plaintext_of e x.
Proof. reflexivity. Qed.

Ltac plain_facts :=
  repeat match goal with
         | H : engine_fresh _ _ = (_, _) |- _ =>
             apply engine_fresh_plain in H;
             let Hh := fresh "Hh" in
             let Hn := fresh "Hn" in
             let Hp := fresh "Hp" in
             destruct H as (Hh & Hn & Hp);
             cbn [next_handle engine_allow] in Hh, Hn
         end.

Ltac plain_through_allow :=
  repeat match goal with
         | |- context [plaintext_of (engine_allow ?a ?b ?e) ?x] =>
             change (plaintext_of (engine_allow a b e) x) with (plaintext_of e x)
         end.

(** Read the plaintext of [x] one allocation back. *)
Ltac plain_at x :=
  plain_through_allow;
  match goal with
  | Hp : ∀ y, plaintext_of ?e' y = _ |- context [plaintext_of ?e' x] =>
      rewrite (Hp x);
      first [ rewrite decide_True by reflexivity
            | rewrite decide_False by lia ]
  end.

(** The documented vault deposit issues a handle of plaintext zero, whoever
    deposits and whatever the vault holds: the assets it multiplies are the
    zero it handed to [vaultTransfer]. *)
Lemma deposit_issues_zero cfg sender w :
  returned_plaintext (ConfidentialVault.deposit cfg sender) w = Some 0.
Proof.
  unfold returned_plaintext, ConfidentialVault.deposit, CUSDCMarketplace.vaultTransfer.
  tx_run.
  all: plain_facts; f_equal.
  all: repeat plain_at h4; repeat plain_at h3; repeat plain_at h2; repeat plain_at h.
  all: reflexivity.
Qed.

Lemma wrap256_small x : x < UINT256_MOD → wrap256 x = x.
Proof. intros H. unfold wrap256. by apply N.mod_small. Qed.

Lemma wrap256_add_mod x : x < UINT256_MOD → wrap256 (x + UINT256_MOD - 0) = x.
Proof.
  intros H. unfold wrap256. rewrite N.sub_0_r.
  rewrite <- (N.mul_1_l UINT256_MOD) at 1.
  rewrite N.Div0.mod_add. by apply N.mod_small.
Qed.

(** It leaves the depositor's cUSDC balance at its value. *)
Lemma deposit_keeps_balance cfg sender w :
  CUSDCMarketplace.balanceOf w sender < next_handle (engine w) →
  cusdc_plaintext w sender < UINT256_MOD →
  cusdc_plaintext (commit (ConfidentialVault.deposit cfg sender) w) sender
  = cusdc_plaintext w sender.
Proof.
  intros Hb Hs.
  unfold cusdc_plaintext, ConfidentialVault.deposit, CUSDCMarketplace.vaultTransfer in *.
  tx_run.
  all: unfold CUSDCMarketplace.balanceOf in *; tx_cbn; rewrite slot_insert_eq.
  all: plain_facts.
  all: repeat plain_at h0; cbn [cusdc_balances set_engine]; repeat plain_at h.
  all: plain_at (slot (cusdc_balances w) sender).
  all: by apply wrap256_add_mod.
Qed.

(** The deposit of the project summary computes the formula of the
    specification in wrap-around arithmetic. *)
Lemma summary_deposit_formula cfg sender amount w :
  vault_totalShares w < next_handle (engine w) →
  vault_totalAssets w < next_handle (engine w) →
  returned_plaintext (SummaryVault.deposit cfg sender amount) w
  = Some (wrap256 (wrap256 amount
                   * wrap256 (plaintext_of (engine w) (vault_totalShares w)
                              + wrap256 (VIRTUAL_SHARES cfg)))
          / wrap256 (plaintext_of (engine w) (vault_totalAssets w)
                     + wrap256 (VIRTUAL_ASSETS cfg))).
Proof.
  intros Hs Ha.
  unfold returned_plaintext, SummaryVault.deposit.
  tx_run. rewrite slot_insert_eq. plain_facts. f_equal.
  repeat plain_at h5. repeat plain_at h4. repeat plain_at h3. repeat plain_at h2.
  repeat plain_at h1. repeat plain_at h0. repeat plain_at h.
  repeat plain_at (vault_totalShares w). repeat plain_at (vault_totalAssets w).
  reflexivity.
Qed.

(** Without overflow that is the formula itself. *)
Lemma summary_deposit_spec cfg sender amount w :
  vault_totalShares w < next_handle (engine w) →
  vault_totalAssets w < next_handle (engine w) →
  amount < UINT256_MOD →
  plaintext_of (engine w) (vault_totalShares w) + VIRTUAL_SHARES cfg < UINT256_MOD →
  amount * (plaintext_of (engine w) (vault_totalShares w) + VIRTUAL_SHARES cfg)
  < UINT256_MOD →
  plaintext_of (engine w) (vault_totalAssets w) + VIRTUAL_ASSETS cfg < UINT256_MOD →
  returned_plaintext (SummaryVault.deposit cfg sender amount) w
  = Some (spec_sharesIssued cfg amount
            (plaintext_of (engine w) (vault_totalShares w))
            (plaintext_of (engine w) (vault_totalAssets w))).
Proof.
  intros Hs Ha Hamount Hshares Hmul Hassets.
  rewrite summary_deposit_formula by done.
  unfold spec_sharesIssued.
  rewrite (wrap256_small (VIRTUAL_SHARES cfg)) by lia.
  rewrite (wrap256_small (VIRTUAL_ASSETS cfg)) by lia.
  rewrite (wrap256_small amount) by done.
  rewrite (wrap256_small (_ + VIRTUAL_SHARES cfg)) by done.
  rewrite (wrap256_small (_ + VIRTUAL_ASSETS cfg)) by done.
  by rewrite wrap256_small.
Qed.

(** In an empty vault the project summary's deposit issues the amount times
    the ratio of the virtual offsets, 1000 shares per unit. *)
Lemma summary_deposit_empty_vault sender amount w :
  vault_totalShares w < next_handle (engine w) →
  vault_totalAssets w < next_handle (engine w) →
  plaintext_of (engine w) (vault_totalShares w) = 0 →
  plaintext_of (engine w) (vault_totalAssets w) = 0 →
  amount * 1000 < UINT256_MOD →
  returned_plaintext (SummaryVault.deposit default_config sender amount) w
  = Some (amount * 1000).
Proof.
  intros Hs Ha Hts Hta Hmul.
  rewrite summary_deposit_spec; rewrite ?Hts, ?Hta; try done.
  - unfold spec_sharesIssued. simpl. by rewrite N.div_1_r.
  - lia.
Qed.

(** C6 (the code departs from the claim): Alice holds 2000 cUSDC. The
    documented [ConfidentialVault.deposit] hands [vaultTransfer] a handle of
    zero and gets that handle back: her balance stays 2000, the vault's
    assets do not grow, and the shares issued are
    [(0 * DECIMAL_OFFSET * totalShares) / totalAssets], that is 0, both for
    the empty vault (where the divisor is zero) and for a vault of 10 assets
    and 10000 shares; indeed every deposit issues 0 shares. The formula of
    the claim gives 2000000 in both cases, and so does the deposit of the
    project summary in the empty vault. *)
Theorem deposit_pulls_nothing_and_skips_offsets :
  cusdc_plaintext buyer_world alice = 2000
  ∧ returned_plaintext (ConfidentialVault.deposit default_config alice) buyer_world
    = Some 0
  ∧ cusdc_plaintext (commit (ConfidentialVault.deposit default_config alice) buyer_world)
      alice = 2000
  ∧ plaintext_of
      (engine (commit (ConfidentialVault.deposit default_config alice) buyer_world))
      (vault_totalAssets
         (commit (ConfidentialVault.deposit default_config alice) buyer_world)) = 0
  ∧ spec_sharesIssued default_config 2000 0 0 = 2000000
  ∧ returned_plaintext (ConfidentialVault.deposit default_config alice) seeded_vault_world
    = Some 0
  ∧ cusdc_plaintext
      (commit (ConfidentialVault.deposit default_config alice) seeded_vault_world)
      alice = 2000
  ∧ spec_sharesIssued default_config 2000 10000 10 = 2000000
  ∧ returned_plaintext (SummaryVault.deposit default_config alice 2000) buyer_world
    = Some 2000000
  ∧ ∀ cfg sender w,
      returned_plaintext (ConfidentialVault.deposit cfg sender) w = Some 0.
Proof.
  repeat (split; [vm_compute; reflexivity |]).
  apply deposit_issues_zero.
Qed.

(** ** Session vouchers *)

Lemma decryptWithVoucher_expired zap chainId now nonces w ephemeral v handles :
  Session.expiresAt (Session.voucher v) <= now →
  ∃ e, Session.decryptWithVoucher zap chainId now nonces w ephemeral v handles = inl e
       ∧ (Session.getConfig zap chainId = inr tt →
          Session.signature_valid v = true →
          Session.grantee (Session.voucher v) = ephemeral →
          e = Session.VoucherExpired).
Proof.
  intros Hexp. unfold Session.decryptWithVoucher, Session.attestedDecryptWithVoucher.
  destruct (Session.getConfig zap chainId) as [e | []]; [eexists; split; [done |] |].
  { discriminate. }
  destruct (Session.signature_valid v); simpl.
  2:{ eexists; split; [done | discriminate]. }
  destruct (N.eqb_spec (Session.grantee (Session.voucher v)) ephemeral); simpl.
  2:{ eexists; split; [done | intros; congruence]. }
  rewrite (N_ltb_false now) by done. simpl. eauto.
Qed.

(** C7: a voucher whose [expiresAt] is not in the future makes
    [decryptWithVoucher] fail with no result at all, whatever the nonce
    registry and the grants; when the client is configured and the voucher is
    properly signed and presented by its grantee, so that only the expiry
    check can fail first, the error is [VoucherExpired], also if the nonce
    matches and every handle is authorised. On the client side an expired
    stored session is never loaded: it is dropped from storage. *)
Theorem expired_voucher_refused zap chainId now nonces w ephemeral v handles :
  Session.expiresAt (Session.voucher v) <= now →
  (∃ e, Session.decryptWithVoucher zap chainId now nonces w ephemeral v handles = inl e)
  ∧ (Session.getConfig zap chainId = inr tt →
     Session.signature_valid v = true →
     Session.grantee (Session.voucher v) = ephemeral →
     Session.decryptWithVoucher zap chainId now nonces w ephemeral v handles
     = inl Session.VoucherExpired)
  ∧ (∀ walletAddress localStorage stored,
       localStorage !! walletAddress = Some stored →
       Session.stored_expiresAt stored <= now →
       Session.loadSessionFromStorage now walletAddress localStorage
       = (None, delete walletAddress localStorage)).
Proof.
  intros Hexp.
  destruct (decryptWithVoucher_expired zap chainId now nonces w ephemeral v handles Hexp)
    as (e & He & Hk).
  split_and!.
  - eauto.
  - intros Hc Hs Hg. rewrite He. f_equal. auto.
  - intros walletAddress localStorage stored Hl Hs.
    unfold Session.loadSessionFromStorage. rewrite Hl.
    by rewrite N_leb_true.
Qed.

Lemma expired_voucher_refused_witness :
  Session.decryptWithVoucher false 84532 3660 ∅ funded_world 77 alice_voucher
    [ConfidentialGovernanceToken.balanceOf funded_world alice]
  = inl Session.VoucherExpired
  ∧ Session.decryptWithVoucher false 84532 3599 ∅ funded_world 77 alice_voucher
      [ConfidentialGovernanceToken.balanceOf funded_world alice]
    = inr [5].
Proof.
  split.
  - apply (expired_voucher_refused false 84532 3660 ∅ funded_world 77 alice_voucher).
    + vm_compute. discriminate.
    + reflexivity.
    + vm_compute. reflexivity.
    + reflexivity.
  - vm_compute. reflexivity.
Defined.

Lemma nonce_of_update g g' nonces :
  Session.nonce_of (Session.updateActiveVouchersSessionNonce g nonces) g'
  = if decide (g = g') then Session.nonce_of nonces g' + 1 else Session.nonce_of nonces g'.
Proof.
  unfold Session.nonce_of, Session.updateActiveVouchersSessionNonce.
  rewrite lookup_insert. destruct (decide (g = g')) as [-> |]; reflexivity.
Qed.

(** Revocation nonces never go down. *)
Lemma revocations_mono granters nonces g :
  Session.nonce_of nonces g <= Session.nonce_of (revocations granters nonces) g.
Proof.
  revert nonces. induction granters as [| g' granters IH]; intros nonces; simpl; [lia |].
  etransitivity; [| apply IH]. rewrite nonce_of_update.
  destruct (decide (g' = g)); lia.
Qed.

(** C8: [revokeAllVouchers] raises the granter's nonce by one, in one step,
    and touches no other granter. From then on, whoever else revokes
    afterwards, a voucher the granter had issued before (its nonce is at most
    the nonce before the revocation) never decrypts again; presented by its
    grantee with its valid signature before its [expiresAt], it fails with
    [VoucherRevoked]. *)
Theorem revoked_voucher_refused zap chainId g nonces nonces1 later v
    zap' chainId' now w ephemeral handles :
  Session.granter (Session.voucher v) = g →
  Session.nonce (Session.voucher v) <= Session.nonce_of nonces g →
  Session.revokeAllVouchers zap chainId g nonces = inr nonces1 →
  let use := Session.decryptWithVoucher zap' chainId' now (revocations later nonces1)
               w ephemeral v handles in
  Session.nonce_of nonces1 g = Session.nonce_of nonces g + 1
  ∧ (∀ g', g' ≠ g → Session.nonce_of nonces1 g' = Session.nonce_of nonces g')
  ∧ (∃ e, use = inl e)
  ∧ (Session.getConfig zap' chainId' = inr tt →
     Session.signature_valid v = true →
     Session.grantee (Session.voucher v) = ephemeral →
     now < Session.expiresAt (Session.voucher v) →
     use = inl Session.VoucherRevoked).
Proof.
  intros Hg Hn Hr use.
  unfold Session.revokeAllVouchers in Hr.
  destruct (Session.getConfig zap chainId) as [| []]; [discriminate |].
  injection Hr as <-.
  assert (Hstale : (Session.nonce_of
                      (revocations later (Session.updateActiveVouchersSessionNonce g nonces))
                      (Session.granter (Session.voucher v))
                    =? Session.nonce (Session.voucher v)) = false).
  { apply N.eqb_neq. rewrite Hg.
    pose proof (revocations_mono later
                  (Session.updateActiveVouchersSessionNonce g nonces) g) as Hm.
    rewrite nonce_of_update in Hm. rewrite decide_True in Hm by done. lia. }
  split_and!.
  - rewrite nonce_of_update. by rewrite decide_True.
  - intros g' Hne. rewrite nonce_of_update. by rewrite decide_False.
  - subst use. unfold Session.decryptWithVoucher, Session.attestedDecryptWithVoucher.
    destruct (Session.getConfig zap' chainId') as [| []]; [eauto |].
    destruct (negb (_ && _)); [eauto |].
    destruct (negb (now <? _)); [eauto |].
    rewrite Hstale. simpl. eauto.
  - intros Hc Hs He Hnow. subst use.
    unfold Session.decryptWithVoucher, Session.attestedDecryptWithVoucher.
    rewrite Hc, Hs, He, N.eqb_refl, (N_ltb_true _ _ Hnow), Hstale. reflexivity.
Qed.

Lemma revoked_voucher_refused_witness :
  Session.decryptWithVoucher false 84532 1800
    (revocations [bob] (Session.updateActiveVouchersSessionNonce alice ∅))
    funded_world 77 alice_voucher
    [ConfidentialGovernanceToken.balanceOf funded_world alice]
  = inl Session.VoucherRevoked.
Proof.
  apply (revoked_voucher_refused false 84532 alice ∅
           (Session.updateActiveVouchersSessionNonce alice ∅) [bob] alice_voucher
           false 84532 1800 funded_world 77).
  - reflexivity.
  - vm_compute. discriminate.
  - reflexivity.
  - reflexivity.
  - vm_compute. reflexivity.
  - reflexivity.
  - vm_compute. reflexivity.
Defined.

(** * Further properties of the code *)

(** ** Reading plaintexts through later allocations *)

(** Reading a slot other than the one written. *)
Lemma slot_insert_ne (m : gmap N N) k k' v : k ≠ k' → slot (<[k := v]> m) k' = slot m k'.
Proof. intros H. unfold slot. by rewrite lookup_insert_ne. Qed.

(** Read a plaintext one allocation back, whichever handle is asked for. *)
Ltac plain_step :=
  plain_through_allow;
  match goal with
  | Hp : ∀ y, plaintext_of ?e' y = _ |- context [plaintext_of ?e' ?x] =>
      rewrite (Hp x);
      first [ rewrite decide_True by reflexivity
            | rewrite decide_False by lia ]
  end.

Ltac plain_eval := repeat plain_step.

(** No transaction gives a handle back. *)
Lemma perform_next_handle cfg blockNumber c w :
  next_handle (engine w) <= next_handle (engine (perform cfg blockNumber c w)).
Proof.
  destruct c as [sender value | sender | sender value amount
                  | sender value d encryptedAmount rcpt mode | sender proposalId0 choice
                  | sender proposalId0 | sender proposalId0 forVotesPlain againstVotesPlain];
    cbn [perform].
  - apply purchaseCUSDC_extends.
  - apply deposit_extends.
  - apply mint_extends.
  - unfold commit.
    destruct (AzothDAO.propose cfg sender value blockNumber d encryptedAmount
                rcpt mode w) as [pid w' |] eqn:H; [| done].
    apply propose_effect in H as (_ & _ & [H _] & _). exact H.
  - unfold commit. rewrite castVote_spec.
    destruct (castVote_guard w sender blockNumber proposalId0); [done |].
    unfold castVote_effect. tx_cbn. cbn [next_handle]. lia.
  - unfold commit.
    destruct (AzothDAO.revealVotes sender blockNumber proposalId0 w) as [[] w' |] eqn:H;
      [| done].
    apply revealVotes_inv in H as (_ & _ & _ & -> & _). done.
  - unfold commit.
    destruct (AzothDAO.finalizeProposal sender blockNumber proposalId0 forVotesPlain
                againstVotesPlain w) as [[] w' |] eqn:H; [| done].
    apply finalizeProposal_inv in H as (_ & _ & _ & ->). done.
Qed.

Ltac stable_solve := tx_run; plain_facts; plain_eval; reflexivity.

(** No transaction changes the plaintext behind a handle that exists: each
    operation of the engine writes at a handle of its own. *)
Lemma perform_plain_stable cfg blockNumber c w h :
  h < next_handle (engine w) →
  plaintext_of (engine (perform cfg blockNumber c w)) h = plaintext_of (engine w) h.
Proof.
  intros Hh. destruct c as [sender value | sender | sender value amount
                  | sender value d encryptedAmount rcpt mode | sender proposalId0 choice
                  | sender proposalId0 | sender proposalId0 forVotesPlain againstVotesPlain];
    cbn [perform].
  - unfold CUSDCMarketplace.purchaseCUSDC. stable_solve.
  - unfold ConfidentialVault.deposit, CUSDCMarketplace.vaultTransfer. stable_solve.
  - unfold ConfidentialGovernanceToken.mint. stable_solve.
  - unfold commit.
    destruct (AzothDAO.propose cfg sender value blockNumber d encryptedAmount
                rcpt mode w) as [pid w' |] eqn:H; [| done].
    revert H. unfold AzothDAO.propose. tx_unfold. tx_cbn.
    destruct (AzothDAO.isMember w sender); tx_cbn; [| discriminate].
    rewrite hasVotingPower_view.
    repeat tx_step; try discriminate.
    intros [= <- <-]. tx_cbn. plain_facts. plain_eval. reflexivity.
  - unfold commit. rewrite castVote_spec.
    destruct (castVote_guard w sender blockNumber proposalId0); [done |].
    unfold castVote_effect, plaintext_of. tx_cbn. cbn [plaintexts].
    rewrite lookup_insert_ne by lia. done.
  - unfold AzothDAO.revealVotes. stable_solve.
  - unfold AzothDAO.finalizeProposal. stable_solve.
Qed.

Lemma run_plain_stable cfg history w h :
  h < next_handle (engine w) →
  plaintext_of (engine (run cfg history w)) h = plaintext_of (engine w) h.
Proof.
  revert w. induction history as [| [blockNumber c] history IH]; intros w Hh; [done |].
  cbn [run fold_left]. fold (run cfg history (perform cfg blockNumber c w)).
  rewrite IH.
  - by apply perform_plain_stable.
  - pose proof (perform_next_handle cfg blockNumber c w). lia.
Qed.

(** ** The cUSDC marketplace *)

(** X1: a purchase that passes its guards credits the buyer with
    [msg.value * EXCHANGE_RATE / 1e18] cUSDC, rounded down (nothing at all
    for a payment below [1e18 / EXCHANGE_RATE] wei, which is accepted all the
    same), adds the same amount to [totalMinted], both modulo 2^256, and
    leaves every other account as it was. A first purchase stores the handle
    of the amount itself. *)
Theorem purchaseCUSDC_credits cfg sender value w :
  value ≠ 0 → value * EXCHANGE_RATE cfg < UINT256_MOD →
  CUSDCMarketplace.balanceOf w sender < next_handle (engine w) →
  cusdc_totalMinted w < next_handle (engine w) →
  let bought := value * EXCHANGE_RATE cfg / 10 ^ 18 in
  ∃ w', CUSDCMarketplace.purchaseCUSDC cfg sender value w = Ok tt w'
    ∧ cusdc_plaintext w' sender
      = (if CUSDCMarketplace.balanceOf w sender =? ZERO_HANDLE then bought
         else wrap256 (cusdc_plaintext w sender + bought))
    ∧ plaintext_of (engine w') (cusdc_totalMinted w')
      = wrap256 (plaintext_of (engine w) (cusdc_totalMinted w) + bought)
    ∧ ∀ other, other ≠ sender →
        CUSDCMarketplace.balanceOf w' other = CUSDCMarketplace.balanceOf w other
        ∧ (CUSDCMarketplace.balanceOf w other < next_handle (engine w) →
           cusdc_plaintext w' other = cusdc_plaintext w other).
Proof.
  intros Hv Hm Hb Ht bought.
  assert (Hsmall : wrap256 bought = bought).
  { apply wrap256_small. subst bought.
    eapply N.le_lt_trans; [| exact Hm]. apply N.Div0.div_le_upper_bound.
    assert (1 <= 10 ^ 18) by (vm_compute; discriminate). nia. }
  unfold CUSDCMarketplace.purchaseCUSDC. tx_unfold. tx_cbn.
  rewrite (proj2 (N.eqb_neq value 0) Hv), (N_ltb_true _ _ Hm).
  fold bought. rewrite Hsmall.
  unfold cusdc_plaintext, CUSDCMarketplace.balanceOf in *.
  repeat tx_step; (eexists; split; [reflexivity |]).
  all: tx_cbn; rewrite ?slot_insert_eq; plain_facts.
  all: split_and!.
  all: try (intros other Ho; rewrite slot_insert_ne by done; split; [done | intros Hob]).
  all: plain_eval; reflexivity.
Qed.

Lemma purchaseCUSDC_credits_witness :
  ∃ w', CUSDCMarketplace.purchaseCUSDC default_config alice (10 ^ 18) buyer_world = Ok tt w'
        ∧ cusdc_plaintext w' alice = 4000.
Proof.
  destruct (purchaseCUSDC_credits default_config alice (10 ^ 18) buyer_world)
    as (w' & H & Hb & _).
  - vm_compute. discriminate.
  - vm_compute. reflexivity.
  - vm_compute. reflexivity.
  - vm_compute. reflexivity.
  - exists w'. split; [exact H |]. rewrite Hb. vm_compute. reflexivity.
Defined.

(** X2: [vaultTransfer] has no balance check. Called by the vault (its
    modifiers are not part of the model) it goes through whatever the
    balance, hands back the very handle it was given, and leaves the account
    with balance minus amount modulo 2^256: an amount above the balance wraps
    the balance around to [2^256 - (amount - balance)]. Its owner is
    authorised on the new balance and no other account is touched. *)
Theorem vaultTransfer_wraps cfg from amount w :
  CUSDCMarketplace.balanceOf w from < next_handle (engine w) →
  amount < next_handle (engine w) →
  cusdc_plaintext w from < UINT256_MOD →
  plaintext_of (engine w) amount < UINT256_MOD →
  ∃ w', CUSDCMarketplace.vaultTransfer cfg from amount w = Ok amount w'
    ∧ plaintext_of (engine w') amount = plaintext_of (engine w) amount
    ∧ cusdc_plaintext w' from
      = (if plaintext_of (engine w) amount <=? cusdc_plaintext w from
         then cusdc_plaintext w from - plaintext_of (engine w) amount
         else UINT256_MOD - (plaintext_of (engine w) amount - cusdc_plaintext w from))
    ∧ isAuthorized w' (CUSDCMarketplace.balanceOf w' from) from = true
    ∧ ∀ other, other ≠ from →
        CUSDCMarketplace.balanceOf w' other = CUSDCMarketplace.balanceOf w other.
Proof.
  intros Hb Ha Hpb Hpa.
  unfold CUSDCMarketplace.vaultTransfer. tx_unfold.
  unfold cusdc_plaintext, CUSDCMarketplace.balanceOf in *.
  repeat tx_step; tx_cbn; (eexists; split; [reflexivity |]); tx_cbn;
    rewrite ?slot_insert_eq; plain_facts; split_and!.
  all: try by plain_eval.
  all: try by auth_solve.
  all: try by (intros other Ho; rewrite slot_insert_ne).
  all: plain_eval.
  all: set (x := plaintext_of (engine w) (slot (cusdc_balances w) from)) in *.
  all: set (y := plaintext_of (engine w) amount) in *.
  all: unfold wrap256.
  - apply N.leb_le in Heqb.
    replace (x + UINT256_MOD - y) with (x - y + 1 * UINT256_MOD) by lia.
    rewrite N.Div0.mod_add. apply N.mod_small. lia.
  - apply N.leb_gt in Heqb.
    replace (UINT256_MOD - (y - x)) with (x + UINT256_MOD - y) by lia.
    apply N.mod_small. lia.
Qed.

Lemma vaultTransfer_wraps_witness :
  ∃ w', CUSDCMarketplace.vaultTransfer default_config alice 3 large_amount_world = Ok 3 w'
        ∧ cusdc_plaintext w' alice = UINT256_MOD - 1000.
Proof.
  destruct (vaultTransfer_wraps default_config alice 3 large_amount_world)
    as (w' & H & _ & Hb & _).
  - vm_compute. reflexivity.
  - vm_compute. reflexivity.
  - vm_compute. reflexivity.
  - vm_compute. reflexivity.
  - exists w'. split; [exact H |]. rewrite Hb. vm_compute. reflexivity.
Defined.

(** ** The vault: withdrawal and the view functions *)

(** X3: what [withdraw] has done by the time it calls
    [cUSDC.vaultWithdraw], whatever that function does. The amount paid out
    and returned is [(shares * totalAssets) / (totalShares * DECIMAL_OFFSET)]
    in wrap-around arithmetic (stated for a divisor that is not zero); the
    totals are reduced by the amount and by the shares; the caller's shares
    are a new handle of plaintext zero on which the vault is authorised and
    the caller is not; nobody else's shares change; and the withdrawal
    succeeds exactly when the call to the marketplace does. *)
Theorem withdraw_before_transfer cfg vaultWithdraw sender w :
  ConfidentialVault.shares w sender < next_handle (engine w) →
  vault_totalAssets w < next_handle (engine w) →
  vault_totalShares w < next_handle (engine w) →
  (∀ h who, (h, who) ∈ acl (engine w) → h < next_handle (engine w)) →
  let s := shares_plaintext w sender in
  let totalAssets := plaintext_of (engine w) (vault_totalAssets w) in
  let totalShares := plaintext_of (engine w) (vault_totalShares w) in
  let paid := wrap256 (s * totalAssets)
              / wrap256 (totalShares * wrap256 (DECIMAL_OFFSET cfg)) in
  wrap256 (totalShares * wrap256 (DECIMAL_OFFSET cfg)) ≠ 0 →
  ∃ mid assetsToReturn,
    VaultWithdraw.withdraw cfg vaultWithdraw sender w
    = match vaultWithdraw sender assetsToReturn mid with
      | Ok _ w' => Ok paid w'
      | Revert e => Revert e
      end
    ∧ plaintext_of (engine mid) assetsToReturn = paid
    ∧ shares_plaintext mid sender = 0
    ∧ produced_between w mid (ConfidentialVault.shares mid sender)
    ∧ isAuthorized mid (ConfidentialVault.shares mid sender) (vault_address cfg) = true
    ∧ (sender ≠ vault_address cfg →
       isAuthorized mid (ConfidentialVault.shares mid sender) sender = false)
    ∧ plaintext_of (engine mid) (vault_totalAssets mid)
      = wrap256 (totalAssets + UINT256_MOD - paid)
    ∧ plaintext_of (engine mid) (vault_totalShares mid)
      = wrap256 (totalShares + UINT256_MOD - s)
    ∧ ∀ other, other ≠ sender →
        ConfidentialVault.shares mid other = ConfidentialVault.shares w other.
Proof.
  intros Hs Ha Ht Hacl s totalAssets totalShares paid Hden.
  unfold VaultWithdraw.withdraw. unfold ConfidentialVault.allowThis. tx_unfold. tx_cbn.
  unfold shares_plaintext, ConfidentialVault.shares in *.
  repeat match goal with
         | |- context [engine_fresh ?v ?e] =>
             let h := fresh "h" in
             let e' := fresh "e" in
             destruct (engine_fresh v e) as [h e'] eqn:?; tx_cbn
         end.
  assert (Hacl5 : ∀ who, (h5, who) ∉ acl e5).
  { fresh_facts. intros who Hin. repeat match goal with H : acl _ = _ |- _ =>
      rewrite H in Hin; clear H end. apply Hacl in Hin. lia. }
  plain_facts.
  assert (Hpaid : plaintext_of e5 h2 = paid).
  { plain_eval. reflexivity. }
  do 2 eexists. split; [| split_and!].
  - plain_through_allow. rewrite Hpaid. reflexivity.
  - tx_cbn. plain_through_allow. exact Hpaid.
  - tx_cbn. rewrite slot_insert_eq. by plain_eval.
  - unfold produced_between. tx_cbn. rewrite slot_insert_eq.
    cbn [next_handle engine_allow]. lia.
  - tx_cbn. rewrite slot_insert_eq. auth_solve.
  - intros Hv. tx_cbn. rewrite slot_insert_eq. unfold isAuthorized, isAllowed. tx_cbn.
    apply bool_decide_eq_false_2. cbn [acl engine_allow].
    rewrite !elem_of_union, !elem_of_singleton. intros H.
    destruct_or?; simplify_eq; try lia. by eapply Hacl5.
  - tx_cbn. by plain_eval.
  - tx_cbn. by plain_eval.
  - intros other Ho. tx_cbn. by rewrite slot_insert_ne.
Qed.

Lemma withdraw_before_transfer_witness :
  VaultWithdraw.withdraw default_config (λ _ _, mret tt) alice vault_world
  = Ok 2000 (commit (VaultWithdraw.withdraw default_config (λ _ _, mret tt) alice) vault_world).
Proof.
  destruct (withdraw_before_transfer default_config (λ _ _, mret tt) alice vault_world)
    as (mid & h & H & _).
  - vm_compute. reflexivity.
  - vm_compute. reflexivity.
  - vm_compute. reflexivity.
  - intros h who Hin. exfalso. revert Hin.
    change (acl (engine vault_world)) with (∅ : gset (N * N)). apply not_elem_of_empty.
  - vm_compute. discriminate.
  - unfold commit. rewrite H. reflexivity.
Defined.

(** What [hasVotingPower] answers, in terms of plaintexts. *)
Lemma voting_power_plain w account :
  ConfidentialGovernanceToken.balanceOf w account < next_handle (engine w) →
  voting_power w account
  = ConfidentialGovernanceToken.hasHeldToken w account && (0 <? cgov_plaintext w account).
Proof.
  intros Hb. unfold voting_power, cgov_plaintext, ConfidentialGovernanceToken.hasVotingPower.
  tx_unfold. tx_cbn.
  destruct (ConfidentialGovernanceToken.hasHeldToken w account); [| reflexivity].
  repeat tx_step. tx_cbn. plain_facts. plain_eval.
  change (wrap256 0) with 0.
  by destruct (0 <? plaintext_of (engine w) (ConfidentialGovernanceToken.balanceOf w account)).
Qed.

(** X4: the two view functions answer by the plaintext behind the
    stored handle: [hasShares] is true exactly when the account's shares are
    positive, [hasVotingPower] exactly when the account has ever held tokens
    and its balance is positive; and neither keeps the handles it produces on
    the way. *)
Theorem views_decide_positive_balance account w :
  (ConfidentialVault.shares w account < next_handle (engine w) →
   ConfidentialVault.hasShares account w = Ok (0 <? shares_plaintext w account) w)
  ∧ (ConfidentialGovernanceToken.balanceOf w account < next_handle (engine w) →
     ConfidentialGovernanceToken.hasVotingPower account w
     = Ok (ConfidentialGovernanceToken.hasHeldToken w account
           && (0 <? cgov_plaintext w account)) w)
  ∧ commit (ConfidentialVault.hasShares account) w = w
  ∧ commit (ConfidentialGovernanceToken.hasVotingPower account) w = w.
Proof.
  split_and!.
  - intros Hs. unfold ConfidentialVault.hasShares, shares_plaintext, ConfidentialVault.shares
      in *. tx_unfold. repeat tx_step. tx_cbn. plain_facts. plain_eval.
    change (wrap256 0) with 0. f_equal.
    by destruct (0 <? plaintext_of (engine w) (slot (vault_shares w) account)).
  - intros Hb. rewrite hasVotingPower_view. by rewrite voting_power_plain.
  - unfold commit, ConfidentialVault.hasShares. tx_unfold. by repeat tx_step.
  - unfold commit. by rewrite hasVotingPower_view.
Qed.

Lemma views_decide_positive_balance_witness :
  ConfidentialGovernanceToken.hasVotingPower alice funded_world = Ok true funded_world
  ∧ ConfidentialVault.hasShares alice vault_world = Ok true vault_world.
Proof.
  destruct (views_decide_positive_balance alice funded_world) as (_ & Hv & _).
  destruct (views_decide_positive_balance alice vault_world) as (Hs & _).
  split.
  - rewrite Hv; [| vm_compute; reflexivity]. f_equal.
  - rewrite Hs; [| vm_compute; reflexivity]. f_equal.
Defined.

(** ** Minting governance tokens *)

(** X5: the outcome of [mint], guard by guard: a caller who is not a member
    gets [NotDAOMember]; an [amount * mintPrice] beyond 2^256 panics; a
    payment below [amount * mintPrice] gets [InsufficientETH]; every other
    mint goes through. *)
Theorem mint_outcome cfg sender value amount w :
  ConfidentialGovernanceToken.mint cfg sender value amount w
  = if negb (ConfidentialGovernanceToken.isMember w sender) then Revert NotDAOMember
    else if negb (amount * mintPrice cfg <? UINT256_MOD) then Revert Panic
    else if value <? amount * mintPrice cfg then Revert InsufficientETH
    else Ok tt (commit (ConfidentialGovernanceToken.mint cfg sender value amount) w).
Proof.
  destruct (ConfidentialGovernanceToken.isMember w sender) eqn:Hmem; cbn [negb].
  - destruct (N.ltb_spec (amount * mintPrice cfg) UINT256_MOD) as [Hm | Hm]; cbn [negb].
    + destruct (N.ltb_spec value (amount * mintPrice cfg)) as [Hv | Hv].
      * unfold ConfidentialGovernanceToken.mint. tx_unfold. tx_cbn.
        rewrite Hmem. tx_cbn. rewrite (N_ltb_true _ _ Hm). tx_cbn.
        by rewrite (N_ltb_true _ _ Hv).
      * destruct (mint_grants cfg sender value amount w Hmem Hm Hv) as (w' & H & _).
        unfold commit. by rewrite H.
    + unfold ConfidentialGovernanceToken.mint. tx_unfold. tx_cbn.
      rewrite Hmem. tx_cbn. by rewrite (N_ltb_false _ _ Hm).
  - unfold ConfidentialGovernanceToken.mint. tx_unfold. tx_cbn. by rewrite Hmem.
Qed.

(** X6: a mint that passes its guards adds [amount] to the caller's
    cGOV balance and to the total supply, modulo 2^256, marks the caller as
    having held tokens, and leaves every other account as it was. Afterwards
    [hasVotingPower] is true for the caller exactly when the new balance is
    positive: a mint of zero tokens, which costs nothing, gives no voting
    power. *)
Theorem mint_credits cfg sender value amount w :
  ConfidentialGovernanceToken.isMember w sender = true →
  amount < UINT256_MOD →
  amount * mintPrice cfg < UINT256_MOD →
  amount * mintPrice cfg <= value →
  ConfidentialGovernanceToken.balanceOf w sender < next_handle (engine w) →
  cgov_totalSupply w < next_handle (engine w) →
  ∃ w', ConfidentialGovernanceToken.mint cfg sender value amount w = Ok tt w'
    ∧ cgov_plaintext w' sender
      = (if ConfidentialGovernanceToken.balanceOf w sender =? ZERO_HANDLE then amount
         else wrap256 (cgov_plaintext w sender + amount))
    ∧ plaintext_of (engine w') (cgov_totalSupply w')
      = wrap256 (plaintext_of (engine w) (cgov_totalSupply w) + amount)
    ∧ ConfidentialGovernanceToken.hasHeldToken w' sender = true
    ∧ voting_power w' sender = (0 <? cgov_plaintext w' sender)
    ∧ ∀ other, other ≠ sender →
        ConfidentialGovernanceToken.balanceOf w' other
        = ConfidentialGovernanceToken.balanceOf w other
        ∧ ConfidentialGovernanceToken.hasHeldToken w' other
          = ConfidentialGovernanceToken.hasHeldToken w other
        ∧ (ConfidentialGovernanceToken.balanceOf w other < next_handle (engine w) →
           cgov_plaintext w' other = cgov_plaintext w other).
Proof.
  intros Hmem Ha Hm Hv Hb Ht.
  assert (Hex : ∃ w', ConfidentialGovernanceToken.mint cfg sender value amount w = Ok tt w').
  { destruct (mint_grants cfg sender value amount w Hmem Hm Hv) as (w' & H & _). eauto. }
  destruct Hex as [w' Hw']. exists w'. split; [done |].
  assert (Hbal' : ConfidentialGovernanceToken.balanceOf w' sender < next_handle (engine w')
                  ∧ ConfidentialGovernanceToken.hasHeldToken w' sender = true).
  { revert Hw'. unfold ConfidentialGovernanceToken.mint. tx_unfold. tx_cbn.
    rewrite Hmem. tx_cbn. rewrite (N_ltb_true _ _ Hm). tx_cbn.
    rewrite (N_ltb_false _ _ Hv).
    unfold ConfidentialGovernanceToken.balanceOf, ConfidentialGovernanceToken.hasHeldToken.
    repeat tx_step; intros [= <-]; tx_cbn; rewrite ?slot_insert_eq, ?lookup_insert_eq;
      fresh_facts; cbn [next_handle engine_allow]; (split; [lia | done]). }
  destruct Hbal' as [Hbal' Hheld'].
  rewrite (voting_power_plain w' sender Hbal'), Hheld'. cbn [andb].
  revert Hw'. unfold ConfidentialGovernanceToken.mint. tx_unfold. tx_cbn.
  rewrite Hmem. tx_cbn. rewrite (N_ltb_true _ _ Hm). tx_cbn.
  rewrite (N_ltb_false _ _ Hv). rewrite (wrap256_small _ Ha).
  unfold cgov_plaintext, ConfidentialGovernanceToken.balanceOf,
    ConfidentialGovernanceToken.hasHeldToken in *.
  repeat tx_step; intros [= <-].
  all: tx_cbn; rewrite ?slot_insert_eq, ?lookup_insert_eq; plain_facts.
  all: split_and!; try done.
  all: try (intros other Ho; rewrite slot_insert_ne by done;
            rewrite lookup_insert_ne by done; split_and!; [done | done | intros Hob]).
  all: plain_eval; reflexivity.
Qed.

Lemma mint_credits_witness :
  ∃ w', ConfidentialGovernanceToken.mint default_config alice
          (2 * mintPrice default_config) 2 funded_world = Ok tt w'
        ∧ cgov_plaintext w' alice = 7
        ∧ voting_power w' alice = true.
Proof.
  destruct (mint_credits default_config alice (2 * mintPrice default_config) 2 funded_world)
    as (w' & H & Hb & _ & _ & Hv & _).
  - vm_compute. reflexivity.
  - vm_compute. reflexivity.
  - vm_compute. reflexivity.
  - vm_compute. discriminate.
  - vm_compute. reflexivity.
  - vm_compute. reflexivity.
  - exists w'. split; [exact H |]. rewrite Hv, Hb. split; vm_compute; reflexivity.
Defined.

(** ** Proposals from creation on *)

(** X7: the outcome of [propose], guard by guard and in source order:
    [NotMember], [NoVotingPower], [FeeTooLow], [InvalidRecipient], a panic
    when the counter or a block number would overflow, and otherwise success
    with the next proposal id. *)
Theorem propose_outcome cfg sender value blockNumber d amount rcpt mode w :
  AzothDAO.propose cfg sender value blockNumber d amount rcpt mode w
  = if negb (AzothDAO.isMember w sender) then Revert NotMember
    else if negb (voting_power w sender) then Revert NoVotingPower
    else if value <? fee cfg then Revert FeeTooLow
    else if rcpt =? 0 then Revert InvalidRecipient
    else if negb (dao_proposalCount w + 1 <? UINT256_MOD) then Revert Panic
    else if negb (blockNumber + votingDelay cfg <? UINT256_MOD) then Revert Panic
    else if negb (blockNumber + votingDelay cfg + votingPeriod cfg <? UINT256_MOD)
         then Revert Panic
    else Ok (dao_proposalCount w + 1)
            (commit (AzothDAO.propose cfg sender value blockNumber d amount rcpt mode) w).
Proof.
  unfold commit. unfold AzothDAO.propose. tx_unfold. tx_cbn.
  destruct (AzothDAO.isMember w sender); tx_cbn; [| reflexivity].
  rewrite hasVotingPower_view.
  destruct (voting_power w sender); tx_cbn; [| reflexivity].
  destruct (value <? fee cfg); tx_cbn; [reflexivity |].
  destruct (rcpt =? 0); tx_cbn; [reflexivity |].
  destruct (dao_proposalCount w + 1 <? UINT256_MOD); tx_cbn; [| reflexivity].
  destruct (engine_fresh (wrap256 amount) (engine w)) as [h e] eqn:?. tx_cbn.
  destruct (blockNumber + votingDelay cfg <? UINT256_MOD); tx_cbn; [| reflexivity].
  destruct (blockNumber + votingDelay cfg + votingPeriod cfg <? UINT256_MOD); tx_cbn;
    [| reflexivity].
  repeat tx_step. reflexivity.
Qed.

(** X8: what a successful [propose] leaves behind. The new proposal has
    the next id, the caller as proposer, the description, recipient and mode
    given, the state [Pending], and a voting window that starts
    [votingDelay] blocks after the current one and is [votingPeriod] blocks
    long. Its requested amount and its three tallies are four different
    handles produced by this call, on which the DAO contract is authorised;
    the amount decrypts to what the client encrypted, the tallies to zero.
    No other proposal and no receipt changes. *)
Theorem propose_creates cfg w w' sender value blockNumber d amount rcpt mode pid :
  AzothDAO.propose cfg sender value blockNumber d amount rcpt mode w = Ok pid w' →
  let p := AzothDAO.proposals w' pid in
  pid = dao_proposalCount w + 1
  ∧ dao_proposalCount w' = pid
  ∧ id p = pid ∧ proposer p = sender ∧ description p = d ∧ recipient p = rcpt
  ∧ votingMode p = mode ∧ state p = Pending
  ∧ startBlock p = blockNumber + votingDelay cfg
  ∧ endBlock p = startBlock p + votingPeriod cfg
  ∧ NoDup [requestedAmount p; forVotes p; againstVotes p; abstainVotes p]
  ∧ plaintext_of (engine w') (requestedAmount p) = wrap256 amount
  ∧ plain_tallies w' pid = (0, 0, 0)
  ∧ Forall (λ h, isAuthorized w' h (dao_address cfg) = true ∧ produced_between w w' h)
           [requestedAmount p; forVotes p; againstVotes p; abstainVotes p]
  ∧ (∀ other, other ≠ pid → AzothDAO.proposals w' other = AzothDAO.proposals w other)
  ∧ dao_receipts w' = dao_receipts w.
Proof.
  unfold AzothDAO.propose. tx_unfold. tx_cbn.
  destruct (AzothDAO.isMember w sender); tx_cbn; [| discriminate].
  rewrite hasVotingPower_view.
  repeat tx_step; try discriminate.
  intros [= <- <-]. cbv zeta. unfold plain_tallies, AzothDAO.proposals, produced_between.
  tx_cbn. rewrite !lookup_insert_eq. tx_cbn.
  split_and!; try reflexivity.
  - fresh_facts. repeat constructor; rewrite ?elem_of_cons, ?elem_of_nil; lia.
  - plain_facts. by plain_eval.
  - plain_facts. f_equal; [f_equal |]; by plain_eval.
  - repeat apply Forall_cons_2; try apply Forall_nil_2.
    all: split; [auth_solve | fresh_facts; cbn [next_handle engine_allow]; lia].
  - intros other Ho. by rewrite lookup_insert_ne.
Qed.

Lemma propose_creates_witness :
  plain_tallies proposed_world 1 = (0, 0, 0)
  ∧ startBlock (AzothDAO.proposals proposed_world 1) = 101
  ∧ endBlock (AzothDAO.proposals proposed_world 1) = 50501.
Proof.
  destruct (propose_creates default_config funded_world proposed_world alice 0 100 0 1000
              carol Normal 1) as (_ & _ & _ & _ & _ & _ & _ & _ & Hs & He & _ & _ & Ht & _).
  - vm_compute. reflexivity.
  - rewrite He, Hs. split; [exact Ht |]. split; vm_compute; reflexivity.
Defined.

Lemma same_parameters_refl p : same_parameters p p.
Proof. by repeat split. Qed.

Lemma same_parameters_trans p1 p2 p3 :
  same_parameters p1 p2 → same_parameters p2 p3 → same_parameters p1 p3.
Proof. unfold same_parameters. intros H1 H2. destruct_and!. split_and!; congruence. Qed.

(** One transaction keeps the parameters of every proposal that exists. *)
Lemma perform_same_parameters cfg blockNumber c w proposalId :
  proposalId <= dao_proposalCount w →
  proposalId <= dao_proposalCount (perform cfg blockNumber c w)
  ∧ dao_proposalCount w <= dao_proposalCount (perform cfg blockNumber c w)
  ∧ same_parameters (AzothDAO.proposals w proposalId)
      (AzothDAO.proposals (perform cfg blockNumber c w) proposalId).
Proof.
  intros Hc. destruct c as [sender value | sender | sender value amount
                  | sender value d encryptedAmount rcpt mode | sender proposalId0 choice
                  | sender proposalId0 | sender proposalId0 forVotesPlain againstVotesPlain];
    cbn [perform].
  - destruct (purchaseCUSDC_frame cfg sender value w) as (Hp & _ & _ & Hn).
    rewrite Hn, (proposals_same _ _ _ Hp). split_and!; [done | done |].
    apply same_parameters_refl.
  - destruct (deposit_frame cfg sender w) as (Hp & _ & _ & Hn).
    rewrite Hn, (proposals_same _ _ _ Hp). split_and!; [done | done |].
    apply same_parameters_refl.
  - destruct (mint_frame cfg sender value amount w) as (Hp & _ & _ & Hn).
    rewrite Hn, (proposals_same _ _ _ Hp). split_and!; [done | done |].
    apply same_parameters_refl.
  - unfold commit.
    destruct (AzothDAO.propose cfg sender value blockNumber d encryptedAmount
                rcpt mode w) as [pid w' |] eqn:H.
    + apply propose_stores_pending in H as (-> & Hn & _ & _ & p & Hp & _).
      rewrite Hn, (proposals_insert_ne _ _ _ _ _ Hp) by lia.
      split_and!; [lia | lia | apply same_parameters_refl].
    + split_and!; [done | done | apply same_parameters_refl].
  - unfold commit. rewrite castVote_spec.
    destruct (castVote_guard w sender blockNumber proposalId0);
      [split_and!; [done | done | apply same_parameters_refl] |].
    split_and!; [done | done |].
    destruct (decide (proposalId = proposalId0)) as [-> | Hne].
    + rewrite proposals_castVote_effect. by destruct choice.
    + rewrite proposals_castVote_effect_ne by done. apply same_parameters_refl.
  - destruct (revealVotes_frame sender blockNumber proposalId0 w) as (Hp & _ & _ & Hn).
    rewrite Hn, (proposals_same _ _ _ Hp). split_and!; [done | done |].
    apply same_parameters_refl.
  - unfold commit.
    destruct (AzothDAO.finalizeProposal sender blockNumber proposalId0 forVotesPlain
                againstVotesPlain w) as [[] w' |] eqn:H.
    + apply finalizeProposal_inv in H as (_ & _ & _ & ->). unfold finalized.
      split_and!; [done | done |].
      destruct (decide (proposalId = proposalId0)) as [-> | Hne].
      * rewrite proposals_with_state. by repeat split.
      * rewrite proposals_with_state_ne by done. apply same_parameters_refl.
    + split_and!; [done | done | apply same_parameters_refl].
Qed.

(** X9: through every history of the seven documented transactions,
    the proposal counter never decreases and a proposal that exists keeps the
    parameters it was created with: id, proposer, description, requested
    amount, recipient, voting window and voting mode. *)
Theorem proposal_parameters_immutable cfg history w proposalId :
  proposalId <= dao_proposalCount w →
  dao_proposalCount w <= dao_proposalCount (run cfg history w)
  ∧ same_parameters (AzothDAO.proposals w proposalId)
      (AzothDAO.proposals (run cfg history w) proposalId).
Proof.
  revert w. induction history as [| [blockNumber c] history IH]; intros w Hc.
  - split; [done | apply same_parameters_refl].
  - destruct (perform_same_parameters cfg blockNumber c w proposalId Hc) as (Hc' & Hle & Hs).
    destruct (IH (perform cfg blockNumber c w) Hc') as [Hle' Hs'].
    cbn [run fold_left]. fold (run cfg history (perform cfg blockNumber c w)).
    split; [lia | by eapply same_parameters_trans].
Qed.

Lemma proposal_parameters_immutable_witness :
  endBlock (AzothDAO.proposals
              (run default_config
                 [(101, CastVote alice 1 For); (50502, FinalizeProposal alice 1 5 3)]
                 active_world) 1) = 50501.
Proof.
  destruct (proposal_parameters_immutable default_config
              [(101, CastVote alice 1 For); (50502, FinalizeProposal alice 1 5 3)]
              active_world 1) as (_ & _ & _ & _ & _ & _ & _ & He & _).
  - vm_compute. discriminate.
  - rewrite He. vm_compute. reflexivity.
Defined.

(** ** Votes *)

Lemma voting_power_set_dao_isMember members w account :
  voting_power (set_dao_isMember members w) account = voting_power w account.
Proof.
  unfold voting_power, ConfidentialGovernanceToken.hasVotingPower. tx_unfold.
  unfold ConfidentialGovernanceToken.hasHeldToken, ConfidentialGovernanceToken.balanceOf.
  cbn [set_dao_isMember cgov_hasHeldToken cgov_balances engine].
  destruct (default false (cgov_hasHeldToken w !! account)); reflexivity.
Qed.

(** X10: [castVote] has no [onlyMember] modifier and never reads the
    membership register: with any other register the same vote fails with the
    same error or succeeds with the same effect. For an account that is not a
    member, [finalizeProposal], [revealVotes] and [propose] all revert with
    [NotMember]. *)
Theorem castVote_ignores_membership cfg members sender blockNumber proposalId support w :
  let vote := AzothDAO.castVote cfg sender blockNumber proposalId support in
  failure vote (set_dao_isMember members w) = failure vote w
  ∧ commit vote (set_dao_isMember members w) = set_dao_isMember members (commit vote w)
  ∧ (AzothDAO.isMember w sender = false →
     (∀ f a, AzothDAO.finalizeProposal sender blockNumber proposalId f a w
             = Revert NotMember)
     ∧ AzothDAO.revealVotes sender blockNumber proposalId w = Revert NotMember
     ∧ ∀ value d amount rcpt mode,
         AzothDAO.propose cfg sender value blockNumber d amount rcpt mode w
         = Revert NotMember).
Proof.
  cbv zeta. split_and!.
  - unfold failure. rewrite !castVote_spec.
    assert (Hg : castVote_guard (set_dao_isMember members w) sender blockNumber proposalId
                 = castVote_guard w sender blockNumber proposalId).
    { unfold castVote_guard. by rewrite voting_power_set_dao_isMember. }
    rewrite Hg. by destruct (castVote_guard w sender blockNumber proposalId).
  - unfold commit. rewrite !castVote_spec.
    assert (Hg : castVote_guard (set_dao_isMember members w) sender blockNumber proposalId
                 = castVote_guard w sender blockNumber proposalId).
    { unfold castVote_guard. by rewrite voting_power_set_dao_isMember. }
    rewrite Hg. by destruct (castVote_guard w sender blockNumber proposalId).
  - intros Hm. split_and!.
    + intros f a. unfold AzothDAO.finalizeProposal. tx_unfold. tx_cbn. by rewrite Hm.
    + unfold AzothDAO.revealVotes. tx_unfold. tx_cbn. by rewrite Hm.
    + intros value d amount rcpt mode. unfold AzothDAO.propose. tx_unfold. tx_cbn.
      by rewrite Hm.
Qed.

Lemma castVote_ignores_membership_witness :
  failure (AzothDAO.castVote default_config alice 101 1 For) no_members_world = None
  ∧ AzothDAO.revealVotes alice 101 1 no_members_world = Revert NotMember.
Proof.
  destruct (castVote_ignores_membership default_config ∅ alice 101 1 For active_world)
    as (Hf & _ & Hm).
  split.
  - unfold no_members_world. rewrite Hf. vm_compute. reflexivity.
  - destruct (castVote_ignores_membership default_config ∅ alice 101 1 For no_members_world)
      as (_ & _ & Hn).
    apply Hn. vm_compute. reflexivity.
Defined.

(** The decrypted tallies after a vote that went through. *)
Lemma plain_tallies_castVote_effect cfg w sender proposalId support :
  (∀ h, h ∈ tally_handles (AzothDAO.proposals w proposalId) → h < next_handle (engine w)) →
  plain_tallies (castVote_effect cfg sender proposalId support w) proposalId
  = add_vote support (cgov_plaintext w sender) (plain_tallies w proposalId).
Proof.
  intros Ha. unfold plain_tallies. rewrite proposals_castVote_effect.
  assert (Hf : forVotes (AzothDAO.proposals w proposalId) < next_handle (engine w))
    by (apply Ha; unfold tally_handles; rewrite !elem_of_cons; auto).
  assert (Hg : againstVotes (AzothDAO.proposals w proposalId) < next_handle (engine w))
    by (apply Ha; unfold tally_handles; rewrite !elem_of_cons; auto).
  assert (Hb : abstainVotes (AzothDAO.proposals w proposalId) < next_handle (engine w))
    by (apply Ha; unfold tally_handles; rewrite !elem_of_cons; auto).
  unfold castVote_effect, add_vote, cgov_plaintext, plaintext_of. tx_cbn. cbn [plaintexts].
  destruct support; cbn [set_tally tally_of AzothDAO.set_forVotes AzothDAO.set_againstVotes
    AzothDAO.set_abstainVotes forVotes againstVotes abstainVotes];
    rewrite ?lookup_insert_eq; rewrite ?lookup_insert_ne by lia; reflexivity.
Qed.

(** The guards of a vote do not see the vote of somebody else. *)
Lemma castVote_guard_after_effect cfg w a b blockNumber proposalId sa pa :
  (pa, a) ≠ (proposalId, b) →
  ConfidentialGovernanceToken.balanceOf w b < next_handle (engine w) →
  castVote_guard (castVote_effect cfg a pa sa w) b blockNumber proposalId
  = castVote_guard w b blockNumber proposalId.
Proof.
  intros Hne Hb. unfold castVote_guard.
  rewrite receipts_castVote_effect_ne by congruence.
  assert (Hp : state (AzothDAO.proposals (castVote_effect cfg a pa sa w) proposalId)
               = state (AzothDAO.proposals w proposalId)
             ∧ startBlock (AzothDAO.proposals (castVote_effect cfg a pa sa w) proposalId)
               = startBlock (AzothDAO.proposals w proposalId)
             ∧ endBlock (AzothDAO.proposals (castVote_effect cfg a pa sa w) proposalId)
               = endBlock (AzothDAO.proposals w proposalId)).
  { destruct (decide (proposalId = pa)) as [-> | Hd].
    - rewrite proposals_castVote_effect. by destruct sa.
    - by rewrite proposals_castVote_effect_ne. }
  destruct Hp as (-> & -> & ->).
  assert (Hv : voting_power (castVote_effect cfg a pa sa w) b = voting_power w b).
  { rewrite !voting_power_plain; [| done |].
    - unfold cgov_plaintext, castVote_effect, plaintext_of,
        ConfidentialGovernanceToken.balanceOf in *. tx_cbn. cbn [plaintexts].
      rewrite lookup_insert_ne by lia. reflexivity.
    - unfold castVote_effect, ConfidentialGovernanceToken.balanceOf in *. tx_cbn.
      cbn [next_handle]. lia. }
  by rewrite Hv.
Qed.

Lemma add_vote_comm sa sb x y t :
  add_vote sb y (add_vote sa x t) = add_vote sa x (add_vote sb y t).
Proof.
  assert (H : ∀ v, wrap256 (wrap256 (v + x) + y) = wrap256 (wrap256 (v + y) + x)).
  { intros v. unfold wrap256. rewrite !N.Div0.add_mod_idemp_l. f_equal. lia. }
  destruct t as [[f a] ab]. unfold add_vote.
  destruct sa, sb; try reflexivity; by rewrite H.
Qed.

(** X11: the votes of two different voters on a proposal commute.
    Whether either vote is accepted does not depend on whether the other has
    been cast, and in both orders the decrypted tallies and the receipts end
    up the same. *)
Theorem castVote_order_irrelevant cfg w a b blockA blockB proposalId sa sb :
  a ≠ b →
  (∀ h, h ∈ tally_handles (AzothDAO.proposals w proposalId) → h < next_handle (engine w)) →
  ConfidentialGovernanceToken.balanceOf w a < next_handle (engine w) →
  ConfidentialGovernanceToken.balanceOf w b < next_handle (engine w) →
  let voteA := AzothDAO.castVote cfg a blockA proposalId sa in
  let voteB := AzothDAO.castVote cfg b blockB proposalId sb in
  failure voteB (commit voteA w) = failure voteB w
  ∧ failure voteA (commit voteB w) = failure voteA w
  ∧ plain_tallies (commit voteB (commit voteA w)) proposalId
    = plain_tallies (commit voteA (commit voteB w)) proposalId
  ∧ dao_receipts (commit voteB (commit voteA w))
    = dao_receipts (commit voteA (commit voteB w)).
Proof.
  intros Hab Ht Ha Hb. cbv zeta. unfold failure, commit. rewrite !castVote_spec.
  pose proof (castVote_guard_after_effect cfg w a b blockB proposalId sa proposalId) as Hgb.
  pose proof (castVote_guard_after_effect cfg w b a blockA proposalId sb proposalId) as Hga.
  destruct (castVote_guard w a blockA proposalId) as [ea |] eqn:Ea;
    destruct (castVote_guard w b blockB proposalId) as [eb |] eqn:Eb;
    rewrite ?castVote_spec, ?Ea, ?Eb, ?Hga, ?Hgb, ?Ea, ?Eb by congruence;
    try done.
  split_and!; try done.
  - rewrite !plain_tallies_castVote_effect; try done.
    + rewrite add_vote_comm. f_equal.
      * unfold cgov_plaintext, castVote_effect, plaintext_of,
          ConfidentialGovernanceToken.balanceOf in *. tx_cbn. cbn [plaintexts].
        by rewrite lookup_insert_ne by lia.
      * f_equal. unfold cgov_plaintext, castVote_effect, plaintext_of,
          ConfidentialGovernanceToken.balanceOf in *. tx_cbn. cbn [plaintexts].
        by rewrite lookup_insert_ne by lia.
    + intros h. rewrite proposals_castVote_effect. unfold castVote_effect. tx_cbn.
      cbn [next_handle]. unfold tally_handles in *. revert Ht.
      destruct sb; cbn; rewrite !elem_of_cons, ?elem_of_nil; intros Ht Hin;
        destruct_or?; simplify_eq; try lia;
        (etrans; [apply Ht; rewrite !elem_of_cons; auto | lia]).
    + intros h. rewrite proposals_castVote_effect. unfold castVote_effect. tx_cbn.
      cbn [next_handle]. unfold tally_handles in *. revert Ht.
      destruct sa; cbn; rewrite !elem_of_cons, ?elem_of_nil; intros Ht Hin;
        destruct_or?; simplify_eq; try lia;
        (etrans; [apply Ht; rewrite !elem_of_cons; auto | lia]).
  - unfold castVote_effect. tx_cbn. apply insert_insert_ne. congruence.
Qed.

Lemma castVote_order_irrelevant_witness :
  plain_tallies
    (commit (AzothDAO.castVote default_config bob 102 1 For)
       (commit (AzothDAO.castVote default_config alice 101 1 For) active_world)) 1
  = plain_tallies
      (commit (AzothDAO.castVote default_config alice 101 1 For)
         (commit (AzothDAO.castVote default_config bob 102 1 For) active_world)) 1.
Proof.
  destruct (castVote_order_irrelevant default_config active_world alice bob 101 102 1 For For)
    as (_ & _ & H & _).
  - vm_compute. discriminate.
  - intros h. unfold tally_handles. rewrite !elem_of_cons, elem_of_nil.
    intros [-> | [-> | [-> | []]]]; vm_compute; reflexivity.
  - vm_compute. reflexivity.
  - vm_compute. reflexivity.
  - exact H.
Defined.

(** X12: a receipt records the handle of the balance the voter had when
    voting. Through every later history the receipt keeps that handle, and
    what it decrypts to stays the weight that was counted, however many
    tokens the voter mints afterwards. *)
Theorem vote_weight_is_a_snapshot cfg w0 w voter blockNumber proposalId choice history :
  AzothDAO.castVote cfg voter blockNumber proposalId choice w0 = Ok tt w →
  ConfidentialGovernanceToken.balanceOf w0 voter < next_handle (engine w0) →
  let w' := run cfg history w in
  let receipt := AzothDAO.receipts w' proposalId voter in
  hasVoted receipt = true
  ∧ support receipt = choice
  ∧ votes receipt = ConfidentialGovernanceToken.balanceOf w0 voter
  ∧ plaintext_of (engine w') (votes receipt) = cgov_plaintext w0 voter.
Proof.
  intros H Hb w' receipt.
  apply castVote_inv in H as (_ & _ & _ & _ & _ & ->).
  assert (Hr : receipt = mkReceipt true (ConfidentialGovernanceToken.balanceOf w0 voter)
                           choice).
  { subst receipt w'. rewrite run_keeps_receipt; by rewrite receipts_castVote_effect. }
  rewrite Hr. cbn [hasVoted votes support]. split_and!; try done.
  subst w'. rewrite run_plain_stable.
  - unfold cgov_plaintext, castVote_effect, plaintext_of. tx_cbn. cbn [plaintexts].
    by rewrite lookup_insert_ne by lia.
  - unfold castVote_effect. tx_cbn. cbn [next_handle]. lia.
Qed.

Lemma vote_weight_is_a_snapshot_witness :
  let w' := run default_config [(102, Mint alice (2 * mintPrice default_config) 2)]
              (commit (AzothDAO.castVote default_config alice 101 1 For) active_world) in
  plaintext_of (engine w') (votes (AzothDAO.receipts w' 1 alice)) = 5
  ∧ cgov_plaintext w' alice = 7.
Proof.
  destruct (vote_weight_is_a_snapshot default_config active_world
              (commit (AzothDAO.castVote default_config alice 101 1 For) active_world)
              alice 101 1 For [(102, Mint alice (2 * mintPrice default_config) 2)])
    as (_ & _ & _ & H).
  - vm_compute. reflexivity.
  - vm_compute. reflexivity.
  - cbv zeta. split; [| vm_compute; reflexivity]. rewrite H. vm_compute. reflexivity.
Defined.

(** ** After the voting window *)

(** X13: after the voting window a member's [revealVotes] on a proposal
    that is neither executed nor cancelled goes through; it authorises the
    caller on the three tally handles, grants nothing else to anybody, takes
    no grant away, and changes neither a plaintext nor any storage. *)
Theorem revealVotes_grants_caller sender blockNumber proposalId w :
  let p := AzothDAO.proposals w proposalId in
  AzothDAO.isMember w sender = true →
  endBlock p < blockNumber →
  executed p = false →
  state p ≠ Canceled →
  ∃ w', AzothDAO.revealVotes sender blockNumber proposalId w = Ok tt w'
    ∧ (∀ h, h ∈ tally_handles p → isAuthorized w' h sender = true)
    ∧ (∀ h who, isAuthorized w h who = true → isAuthorized w' h who = true)
    ∧ (∀ h who, isAuthorized w' h who = true →
                isAuthorized w h who = true ∨ (who = sender ∧ h ∈ tally_handles p))
    ∧ (∀ h, plaintext_of (engine w') h = plaintext_of (engine w) h)
    ∧ set_engine (engine w) w' = w.
Proof.
  intros p Hm He Hx Hs.
  unfold AzothDAO.revealVotes. tx_unfold. tx_cbn. rewrite Hm. tx_cbn.
  fold p. rewrite (N_leb_false _ _ He). tx_cbn. rewrite Hx.
  rewrite (bool_decide_eq_false_2 _ Hs). tx_cbn.
  eexists. split; [reflexivity |]. split_and!.
  - intros h. unfold tally_handles. rewrite !elem_of_cons, elem_of_nil.
    intros [-> | [-> | [-> | []]]]; auth_solve.
  - intros h who H. by auth_solve.
  - intros h who. unfold isAuthorized, isAllowed. tx_cbn.
    rewrite !bool_decide_eq_true. cbn [acl engine_allow].
    rewrite !elem_of_union, !elem_of_singleton. unfold tally_handles.
    rewrite !elem_of_cons. intros H. destruct_or?; simplify_eq; auto 10.
  - done.
  - by destruct w.
Qed.

Lemma revealVotes_grants_caller_witness :
  ∃ w', AzothDAO.revealVotes alice 50502 1 voted_world = Ok tt w'
        ∧ isAuthorized w' (forVotes (AzothDAO.proposals voted_world 1)) alice = true
        ∧ isAuthorized w' (forVotes (AzothDAO.proposals voted_world 1)) bob = false.
Proof.
  destruct (revealVotes_grants_caller alice 50502 1 voted_world)
    as (w' & H & Ha & _ & Ho & _).
  - vm_compute. reflexivity.
  - vm_compute. reflexivity.
  - vm_compute. reflexivity.
  - vm_compute. discriminate.
  - exists w'. split_and!; [exact H | |].
    + apply Ha. unfold tally_handles. rewrite !elem_of_cons. auto.
    + destruct (isAuthorized w' (forVotes (AzothDAO.proposals voted_world 1)) bob) eqn:E;
        [| reflexivity].
      apply Ho in E as [E | [E _]]; [| vm_compute in E; discriminate].
      vm_compute in E. discriminate.
Defined.

(** A transaction mined after the voting window of a proposal leaves its
    tallies and receipts alone. *)
Lemma perform_after_end cfg blockNumber c w proposalId :
  proposalId <= dao_proposalCount w →
  endBlock (AzothDAO.proposals w proposalId) < blockNumber →
  tallies (perform cfg blockNumber c w) proposalId = tallies w proposalId
  ∧ ∀ voter, AzothDAO.receipts (perform cfg blockNumber c w) proposalId voter
             = AzothDAO.receipts w proposalId voter.
Proof.
  intros Hc He. unfold tallies. destruct c as [sender value | sender | sender value amount
                  | sender value d encryptedAmount rcpt mode | sender proposalId0 choice
                  | sender proposalId0 | sender proposalId0 forVotesPlain againstVotesPlain];
    cbn [perform].
  - destruct (purchaseCUSDC_frame cfg sender value w) as (Hp & Hr & _).
    rewrite (proposals_same _ _ _ Hp). split; [done |].
    intros voter. by rewrite (receipts_same _ _ _ _ Hr).
  - destruct (deposit_frame cfg sender w) as (Hp & Hr & _).
    rewrite (proposals_same _ _ _ Hp). split; [done |].
    intros voter. by rewrite (receipts_same _ _ _ _ Hr).
  - destruct (mint_frame cfg sender value amount w) as (Hp & Hr & _).
    rewrite (proposals_same _ _ _ Hp). split; [done |].
    intros voter. by rewrite (receipts_same _ _ _ _ Hr).
  - unfold commit.
    destruct (AzothDAO.propose cfg sender value blockNumber d encryptedAmount
                rcpt mode w) as [pid w' |] eqn:H; [| done].
    apply propose_stores_pending in H as (-> & Hn & Hr & _ & p & Hp & _).
    rewrite (proposals_insert_ne _ _ _ _ _ Hp) by lia. split; [done |].
    intros voter. by rewrite (receipts_same _ _ _ _ Hr).
  - destruct (decide (proposalId0 = proposalId)) as [-> | Hne].
    + destruct (castVote_outside_window cfg w sender blockNumber proposalId choice)
        as (e & H & _); [by right |].
      unfold commit. by rewrite H.
    + unfold commit. rewrite castVote_spec.
      destruct (castVote_guard w sender blockNumber proposalId0); [done |].
      rewrite proposals_castVote_effect_ne by done. split; [done |].
      intros voter. rewrite receipts_castVote_effect_ne; [done | congruence].
  - destruct (revealVotes_frame sender blockNumber proposalId0 w) as (Hp & Hr & _).
    rewrite (proposals_same _ _ _ Hp). split; [done |].
    intros voter. by rewrite (receipts_same _ _ _ _ Hr).
  - unfold commit.
    destruct (AzothDAO.finalizeProposal sender blockNumber proposalId0 forVotesPlain
                againstVotesPlain w) as [[] w' |] eqn:H; [| done].
    apply finalizeProposal_inv in H as (_ & _ & _ & ->). unfold finalized.
    split; [| done].
    destruct (decide (proposalId = proposalId0)) as [-> | Hne].
    + by rewrite proposals_with_state.
    + by rewrite proposals_with_state_ne.
Qed.

(** X14: once the voting window of an existing proposal has closed, no
    history of the seven documented transactions changes its tally handles or
    its receipts, and the tallies decrypt to the same values ever after:
    what a member reads after [revealVotes] is what is still there when the
    proposal is finalised. *)
Theorem tallies_final_after_voting cfg history w proposalId :
  proposalId <= dao_proposalCount w →
  Forall (λ '(blockNumber, _), endBlock (AzothDAO.proposals w proposalId) < blockNumber)
         history →
  let w' := run cfg history w in
  tallies w' proposalId = tallies w proposalId
  ∧ (∀ voter, AzothDAO.receipts w' proposalId voter = AzothDAO.receipts w proposalId voter)
  ∧ ((∀ h, h ∈ tally_handles (AzothDAO.proposals w proposalId) →
           h < next_handle (engine w)) →
     plain_tallies w' proposalId = plain_tallies w proposalId).
Proof.
  intros Hc Hall w'.
  assert (H : tallies w' proposalId = tallies w proposalId
              ∧ ∀ voter, AzothDAO.receipts w' proposalId voter
                         = AzothDAO.receipts w proposalId voter).
  { subst w'. revert w Hc Hall.
    induction history as [| [blockNumber c] history IH]; intros w Hc Hall; [done |].
    apply Forall_cons_1 in Hall as [Hb Hall].
    destruct (perform_same_parameters cfg blockNumber c w proposalId Hc)
      as (Hc' & _ & Hs).
    destruct (perform_after_end cfg blockNumber c w proposalId Hc Hb) as [Ht Hr].
    assert (Hend : endBlock (AzothDAO.proposals (perform cfg blockNumber c w) proposalId)
                   = endBlock (AzothDAO.proposals w proposalId)) by apply Hs.
    destruct (IH (perform cfg blockNumber c w) Hc') as (Ht' & Hr').
    { by rewrite Hend. }
    cbn [run fold_left]. fold (run cfg history (perform cfg blockNumber c w)).
    split; [by rewrite Ht' | intros voter; by rewrite Hr']. }
  destruct H as [Ht Hr]. split_and!; [done | done |].
  intros Ha. unfold plain_tallies. unfold tallies in Ht. injection Ht as -> -> ->.
  subst w'. rewrite !run_plain_stable; [done | ..];
    apply Ha; unfold tally_handles; rewrite !elem_of_cons; auto.
Qed.

Lemma tallies_final_after_voting_witness :
  plain_tallies
    (run default_config
       [(50502, CastVote carol 1 For); (50503, RevealVotes alice 1);
        (50504, FinalizeProposal alice 1 5 3); (50505, CastVote alice 1 Against)]
       voted_world) 1
  = (5, 3, 0).
Proof.
  destruct (tallies_final_after_voting default_config
              [(50502, CastVote carol 1 For); (50503, RevealVotes alice 1);
               (50504, FinalizeProposal alice 1 5 3); (50505, CastVote alice 1 Against)]
              voted_world 1) as (_ & _ & Hp).
  - vm_compute. discriminate.
  - repeat apply Forall_cons_2; try apply Forall_nil_2; vm_compute; reflexivity.
  - rewrite Hp.
    + vm_compute. reflexivity.
    + intros h. unfold tally_handles. rewrite !elem_of_cons, elem_of_nil.
      intros [-> | [-> | [-> | []]]]; vm_compute; reflexivity.
Defined.

(** ** The vault deposit of the project summary *)

(** X15: the deposit of the project summary, up to its closing
    [cUSDC.transferFrom], goes through and keeps its books: the shares it
    issues follow the formula with the virtual offsets, in wrap-around
    arithmetic; the depositor's shares and the total shares both grow by the
    shares issued and the total assets by the amount; the depositor and the
    DAO are authorised on the depositor's new share handle; nobody else's
    shares change. *)
Theorem summary_deposit_accounting cfg sender amount w :
  ConfidentialVault.shares w sender < next_handle (engine w) →
  vault_totalShares w < next_handle (engine w) →
  vault_totalAssets w < next_handle (engine w) →
  ∃ sharesIssued w',
    SummaryVault.deposit cfg sender amount w = Ok sharesIssued w'
    ∧ let issued := plaintext_of (engine w') sharesIssued in
      issued
      = wrap256 (wrap256 amount
                 * wrap256 (plaintext_of (engine w) (vault_totalShares w)
                            + wrap256 (VIRTUAL_SHARES cfg)))
        / wrap256 (plaintext_of (engine w) (vault_totalAssets w)
                   + wrap256 (VIRTUAL_ASSETS cfg))
      ∧ shares_plaintext w' sender = wrap256 (shares_plaintext w sender + issued)
      ∧ plaintext_of (engine w') (vault_totalShares w')
        = wrap256 (plaintext_of (engine w) (vault_totalShares w) + issued)
      ∧ plaintext_of (engine w') (vault_totalAssets w')
        = wrap256 (plaintext_of (engine w) (vault_totalAssets w) + wrap256 amount)
      ∧ isAuthorized w' (ConfidentialVault.shares w' sender) sender = true
      ∧ isAuthorized w' (ConfidentialVault.shares w' sender) (dao_address cfg) = true
      ∧ ∀ other, other ≠ sender →
          ConfidentialVault.shares w' other = ConfidentialVault.shares w other.
Proof.
  intros Hs Ht Ha. unfold SummaryVault.deposit. tx_unfold.
  unfold shares_plaintext, ConfidentialVault.shares in *.
  repeat tx_step. tx_cbn. rewrite ?slot_insert_eq. do 2 eexists. split; [reflexivity |].
  cbv zeta. tx_cbn. rewrite ?slot_insert_eq. plain_facts. split_and!.
  - by plain_eval.
  - by plain_eval.
  - by plain_eval.
  - by plain_eval.
  - auth_solve.
  - auth_solve.
  - intros other Ho. by rewrite slot_insert_ne.
Qed.

Lemma summary_deposit_accounting_witness :
  ∃ sharesIssued w',
    SummaryVault.deposit default_config alice 2000 initial_world = Ok sharesIssued w'
    ∧ shares_plaintext w' alice = 2000000
    ∧ plaintext_of (engine w') (vault_totalShares w') = 2000000.
Proof.
  destruct (summary_deposit_accounting default_config alice 2000 initial_world)
    as (sharesIssued & w' & H & Hi & Hs & Ht & _).
  - vm_compute. reflexivity.
  - vm_compute. reflexivity.
  - vm_compute. reflexivity.
  - exists sharesIssued, w'. split; [exact H |]. rewrite Hs, Ht, Hi.
    split; vm_compute; reflexivity.
Defined.

(** X16: with [VIRTUAL_ASSETS = 1] and as long as nothing overflows,
    that deposit keeps the invariant [totalShares = VIRTUAL_SHARES *
    totalAssets], which holds in the empty vault, and issues exactly
    [amount * VIRTUAL_SHARES] shares: every depositor pays the same price,
    first or later. *)
Theorem summary_deposit_constant_price cfg sender amount w :
  vault_totalShares w < next_handle (engine w) →
  vault_totalAssets w < next_handle (engine w) →
  let totalAssets := plaintext_of (engine w) (vault_totalAssets w) in
  let totalShares := plaintext_of (engine w) (vault_totalShares w) in
  VIRTUAL_ASSETS cfg = 1 →
  totalShares = VIRTUAL_SHARES cfg * totalAssets →
  amount < UINT256_MOD →
  totalAssets + 1 + amount < UINT256_MOD →
  VIRTUAL_SHARES cfg * (totalAssets + 1 + amount) < UINT256_MOD →
  amount * (VIRTUAL_SHARES cfg * (totalAssets + 1)) < UINT256_MOD →
  ∃ sharesIssued w',
    SummaryVault.deposit cfg sender amount w = Ok sharesIssued w'
    ∧ plaintext_of (engine w') sharesIssued = amount * VIRTUAL_SHARES cfg
    ∧ plaintext_of (engine w') (vault_totalAssets w') = totalAssets + amount
    ∧ plaintext_of (engine w') (vault_totalShares w')
      = VIRTUAL_SHARES cfg * plaintext_of (engine w') (vault_totalAssets w').
Proof.
  intros Ht Ha totalAssets totalShares Hva Hinv Hamt Hb1 Hb2 Hb3.
  assert (Hissued :
    wrap256 (wrap256 amount * wrap256 (totalShares + wrap256 (VIRTUAL_SHARES cfg)))
    / wrap256 (totalAssets + wrap256 (VIRTUAL_ASSETS cfg))
    = amount * VIRTUAL_SHARES cfg).
  { rewrite Hva, Hinv.
    rewrite (wrap256_small amount) by done.
    rewrite (wrap256_small (VIRTUAL_SHARES cfg)) by nia.
    rewrite (wrap256_small 1) by (vm_compute; reflexivity).
    rewrite (wrap256_small (VIRTUAL_SHARES cfg * totalAssets + VIRTUAL_SHARES cfg)) by nia.
    rewrite (wrap256_small (totalAssets + 1)) by lia.
    replace (VIRTUAL_SHARES cfg * totalAssets + VIRTUAL_SHARES cfg)
      with (VIRTUAL_SHARES cfg * (totalAssets + 1)) by lia.
    rewrite wrap256_small by done.
    replace (amount * (VIRTUAL_SHARES cfg * (totalAssets + 1)))
      with (amount * VIRTUAL_SHARES cfg * (totalAssets + 1)) by lia.
    apply N.div_mul. lia. }
  unfold SummaryVault.deposit. tx_unfold.
  repeat tx_step. tx_cbn. do 2 eexists. split; [reflexivity |].
  tx_cbn. plain_facts.
  assert (Hta : wrap256 (totalAssets + wrap256 amount) = totalAssets + amount).
  { rewrite (wrap256_small amount) by done. apply wrap256_small. lia. }
  split_and!.
  - plain_eval. exact Hissued.
  - plain_eval. exact Hta.
  - plain_eval. fold totalAssets totalShares. rewrite Hissued, Hta, Hinv.
    replace (VIRTUAL_SHARES cfg * totalAssets + amount * VIRTUAL_SHARES cfg)
      with (VIRTUAL_SHARES cfg * (totalAssets + amount)) by lia.
    apply wrap256_small. nia.
Qed.

Lemma summary_deposit_constant_price_witness :
  ∃ sharesIssued w',
    SummaryVault.deposit default_config bob 500
      (commit (SummaryVault.deposit default_config alice 2000) initial_world)
    = Ok sharesIssued w'
    ∧ plaintext_of (engine w') sharesIssued = 500000.
Proof.
  destruct (summary_deposit_constant_price default_config bob 500
              (commit (SummaryVault.deposit default_config alice 2000) initial_world))
    as (sharesIssued & w' & H & Hi & _).
  - vm_compute. reflexivity.
  - vm_compute. reflexivity.
  - vm_compute. reflexivity.
  - vm_compute. reflexivity.
  - vm_compute. reflexivity.
  - vm_compute. reflexivity.
  - vm_compute. reflexivity.
  - vm_compute. reflexivity.
  - exists sharesIssued, w'. split; [exact H |]. rewrite Hi. vm_compute. reflexivity.
Defined.

(** ** The proposals page *)

(** X17: the page offers the finalise button only where the contract
    accepts: when [canFinalize] holds for a proposal as fetched from the
    contract, [finalizeProposal] sent by that member goes through in the
    current block and in every later one. *)
Theorem canFinalize_accepted w sender currentBlock voteResults proposalId blockNumber f a :
  ProposalsPage.canFinalize currentBlock (AzothDAO.isMember w sender) voteResults
    (fetchProposal w proposalId) = true →
  currentBlock <= blockNumber →
  AzothDAO.finalizeProposal sender blockNumber proposalId f a w
  = Ok tt (finalized proposalId f a w).
Proof.
  unfold ProposalsPage.canFinalize, fetchProposal. cbn.
  rewrite !andb_true_iff, orb_true_iff, !bool_decide_eq_true, N.ltb_lt.
  intros ((((He & Hs) & _) & Hm) & _) Hb.
  apply finalizeProposal_ok; [done | lia | done].
Qed.

Lemma canFinalize_accepted_witness :
  AzothDAO.finalizeProposal alice 50503 1 5 3 voted_world
  = Ok tt (finalized 1 5 3 voted_world).
Proof.
  apply (canFinalize_accepted voted_world alice 50502 {[ 1 := (5, 3, 0) ]} 1 50503 5 3).
  - vm_compute. reflexivity.
  - vm_compute. discriminate.
Defined.

(** X18: where the page offers to reveal the votes, [revealVotes] goes
    through in the current and every later block, unless the proposal is
    cancelled: [canRevealVotes] does not look at the state, and the contract
    then answers [AlreadyExecutedOrCanceled]. *)
Theorem canRevealVotes_accepted w sender currentBlock proposalId blockNumber :
  ProposalsPage.canRevealVotes currentBlock (AzothDAO.isMember w sender)
    (fetchProposal w proposalId) = true →
  currentBlock <= blockNumber →
  failure (AzothDAO.revealVotes sender blockNumber proposalId) w
  = if bool_decide (state (AzothDAO.proposals w proposalId) = Canceled)
    then Some AlreadyExecutedOrCanceled else None.
Proof.
  unfold ProposalsPage.canRevealVotes, fetchProposal. cbn.
  rewrite !andb_true_iff, negb_true_iff, N.ltb_lt.
  intros ((He & Hx) & Hm) Hb.
  unfold failure, AzothDAO.revealVotes. tx_unfold. tx_cbn. rewrite Hm. tx_cbn.
  rewrite (N_leb_false blockNumber) by lia. tx_cbn. rewrite Hx. tx_cbn.
  by destruct (bool_decide (state (AzothDAO.proposals w proposalId) = Canceled)).
Qed.

Lemma canRevealVotes_accepted_witness :
  failure (AzothDAO.revealVotes alice 50503 1) voted_world = None.
Proof.
  rewrite (canRevealVotes_accepted voted_world alice 50502 1 50503).
  - vm_compute. reflexivity.
  - vm_compute. reflexivity.
  - vm_compute. discriminate.
Defined.

Ltac page_arith :=
  repeat match goal with
         | H : context [?a <? ?b] |- _ => destruct (N.ltb_spec a b); cbn in H
         | H : context [?a <=? ?b] |- _ => destruct (N.leb_spec a b); cbn in H
         | |- context [?a <? ?b] => destruct (N.ltb_spec a b); cbn
         | |- context [?a <=? ?b] => destruct (N.leb_spec a b); cbn
         end;
  try done; try lia.

(** X19: badge and buttons of the page agree. For a proposal whose
    window does not end before it starts: the finalise button comes with the
    badge Voting Ended and with the reveal button, the queue button with
    Succeeded, the execute button with Queued; the vote button never shows
    together with reveal or finalise, and at most one of finalise, queue and
    execute shows; the badge is Active exactly for a proposal that is not
    executed, whose stored state is none of Canceled, Defeated, Succeeded and
    Queued, and whose window contains the current block. *)
Theorem page_buttons_and_label currentBlock isMember hasVotingPower voteResults proposal :
  ProposalsPage.startBlock proposal <= ProposalsPage.endBlock proposal →
  let label := ProposalsPage.getStateLabel currentBlock proposal in
  let vote := ProposalsPage.canVote currentBlock isMember hasVotingPower proposal in
  let reveal := ProposalsPage.canRevealVotes currentBlock isMember proposal in
  let finalize := ProposalsPage.canFinalize currentBlock isMember voteResults proposal in
  let queue := ProposalsPage.canQueue isMember proposal in
  let execute := ProposalsPage.canExecute isMember proposal in
  (finalize = true → label = ProposalsPage.Label_Voting_Ended ∧ reveal = true)
  ∧ (queue = true → label = ProposalsPage.Label_Succeeded)
  ∧ (execute = true → label = ProposalsPage.Label_Queued)
  ∧ (vote = true → reveal = false ∧ finalize = false)
  ∧ (finalize = true → queue = false ∧ execute = false)
  ∧ (queue = true → execute = false)
  ∧ (label = ProposalsPage.Label_Active ↔
     ProposalsPage.executed proposal = false
     ∧ (ProposalsPage.state proposal ∉ [Canceled; Defeated; Succeeded; Queued])
     ∧ ProposalsPage.startBlock proposal <= currentBlock
     ∧ currentBlock <= ProposalsPage.endBlock proposal).
Proof.
  intros Hse. cbv zeta. unfold ProposalsPage.getStateLabel, ProposalsPage.canVote,
    ProposalsPage.canRevealVotes, ProposalsPage.canFinalize, ProposalsPage.canQueue,
    ProposalsPage.canExecute.
  destruct proposal as [i pr d r sb eb st vm ex]. cbn in *.
  split_and!.
  - destruct ex, isMember, st; cbn; rewrite ?andb_false_r; try discriminate;
      intros H; page_arith.
  - destruct ex, isMember, st; cbn; try discriminate; done.
  - destruct ex, isMember, st; cbn; try discriminate; done.
  - destruct ex, isMember, hasVotingPower, st; cbn; rewrite ?andb_false_r;
      try discriminate; intros H; page_arith.
  - destruct ex, isMember, st; cbn; rewrite ?andb_false_r; try discriminate; done.
  - destruct ex, isMember, st; cbn; try discriminate; done.
  - rewrite !elem_of_cons, elem_of_nil. split.
    + destruct ex, st; cbn; try discriminate; intros H; page_arith;
        split_and!; try done; try lia; intros ?; destruct_or?; done.
    + intros (-> & Hn & Hs & He).
      destruct st; cbn; try (exfalso; apply Hn; auto 10; fail); page_arith.
Qed.

Lemma page_buttons_and_label_witness :
  ProposalsPage.getStateLabel 50502 (fetchProposal voted_world 1)
  = ProposalsPage.Label_Voting_Ended.
Proof.
  destruct (page_buttons_and_label 50502 true true {[ 1 := (5, 3, 0) ]}
              (fetchProposal voted_world 1)) as (H & _).
  - vm_compute. discriminate.
  - apply H. vm_compute. reflexivity.
Defined.

(** ** Sessions kept by the hook *)

(** X20: a session saved under a wallet address is what
    [loadSessionFromStorage] returns for that address at any time before the
    session expires; from its expiry on, loading returns nothing and removes
    the entry. A write that throws is swallowed and leaves the storage as it
    was. *)
Theorem session_storage_round_trip session walletAddress storage t :
  Session.loadSessionFromStorage t walletAddress
    (SessionHook.saveSessionToStorage false session walletAddress storage)
  = (if t <? Session.session_expiresAt session
     then (Some session,
           SessionHook.saveSessionToStorage false session walletAddress storage)
     else (None, delete walletAddress storage))
  ∧ SessionHook.saveSessionToStorage true session walletAddress storage = storage.
Proof.
  split; [| reflexivity].
  unfold Session.loadSessionFromStorage, SessionHook.saveSessionToStorage,
    SessionHook.setItem.
  rewrite lookup_insert_eq. cbn.
  destruct (N.leb_spec (Session.session_expiresAt session) t) as [H | H].
  - rewrite (N_ltb_false _ _ H). by rewrite delete_insert_eq.
  - rewrite (N_ltb_true _ _ H). by destruct session.
Qed.

(** X21: a session that [createSession] has created at time [now] holds the
    key that was drawn and expires one hour later; it is the session of the
    hook and the error is cleared. When the write to [localStorage] goes
    through, the session is stored under the wallet address: a reload before
    the hour is over finds it, a reload after that removes it. When the
    write throws, the session is returned and kept by the hook all the same,
    and [localStorage] is as it was before, so that a reload does not find
    it. Either way the entries of other wallets are not touched. *)
Theorem createSession_persists grant privateKeyToAccount storageThrows zap chainId now
    walletClient address ephemeralKeypair st session st' :
  SessionHook.createSession grant privateKeyToAccount storageThrows zap chainId now
    walletClient (Some address) ephemeralKeypair st = (Some session, st') →
  Session.keypair session = ephemeralKeypair
  ∧ Session.session_expiresAt session = now + SessionHook.SESSION_DURATION_MS
  ∧ SessionHook.sessionData st' = Some session
  ∧ SessionHook.error st' = None
  ∧ (storageThrows = false →
     (∀ t, t < now + SessionHook.SESSION_DURATION_MS →
           Session.loadSessionFromStorage t address (SessionHook.localStorage st')
           = (Some session, SessionHook.localStorage st'))
     ∧ (∀ t, now + SessionHook.SESSION_DURATION_MS <= t →
             Session.loadSessionFromStorage t address (SessionHook.localStorage st')
             = (None, delete address (SessionHook.localStorage st))))
  ∧ (storageThrows = true →
     SessionHook.localStorage st' = SessionHook.localStorage st
     ∧ ∀ t, Session.loadSessionFromStorage t address (SessionHook.localStorage st')
            = Session.loadSessionFromStorage t address (SessionHook.localStorage st))
  ∧ (∀ other, other ≠ address →
              SessionHook.localStorage st' !! other = SessionHook.localStorage st !! other).
Proof.
  unfold SessionHook.createSession.
  destruct walletClient as [client |]; [| discriminate].
  destruct (Session.getConfig zap chainId); [discriminate |].
  destruct (grant client _ _ _) as [err | voucher]; [discriminate |].
  intros [= <- <-]. cbn. split_and!; try done.
  - intros ->. split.
    + intros t Ht. unfold Session.loadSessionFromStorage,
        SessionHook.saveSessionToStorage, SessionHook.setItem.
      rewrite lookup_insert_eq. cbn. by rewrite (N_leb_false _ _ Ht).
    + intros t Ht. unfold Session.loadSessionFromStorage,
        SessionHook.saveSessionToStorage, SessionHook.setItem.
      rewrite lookup_insert_eq. cbn. rewrite (N_leb_true _ _ Ht).
      by rewrite delete_insert_eq.
  - by intros ->.
  - intros other Ho. unfold SessionHook.saveSessionToStorage, SessionHook.setItem.
    destruct storageThrows; [done |]. by rewrite lookup_insert_ne.
Qed.

Lemma createSession_persists_witness :
  let stored := SessionHook.createSession signing_sdk (λ key, key) false true 84532 1000
                  (Some alice) (Some alice) 77 empty_hook in
  let lost := SessionHook.createSession signing_sdk (λ key, key) true true 84532 1000
                (Some alice) (Some alice) 77 empty_hook in
  Session.loadSessionFromStorage 3600999 alice (SessionHook.localStorage stored.2)
  = (stored.1, SessionHook.localStorage stored.2)
  ∧ lost.1 = stored.1
  ∧ Session.loadSessionFromStorage 3600999 alice (SessionHook.localStorage lost.2)
    = (None, ∅).
Proof.
  cbv zeta. split_and!.
  - destruct (createSession_persists signing_sdk (λ key, key) false true 84532 1000
                (Some alice) alice 77 empty_hook
                (Session.mkSessionData 77 (Session.issueVoucher ∅ alice 77 3601000
                                             SessionHook.DEFAULT_SESSION_VERIFIER) 3601000)
                (SessionHook.createSession signing_sdk (λ key, key) false true 84532 1000
                   (Some alice) (Some alice) 77 empty_hook).2)
      as (_ & _ & _ & _ & H & _).
    + vm_compute. reflexivity.
    + destruct H as [H _]; [reflexivity |].
      rewrite H; [| vm_compute; reflexivity]. vm_compute. reflexivity.
  - vm_compute. reflexivity.
  - destruct (createSession_persists signing_sdk (λ key, key) true true 84532 1000
                (Some alice) alice 77 empty_hook
                (Session.mkSessionData 77 (Session.issueVoucher ∅ alice 77 3601000
                                             SessionHook.DEFAULT_SESSION_VERIFIER) 3601000)
                (SessionHook.createSession signing_sdk (λ key, key) true true 84532 1000
                   (Some alice) (Some alice) 77 empty_hook).2)
      as (_ & _ & _ & _ & _ & H & _).
    + vm_compute. reflexivity.
    + destruct H as [_ H]; [reflexivity |]. rewrite H. vm_compute. reflexivity.
Defined.

(** X22: [ensureSession] hands out the session of the hook, without
    calling the SDK, whenever the memoised validity flag is set, and
    otherwise what [createSession] gives. A session it returns was either
    valid when the flag was computed (it is not checked against the time of
    the call) or has just been created and expires one hour from now. *)
Theorem ensureSession_outcome grant privateKeyToAccount memoTime storageThrows zap
    chainId now walletClient address ephemeralKeypair st :
  let flag := Session.isSessionValid memoTime (SessionHook.sessionData st) in
  let result := SessionHook.ensureSession grant privateKeyToAccount flag storageThrows
                  zap chainId now walletClient address ephemeralKeypair st in
  (flag = true → result = (SessionHook.sessionData st, st))
  ∧ (flag = false →
     result = SessionHook.createSession grant privateKeyToAccount storageThrows zap
                chainId now walletClient address ephemeralKeypair st)
  ∧ (∀ session, result.1 = Some session →
       (SessionHook.sessionData st = Some session
        ∧ memoTime < Session.session_expiresAt session)
       ∨ (Session.session_expiresAt session = now + SessionHook.SESSION_DURATION_MS
          ∧ now < Session.session_expiresAt session)).
Proof.
  cbv zeta. unfold SessionHook.ensureSession, Session.isSessionValid.
  destruct (SessionHook.sessionData st) as [s |] eqn:Hs.
  - destruct (N.ltb_spec memoTime (Session.session_expiresAt s)) as [Hlt | Hge].
    + split_and!; [done | discriminate |]. intros session [= <-]. by left.
    + split_and!; [discriminate | done |]. intros session H. right.
      unfold SessionHook.createSession in H.
      destruct walletClient, address; try discriminate.
      destruct (Session.getConfig zap chainId); [discriminate |].
      destruct (grant _ _ _ _); [discriminate |].
      cbn in H. injection H as <-. cbn. unfold SessionHook.SESSION_DURATION_MS. lia.
  - split_and!; [discriminate | done |]. intros session H. right.
    unfold SessionHook.createSession in H.
    destruct walletClient, address; try discriminate.
    destruct (Session.getConfig zap chainId); [discriminate |].
    destruct (grant _ _ _ _); [discriminate |].
    cbn in H. injection H as <-. cbn. unfold SessionHook.SESSION_DURATION_MS. lia.
Qed.

Lemma ensureSession_outcome_witness :
  let session := Session.mkSessionData 77 alice_voucher 3600 in
  let st := SessionHook.mkHookState (Some session) false None ∅ in
  SessionHook.ensureSession signing_sdk (λ key, key) (Session.isSessionValid 10 (Some session))
    false false 1 5000 None None 78 st
  = (Some session, st).
Proof.
  cbv zeta.
  destruct (ensureSession_outcome signing_sdk (λ key, key) 10 false false 1 5000 None None 78
              (SessionHook.mkHookState
                 (Some (Session.mkSessionData 77 alice_voucher 3600)) false None ∅))
    as (H & _).
  apply H. vm_compute. reflexivity.
Defined.

(** ** Batch decryption *)

(** A key that none of the visited positions holds stays absent. *)
Lemma forEach_set_lookup_None validHandles index results m k :
  m !! k = None →
  (∀ i, (index <= i)%nat → (i < index + length results)%nat → validHandles !! i ≠ k) →
  IncoClient.forEach_set validHandles index results m !! k = None.
Proof.
  revert index m. induction results as [| v rest IH]; intros index m Hm Hk; [done |].
  cbn [IncoClient.forEach_set]. apply IH.
  - rewrite lookup_insert_ne; [done |]. apply Hk; cbn; lia.
  - intros i Hi Hlt. apply Hk; cbn; lia.
Qed.

(** Among different handles, each keeps the value set at its position. *)
Lemma forEach_set_lookup validHandles index results m i h v :
  NoDup validHandles →
  (index <= i)%nat →
  validHandles !! i = Some h →
  results !! (i - index)%nat = Some v →
  IncoClient.forEach_set validHandles index results m !! Some h = Some v.
Proof.
  intros Hnd. revert index m.
  induction results as [| r rest IH]; intros index m Hi Hh Hv; [done |].
  cbn [IncoClient.forEach_set].
  destruct (decide (i = index)) as [-> | Hne].
  - rewrite Nat.sub_diag in Hv. injection Hv as ->.
    assert (Hkeep : ∀ rest' index' m',
              (index < index')%nat → m' !! Some h = Some v →
              IncoClient.forEach_set validHandles index' rest' m' !! Some h = Some v).
    { induction rest' as [| r' rest' IH']; intros index' m' Hlt Hm'; [done |].
      cbn [IncoClient.forEach_set]. apply IH'; [lia |].
      destruct (validHandles !! index') as [h' |] eqn:Hh'.
      - rewrite lookup_insert_ne; [done |]. intros [= ->].
        pose proof (NoDup_lookup _ _ _ _ Hnd Hh Hh'). lia.
      - by rewrite lookup_insert_ne. }
    apply Hkeep; [lia |]. rewrite Hh. by rewrite lookup_insert_eq.
  - apply IH; [lia | done |].
    replace (i - index)%nat with (S (i - S index)) in Hv by lia. exact Hv.
Qed.

(** X23: zero handles are never decrypted. A request with no other
    handle is answered with the empty map without reaching the SDK, even on
    an unsupported chain; and in every map [decryptMultiple] returns, the
    zero handle is no key and every handle that is a key was asked for. *)
Theorem decryptMultiple_zero_handles attestedDecrypt zap chainId walletClient handles :
  (Forall (λ h, h = ZERO_HANDLE) handles →
   IncoClient.decryptMultiple attestedDecrypt zap chainId walletClient handles = inr ∅)
  ∧ ∀ decryptedMap,
      IncoClient.decryptMultiple attestedDecrypt zap chainId walletClient handles
      = inr decryptedMap →
      decryptedMap !! Some ZERO_HANDLE = None
      ∧ ∀ h, is_Some (decryptedMap !! Some h) → h ∈ handles.
Proof.
  unfold IncoClient.decryptMultiple. split.
  - intros Hall. rewrite bool_decide_eq_true_2; [done |].
    induction Hall as [| h l -> _ IH]; [done |].
    rewrite filter_cons_False; [done | by intros H].
  - intros m. case_bool_decide as Hlen.
    { intros [= <-]. split; [done |]. intros h [v Hv]. by rewrite lookup_empty in Hv. }
    destruct (Session.getConfig zap chainId); [discriminate |].
    destruct (attestedDecrypt walletClient _) as [err | results]; [discriminate |].
    intros [= <-]. split.
    + apply forEach_set_lookup_None; [done |].
      intros i _ _ Hi. apply (list_elem_of_lookup_2 _ _ _) in Hi.
      apply list_elem_of_filter in Hi as [Hz _]. done.
    + intros h [v Hv].
      destruct (decide (h ∈ filter (λ h, h ≠ ZERO_HANDLE) handles)) as [Hin | Hout].
      * by apply list_elem_of_filter in Hin as [_ Hin].
      * rewrite forEach_set_lookup_None in Hv; [done | done |].
        intros i _ _ Hi. apply Hout. by eapply list_elem_of_lookup_2.
Qed.

Lemma decryptMultiple_zero_handles_witness :
  IncoClient.decryptMultiple (λ _ _, inl Session.UnsupportedChain) false 1 alice [0; 0]
  = inr ∅.
Proof.
  destruct (decryptMultiple_zero_handles (λ _ _, inl Session.UnsupportedChain) false 1
              alice [0; 0]) as [H _].
  apply H. repeat constructor.
Defined.

(** X24: when the handles asked for, zero handles apart, are pairwise
    different, the map [decryptMultiple] returns gives each of them the value
    at its own position in the answer of the SDK, and no value where the
    answer is too short. *)
Theorem decryptMultiple_lookup attestedDecrypt zap chainId walletClient handles
    decryptedMap results i h :
  IncoClient.decryptMultiple attestedDecrypt zap chainId walletClient handles
  = inr decryptedMap →
  let validHandles := filter (λ h, h ≠ ZERO_HANDLE) handles in
  attestedDecrypt walletClient validHandles = inr results →
  NoDup validHandles →
  validHandles !! i = Some h →
  decryptedMap !! Some h = results !! i.
Proof.
  unfold IncoClient.decryptMultiple. intros H Hr Hnd Hh.
  set (validHandles := filter (λ h, h ≠ ZERO_HANDLE) handles) in *.
  case_bool_decide as Hlen.
  { apply lookup_lt_Some in Hh. lia. }
  destruct (Session.getConfig zap chainId); [discriminate |].
  rewrite Hr in H. injection H as <-.
  destruct (results !! i) as [v |] eqn:Hv.
  - eapply forEach_set_lookup; [done | lia | done |]. by rewrite Nat.sub_0_r.
  - apply forEach_set_lookup_None; [done |].
    intros j _ Hj Hk. cbn in Hj.
    pose proof (NoDup_lookup _ _ _ _ Hnd Hh Hk) as ->.
    apply lookup_ge_None in Hv. lia.
Qed.

Lemma decryptMultiple_lookup_witness :
  IncoClient.forEach_set [5; 7] 0 [50; 70] ∅ !! Some 7 = [50; 70] !! 1%nat.
Proof.
  apply (decryptMultiple_lookup tenfold_sdk true 84532 alice [0; 5; 0; 7]
           (IncoClient.forEach_set [5; 7] 0 [50; 70] ∅) [50; 70] 1 7).
  - vm_compute. reflexivity.
  - vm_compute. reflexivity.
  - vm_compute. repeat constructor; rewrite ?elem_of_cons, ?elem_of_nil; intros H;
      destruct_or?; done.
  - vm_compute. reflexivity.
Defined.
